(** * persephone-client-py: the endpoint resolver, the API client and the
      build helper of [persephone_client/__init__.py], embedded in Rocq.

    Python values are modelled by [pyval] (the JSON fragment of Python: None,
    bool, int, str, list, dict with string keys; floats are left out).  A
    Python [str] is a Rocq [string] whose characters are the code points
    below 256.  Exceptions are the [Raise] outcome of a small state monad
    whose state survives a raise, as attributes of a Python object do. *)

From Stdlib Require Import Bool Arith ZArith Lia List Ascii String.
From Stdlib Require Import Numbers.DecimalString.
Import ListNotations.
Open Scope bool_scope.
Open Scope list_scope.
Open Scope string_scope.
Set Warnings "-register-all".

(* ------------------------------------------------------------------ *)
(** ** Python [str] methods used by the library and by urllib.parse *)
(* ------------------------------------------------------------------ *)

Module PyStr.

(** [bool(s)] of a str: the empty string is false. *)
Definition nonempty (s : string) : bool :=
  match s with EmptyString => false | String _ _ => true end.

(** [c in s] for a one-character [c]. *)
Fixpoint contains (c : ascii) (s : string) : bool :=
  match s with
  | EmptyString => false
  | String a r => Ascii.eqb a c || contains c r
  end.

Fixpoint forallb (p : ascii -> bool) (s : string) : bool :=
  match s with
  | EmptyString => true
  | String a r => p a && forallb p r
  end.

(** [s.partition(c)] when [c] occurs in [s]: the text before the first
    [c] and the text after it; [None] when [c] does not occur
    ([s.find(c) == -1]). *)
Fixpoint partition (c : ascii) (s : string) : option (string * string) :=
  match s with
  | EmptyString => None
  | String a r =>
      if Ascii.eqb a c then Some (EmptyString, r)
      else match partition c r with
           | Some (u, v) => Some (String a u, v)
           | None => None
           end
  end.

(** [s.rpartition(c)]: the same around the last occurrence. *)
Fixpoint rpartition (c : ascii) (s : string) : option (string * string) :=
  match s with
  | EmptyString => None
  | String a r =>
      match rpartition c r with
      | Some (u, v) => Some (String a u, v)
      | None => if Ascii.eqb a c then Some (EmptyString, r) else None
      end
  end.

(** [s.split(c)]: never the empty list. *)
Fixpoint split (c : ascii) (s : string) : list string :=
  match s with
  | EmptyString => [EmptyString]
  | String a r =>
      if Ascii.eqb a c then EmptyString :: split c r
      else match split c r with
           | w :: ws => String a w :: ws
           | [] => [String a EmptyString]
           end
  end.

(** [sep.join(l)]. *)
Fixpoint join (sep : string) (l : list string) : string :=
  match l with
  | [] => EmptyString
  | [w] => w
  | w :: ws => w ++ sep ++ join sep ws
  end.

(** The longest prefix whose characters satisfy [p], and the rest. *)
Fixpoint span (p : ascii -> bool) (s : string) : string * string :=
  match s with
  | EmptyString => (EmptyString, EmptyString)
  | String a r =>
      if p a then let '(u, v) := span p r in (String a u, v)
      else (EmptyString, s)
  end.

(** [s.lstrip(chars)], [s.rstrip(chars)] and [s.strip(chars)], the set
    [chars] given as a predicate. *)
Fixpoint lstrip (p : ascii -> bool) (s : string) : string :=
  match s with
  | EmptyString => EmptyString
  | String a r => if p a then lstrip p r else s
  end.

Fixpoint rstrip (p : ascii -> bool) (s : string) : string :=
  match s with
  | EmptyString => EmptyString
  | String a r =>
      match rstrip p r with
      | EmptyString => if p a then EmptyString else String a EmptyString
      | r' => String a r'
      end
  end.

Definition strip (p : ascii -> bool) (s : string) : string :=
  rstrip p (lstrip p s).

(** Every character satisfying [p] removed: the effect of
    [s.replace(b, "")] for each one-character [b] of a set. *)
Fixpoint remove (p : ascii -> bool) (s : string) : string :=
  match s with
  | EmptyString => EmptyString
  | String a r => if p a then remove p r else String a (remove p r)
  end.

(** [s.startswith(pre)], that is [s[:len(pre)] == pre]. *)
Fixpoint startswith (pre s : string) : bool :=
  match pre with
  | EmptyString => true
  | String a pre' =>
      match s with
      | EmptyString => false
      | String b s' => Ascii.eqb a b && startswith pre' s'
      end
  end.

(** [s[n:]]. *)
Fixpoint drop (n : nat) (s : string) : string :=
  match n, s with
  | S n', String _ r => drop n' r
  | _, _ => s
  end.

(** [s[:-1]]. *)
Fixpoint drop_last (s : string) : string :=
  match s with
  | EmptyString => EmptyString
  | String a EmptyString => EmptyString
  | String a r => String a (drop_last r)
  end.

Definition code (c : ascii) : nat := nat_of_ascii c.

Definition between (lo hi : nat) (c : ascii) : bool :=
  (lo <=? code c)%nat && (code c <=? hi)%nat.

Definition is_upper (c : ascii) : bool := between 65 90 c.
Definition is_lower (c : ascii) : bool := between 97 122 c.
Definition is_digit (c : ascii) : bool := between 48 57 c.

(** [c.isascii() and c.isalpha()]. *)
Definition is_ascii_alpha (c : ascii) : bool := is_upper c || is_lower c.

Definition lower_char (c : ascii) : ascii :=
  if is_upper c then ascii_of_nat (code c + 32) else c.

(** [s.lower()] on the characters below 128; the model applies it to
    scheme names only, which are ASCII. *)
Fixpoint lower (s : string) : string :=
  match s with
  | EmptyString => EmptyString
  | String a r => String (lower_char a) (lower r)
  end.

(** [x in l] for a list of strings. *)
Definition mem (x : string) (l : list string) : bool :=
  existsb (String.eqb x) l.

End PyStr.

(* ------------------------------------------------------------------ *)
(** ** Python values *)
(* ------------------------------------------------------------------ *)

(** The values the library handles: identifiers, build metadata, request
    payloads and decoded JSON bodies.  A dict keeps its items in insertion
    order; its keys are strings and are taken to be distinct, as in a
    Python dict. *)
Inductive pyval : Type :=
| PNone
| PBool (b : bool)
| PInt (z : Z)
| PStr (s : string)
| PList (l : list pyval)
| PDict (d : list (string * pyval)).

Module Py.

(** The double quote character. *)
Definition dq : ascii := "034"%char.

(** Truth value testing, as [if x:] and [if not x:] do it: None, False,
    zero and empty containers are false. *)
Definition truthy (v : pyval) : bool :=
  match v with
  | PNone => false
  | PBool b => b
  | PInt z => negb (z =? 0)%Z
  | PStr s => PyStr.nonempty s
  | PList l => match l with [] => false | _ => true end
  | PDict d => match d with [] => false | _ => true end
  end.

(** [str(n)] of an int. *)
Definition str_of_int (z : Z) : string :=
  NilZero.string_of_int (Z.to_int z).

Definition hex_digit (n : nat) : ascii :=
  if (n <? 10)%nat then ascii_of_nat (48 + n) else ascii_of_nat (87 + n).

(** Two lower-case hexadecimal digits of a character code. *)
Definition hex2 (c : ascii) : string :=
  let n := PyStr.code c in
  String (hex_digit (n / 16)) (String (hex_digit (n mod 16)) EmptyString).

(** [c.isprintable()] for the code points below 256. *)
Definition printable (c : ascii) : bool :=
  let n := PyStr.code c in
  ((32 <=? n) && (n <? 127) || (161 <=? n) && negb (n =? 173))%nat.

Definition repr_char (quote c : ascii) : string :=
  if Ascii.eqb c quote || Ascii.eqb c "\"%char then String "\"%char (String c EmptyString)
  else if Ascii.eqb c "009"%char then "\t"
  else if Ascii.eqb c "010"%char then "\n"
  else if Ascii.eqb c "013"%char then "\r"
  else if printable c then String c EmptyString
  else "\x" ++ hex2 c.

Fixpoint repr_chars (quote : ascii) (s : string) : string :=
  match s with
  | EmptyString => EmptyString
  | String c r => repr_char quote c ++ repr_chars quote r
  end.

(** [repr(s)] of a str: single quotes, unless the text holds a single
    quote and no double quote. *)
Definition repr_str (s : string) : string :=
  let quote :=
    if PyStr.contains "'"%char s && negb (PyStr.contains dq s)
    then dq else "'"%char in
  String quote (repr_chars quote s ++ String quote EmptyString).

(** [repr(v)]. *)
Fixpoint repr (v : pyval) : string :=
  match v with
  | PNone => "None"
  | PBool true => "True"
  | PBool false => "False"
  | PInt z => str_of_int z
  | PStr s => repr_str s
  | PList l =>
      "[" ++ PyStr.join ", " (List.map repr l) ++ "]"
  | PDict d =>
      "{" ++ PyStr.join ", "
               ((fix items (d : list (string * pyval)) : list string :=
                   match d with
                   | [] => []
                   | (k, x) :: rest => (repr_str k ++ ": " ++ repr x) :: items rest
                   end) d) ++ "}"
  end.

(** [str(v)], which is what ['{}'.format(v)] yields. *)
Definition str (v : pyval) : string :=
  match v with
  | PStr s => s
  | _ => repr v
  end.

(** ['{}/'.format(v)]. *)
Definition format_slash (v : pyval) : string := str v ++ "/".

(** One character of a JSON string under [ensure_ascii=True]: the
    characters from space to tilde stand for themselves, except the
    backslash and the double quote. *)
Definition json_char (c : ascii) : string :=
  if Ascii.eqb c "\"%char then "\\"
  else if Ascii.eqb c dq then String "\"%char (String dq EmptyString)
  else if Ascii.eqb c "008"%char then "\b"
  else if Ascii.eqb c "012"%char then "\f"
  else if Ascii.eqb c "010"%char then "\n"
  else if Ascii.eqb c "013"%char then "\r"
  else if Ascii.eqb c "009"%char then "\t"
  else if PyStr.between 32 126 c then String c EmptyString
  else "\u00" ++ hex2 c.

Fixpoint json_chars (s : string) : string :=
  match s with
  | EmptyString => EmptyString
  | String c r => json_char c ++ json_chars r
  end.

Definition json_string (s : string) : string :=
  String dq (json_chars s ++ String dq EmptyString).

(** [json.dumps(v)] with the default separators [", "] and [": "]. *)
Fixpoint json_dumps (v : pyval) : string :=
  match v with
  | PNone => "null"
  | PBool true => "true"
  | PBool false => "false"
  | PInt z => str_of_int z
  | PStr s => json_string s
  | PList l => "[" ++ PyStr.join ", " (List.map json_dumps l) ++ "]"
  | PDict d =>
      "{" ++ PyStr.join ", "
               ((fix items (d : list (string * pyval)) : list string :=
                   match d with
                   | [] => []
                   | (k, x) :: rest =>
                       (json_string k ++ ": " ++ json_dumps x) :: items rest
                   end) d) ++ "}"
  end.

End Py.

(* ------------------------------------------------------------------ *)
(** ** Requests, responses, exceptions *)
(* ------------------------------------------------------------------ *)

Inductive http_method : Type := GET | POST | DELETE.

(** One call of [requests.get], [requests.post] or [requests.delete], with
    the keyword arguments the library passes: [auth], [json], [data] and
    [files].  An argument that is not passed is [None], [[]] or [[]]. *)
Record request : Type := mk_request {
  req_method : http_method;
  req_url : string;
  req_auth : string * string;
  req_json : option pyval;
  req_data : list (string * pyval);
  req_files : list (string * list Byte.byte)
}.

(** What the library reads of a [requests.Response]: [status_code], the
    body [text], and the value of [resp.json()], [None] when the body is
    not a JSON document (decoding JSON is the transport's business). *)
Record response : Type := mk_response {
  status_code : Z;
  text : string;
  json_body : option pyval
}.

Inductive exn : Type :=
| PersephoneException (msg : string)   (* the library's own exception *)
| HTTPError (resp : response)          (* requests: raise_for_status *)
| JSONDecodeError                      (* requests: resp.json() *)
| ConnectionError                      (* requests: no response at all *)
| ValueError                           (* urllib.parse.urlsplit *)
| KeyError (key : string)              (* d[key], key missing *)
| TypeError.                           (* x[key], x not a dict *)

Inductive result (A : Type) : Type :=
| Return (a : A)
| Raise (e : exn).
Arguments Return {A} a.
Arguments Raise {A} e.

(** A computation over a mutable state [S]: it returns or raises, and the
    state it leaves behind is observable in both cases. *)
Definition M (S A : Type) : Type := S -> result A * S.

Definition ret {S A} (a : A) : M S A := fun s => (Return a, s).
Definition raise {S A} (e : exn) : M S A := fun s => (Raise e, s).
Definition bind {S A B} (m : M S A) (k : A -> M S B) : M S B :=
  fun s => match m s with
           | (Return a, s') => k a s'
           | (Raise e, s') => (Raise e, s')
           end.
Definition get_state {S} : M S S := fun s => (Return s, s).

(** A computation without state: a pure function that may raise. *)
Definition pure_result {S A} (r : result A) : M S A := fun s => (r, s).

Definition rbind {A B} (r : result A) (k : A -> result B) : result B :=
  match r with
  | Return a => k a
  | Raise e => Raise e
  end.

Declare Scope py_scope.
Delimit Scope py_scope with py.
Notation "x <- m ;; k" := (bind m (fun x => k))
  (at level 61, m at next level, right associativity) : py_scope.
Notation "m ;; k" := (bind m (fun _ => k))
  (at level 61, right associativity) : py_scope.
Notation "x <-- r ;; k" := (rbind r (fun x => k))
  (at level 61, r at next level, right associativity) : py_scope.
Open Scope py_scope.

(** [d[key]]. *)
Fixpoint dict_get (d : list (string * pyval)) (key : string) : result pyval :=
  match d with
  | [] => Raise (KeyError key)
  | (k, v) :: rest => if String.eqb k key then Return v else dict_get rest key
  end.

(** [x[key]] for a string [key]: only a dict can be indexed by a string. *)
Definition getitem (x : pyval) (key : string) : result pyval :=
  match x with
  | PDict d => dict_get d key
  | _ => Raise TypeError
  end.

(* ------------------------------------------------------------------ *)
(** ** urllib.parse (CPython 3.11): urlsplit, urlparse, urlunparse, urljoin *)
(* ------------------------------------------------------------------ *)

(** [urlsplit] validates a host written in square brackets with the
    [ipaddress] module.  That check is the one part of [urljoin] taken as
    a parameter: [check_bracketed_host h] is true when
    [_check_bracketed_host(h)] returns and false when it raises
    [ValueError].  It is consulted only for an authority that holds both
    brackets. *)
Class Ipaddress : Type := { check_bracketed_host : string -> bool }.

Record SplitResult : Type := mk_split {
  s_scheme : string; s_netloc : string; s_path : string;
  s_query : string; s_fragment : string
}.

Record ParseResult : Type := mk_parse {
  scheme : string; netloc : string; path : string;
  params : string; query : string; fragment : string
}.

Module Urllib.

Definition uses_relative : list string :=
  [""; "ftp"; "http"; "gopher"; "nntp"; "imap";
   "wais"; "file"; "https"; "shttp"; "mms";
   "prospero"; "rtsp"; "rtspu"; "sftp";
   "svn"; "svn+ssh"; "ws"; "wss"].

Definition uses_netloc : list string :=
  [""; "ftp"; "http"; "gopher"; "nntp"; "telnet";
   "imap"; "wais"; "file"; "mms"; "https"; "shttp";
   "snews"; "prospero"; "rtsp"; "rtspu"; "rsync";
   "svn"; "svn+ssh"; "sftp"; "nfs"; "git"; "git+ssh";
   "ws"; "wss"].

Definition uses_params : list string :=
  [""; "ftp"; "hdl"; "prospero"; "http"; "imap";
   "https"; "shttp"; "rtsp"; "rtspu"; "sip"; "sips";
   "mms"; "sftp"; "tel"].

(** [c in scheme_chars]: letters, digits, [+], [-] and [.]. *)
Definition scheme_char (c : ascii) : bool :=
  PyStr.is_ascii_alpha c || PyStr.is_digit c ||
  Ascii.eqb c "+"%char || Ascii.eqb c "-"%char || Ascii.eqb c "."%char.

(** [_WHATWG_C0_CONTROL_OR_SPACE]: the code points 0 to 32. *)
Definition c0_control_or_space (c : ascii) : bool :=
  (PyStr.code c <=? 32)%nat.

(** [_UNSAFE_URL_BYTES_TO_REMOVE]: tab, carriage return, line feed. *)
Definition unsafe_url_byte (c : ascii) : bool :=
  Ascii.eqb c "009"%char || Ascii.eqb c "013"%char || Ascii.eqb c "010"%char.

(** The delimiters that end the authority: [/], [?] and [#]. *)
Definition netloc_delim (c : ascii) : bool :=
  Ascii.eqb c "/"%char || Ascii.eqb c "?"%char || Ascii.eqb c "#"%char.

(** [_splitnetloc(url, 2)], given [url[2:]]: the authority runs to the
    first delimiter. *)
Definition _splitnetloc (rest : string) : string * string :=
  PyStr.span (fun c => negb (netloc_delim c)) rest.

(** [_splitparams(url)].  [urlparse] calls it only when [;] occurs in
    [url]; the last case is what the slices give when it does not. *)
Definition _splitparams (url : string) : string * string :=
  match PyStr.rpartition "/"%char url with
  | Some (hd, tl) =>
      match PyStr.partition ";"%char tl with
      | Some (a, b) => (hd ++ "/" ++ a, b)
      | None => (url, "")
      end
  | None =>
      match PyStr.partition ";"%char url with
      | Some (a, b) => (a, b)
      | None => (PyStr.drop_last url, url)
      end
  end.

(** [urlunsplit] and [urlunparse]. *)
Definition urlunsplit (r : SplitResult) : string :=
  let url := s_path r in
  let url :=
    if PyStr.nonempty (s_netloc r)
       || (PyStr.nonempty (s_scheme r)
           && PyStr.mem (s_scheme r) uses_netloc
           && negb (PyStr.startswith "//" url))
    then
      let url :=
        if PyStr.nonempty url && negb (PyStr.startswith "/" url)
        then "/" ++ url else url in
      "//" ++ s_netloc r ++ url
    else url in
  let url := if PyStr.nonempty (s_scheme r) then s_scheme r ++ ":" ++ url else url in
  let url := if PyStr.nonempty (s_query r) then url ++ "?" ++ s_query r else url in
  if PyStr.nonempty (s_fragment r) then url ++ "#" ++ s_fragment r else url.

Definition urlunparse (r : ParseResult) : string :=
  let url := if PyStr.nonempty (params r) then path r ++ ";" ++ params r else path r in
  urlunsplit (mk_split (scheme r) (netloc r) url (query r) (fragment r)).

(** [segments[1:-1] = filter(None, segments[1:-1])]: the empty strings
    between the first and the last element are dropped. *)
Definition filter_middle (l : list string) : list string :=
  match l with
  | [] => []
  | x :: [] => [x]
  | x :: r => x :: List.filter PyStr.nonempty (removelast r) ++ [last r ""]
  end.

(** The loop of [urljoin] over the segments. *)
Definition resolve_step (resolved : list string) (seg : string) : list string :=
  if String.eqb seg ".." then removelast resolved
  else if String.eqb seg "." then resolved
  else resolved ++ [seg].

Definition resolve (segments : list string) : list string :=
  let resolved := fold_left resolve_step segments [] in
  let l := last segments "" in
  if String.eqb l "." || String.eqb l ".." then resolved ++ [""] else resolved.

Section WithIpaddress.
Context {ip : Ipaddress}.

(** [_check_bracketed_netloc(netloc)]: true when it returns. *)
Definition _check_bracketed_netloc (netloc : string) : bool :=
  let hostname_and_port :=
    match PyStr.rpartition "@"%char netloc with
    | Some (_, after) => after
    | None => netloc
    end in
  match PyStr.partition "["%char hostname_and_port with
  | Some (before_bracket, bracketed) =>
      if PyStr.nonempty before_bracket then false
      else
        let '(hostname, port) :=
          match PyStr.partition "]"%char bracketed with
          | Some (h, p) => (h, p)
          | None => (bracketed, "")
          end in
        if PyStr.nonempty port && negb (PyStr.startswith ":" port) then false
        else check_bracketed_host hostname
  | None =>
      let hostname :=
        match PyStr.partition ":"%char hostname_and_port with
        | Some (h, _) => h
        | None => hostname_and_port
        end in
      check_bracketed_host hostname
  end.

(** [urlsplit(url, scheme)] with [allow_fragments=True].  [_checknetloc]
    does not appear: it raises only when NFKC normalisation of the
    authority yields one of [/?#@:], which no code point below 256
    does. *)
Definition urlsplit (url scheme : string) : result SplitResult :=
  let url := PyStr.lstrip c0_control_or_space url in
  let scheme := PyStr.strip c0_control_or_space scheme in
  let url := PyStr.remove unsafe_url_byte url in
  let scheme := PyStr.remove unsafe_url_byte scheme in
  let '(scheme, url) :=
    match PyStr.partition ":"%char url with
    | Some (String a pre, rest) =>
        if PyStr.is_ascii_alpha a && PyStr.forallb scheme_char (String a pre)
        then (PyStr.lower (String a pre), rest)
        else (scheme, url)
    | _ => (scheme, url)
    end in
  netloc_url <--
    (if PyStr.startswith "//" url then
       let '(netloc, url') := _splitnetloc (PyStr.drop 2 url) in
       let ob := PyStr.contains "["%char netloc in
       let cb := PyStr.contains "]"%char netloc in
       if (ob && negb cb) || (cb && negb ob) then Raise ValueError
       else if ob && cb then
         if _check_bracketed_netloc netloc then Return (netloc, url')
         else Raise ValueError
       else Return (netloc, url')
     else Return ("", url)) ;;
  let '(netloc, url) := netloc_url in
  let '(url, fragment) :=
    match PyStr.partition "#"%char url with
    | Some (u, f) => (u, f)
    | None => (url, "")
    end in
  let '(url, query) :=
    match PyStr.partition "?"%char url with
    | Some (u, q) => (u, q)
    | None => (url, "")
    end in
  Return (mk_split scheme netloc url query fragment).

(** [urlparse(url, scheme)]. *)
Definition urlparse (url scheme : string) : result ParseResult :=
  r <-- urlsplit url scheme ;;
  let '(url, params) :=
    if PyStr.mem (s_scheme r) uses_params && PyStr.contains ";"%char (s_path r)
    then _splitparams (s_path r)
    else (s_path r, "") in
  Return (mk_parse (s_scheme r) (s_netloc r) url params (s_query r) (s_fragment r)).

(** [urljoin(base, url)]. *)
Definition urljoin (base url : string) : result string :=
  if negb (PyStr.nonempty base) then Return url
  else if negb (PyStr.nonempty url) then Return base
  else
    b <-- urlparse base "" ;;
    u <-- urlparse url (scheme b) ;;
    if negb (String.eqb (scheme u) (scheme b))
       || negb (PyStr.mem (scheme u) uses_relative)
    then Return url
    else if PyStr.mem (scheme u) uses_netloc && PyStr.nonempty (netloc u)
    then Return (urlunparse u)
    else
      let netloc' := if PyStr.mem (scheme u) uses_netloc then netloc b else netloc u in
      if negb (PyStr.nonempty (path u)) && negb (PyStr.nonempty (params u))
      then
        let query' := if PyStr.nonempty (query u) then query u else query b in
        Return (urlunparse
                  (mk_parse (scheme u) netloc' (path b) (params b) query' (fragment u)))
      else
        let base_parts := PyStr.split "/"%char (path b) in
        let base_parts :=
          if PyStr.nonempty (last base_parts "") then removelast base_parts
          else base_parts in
        let segments :=
          if PyStr.startswith "/" (path u) then PyStr.split "/"%char (path u)
          else filter_middle (base_parts ++ PyStr.split "/"%char (path u)) in
        let resolved_path := resolve segments in
        let joined := PyStr.join "/" resolved_path in
        let path' := if PyStr.nonempty joined then joined else "/" in
        Return (urlunparse
                  (mk_parse (scheme u) netloc' path' (params u) (query u) (fragment u))).

End WithIpaddress.

End Urllib.

(* ------------------------------------------------------------------ *)
(** ** requests *)
(* ------------------------------------------------------------------ *)

(** The remote service seen through [requests]: its answer to a call,
    given the calls made before; [None] when no response arrives
    (connection refused, timeout). *)
Class Network : Type := { server : list request -> request -> option response }.

Module Requests.
Section WithNetwork.
Context {net : Network}.

(** One call of [requests.get/post/delete]: the call is recorded, and
    the response is returned whatever its status. *)
Definition send (req : request) : M (list request) response :=
  fun sent =>
    match server sent req with
    | Some resp => (Return resp, (sent ++ [req])%list)
    | None => (Raise ConnectionError, (sent ++ [req])%list)
    end.

Definition get (url : string) (auth : string * string) : M (list request) response :=
  send (mk_request GET url auth None [] []).

Definition delete (url : string) (auth : string * string) : M (list request) response :=
  send (mk_request DELETE url auth None [] []).

Definition post (url : string) (auth : string * string) (json : option pyval)
           (data : list (string * pyval)) (files : list (string * list Byte.byte))
  : M (list request) response :=
  send (mk_request POST url auth json data files).

End WithNetwork.

(** [Response.raise_for_status()] of the [requests] library: [HTTPError]
    for a client error (400 to 499) or a server error (500 to 599),
    nothing for any other status. *)
Definition raise_for_status {S} (resp : response) : M S unit :=
  if (400 <=? status_code resp)%Z && (status_code resp <? 600)%Z
  then raise (HTTPError resp)
  else ret tt.

(** [Response.json()]. *)
Definition json {S} (resp : response) : M S pyval :=
  match json_body resp with
  | Some v => ret v
  | None => raise JSONDecodeError
  end.

End Requests.

(** An optional argument: [None] when the caller leaves it out, and the
    parameter then takes its default, which is Python's [None] for every
    optional parameter of the library. *)
Definition default_None (arg : option pyval) : pyval :=
  match arg with
  | Some v => v
  | None => PNone
  end.

(* ------------------------------------------------------------------ *)
(** ** class PersephoneClient *)
(* ------------------------------------------------------------------ *)

Module PersephoneClient.

Record t : Type := __init__ {
  root_endpoint : string;
  username : string;
  password : string
}.

(** [self._auth = (username, password)]. *)
Definition _auth (self : t) : string * string := (username self, password self).

Section Endpoints.
Context {ip : Ipaddress}.

Definition _get_api_endpoint (self : t) : result string :=
  Urllib.urljoin (root_endpoint self) "api/v1/".

Definition _get_projects_endpoint (self : t) : result string :=
  e <-- _get_api_endpoint self ;;
  Urllib.urljoin e "projects/".

Definition _get_project_endpoint (self : t) (project_id : pyval) : result string :=
  e <-- _get_projects_endpoint self ;;
  Urllib.urljoin e (Py.format_slash project_id).

Definition _get_builds_endpoint (self : t) (project_id : pyval) : result string :=
  e <-- _get_project_endpoint self project_id ;;
  Urllib.urljoin e "builds/".

Definition _get_build_endpoint (self : t) (project_id build_id : pyval) : result string :=
  e <-- _get_builds_endpoint self project_id ;;
  Urllib.urljoin e (Py.format_slash build_id).

Definition _get_screenshots_endpoint (self : t) (project_id build_id : pyval)
  : result string :=
  e <-- _get_build_endpoint self project_id build_id ;;
  Urllib.urljoin e "screenshots/".

End Endpoints.

Section Operations.
Context {ip : Ipaddress} {net : Network}.

Definition get_projects (self : t) : M (list request) pyval :=
  url <- pure_result (_get_projects_endpoint self) ;;
  resp <- Requests.get url (_auth self) ;;
  Requests.raise_for_status resp ;;
  Requests.json resp.

Definition get_project (self : t) (project_id : pyval) : M (list request) pyval :=
  url <- pure_result (_get_project_endpoint self project_id) ;;
  resp <- Requests.get url (_auth self) ;;
  Requests.raise_for_status resp ;;
  Requests.json resp.

Definition get_builds (self : t) (project_id : pyval) : M (list request) pyval :=
  url <- pure_result (_get_builds_endpoint self project_id) ;;
  resp <- Requests.get url (_auth self) ;;
  Requests.raise_for_status resp ;;
  Requests.json resp.

Definition get_build (self : t) (project_id build_id : pyval) : M (list request) pyval :=
  url <- pure_result (_get_build_endpoint self project_id build_id) ;;
  resp <- Requests.get url (_auth self) ;;
  Requests.raise_for_status resp ;;
  Requests.json resp.

(** The [json=] argument of [create_build]. *)
Definition create_build_payload
           (commit_hash branch_name original_build_number
            original_build_url pull_request_id : option pyval) : pyval :=
  PDict [("commit_hash", default_None commit_hash);
         ("branch_name", default_None branch_name);
         ("original_build_number", default_None original_build_number);
         ("original_build_url", default_None original_build_url);
         ("pull_request_id", default_None pull_request_id)].

Definition create_build (self : t) (project_id : pyval)
           (commit_hash branch_name original_build_number
            original_build_url pull_request_id : option pyval)
  : M (list request) pyval :=
  url <- pure_result (_get_builds_endpoint self project_id) ;;
  resp <- Requests.post url (_auth self)
            (Some (create_build_payload commit_hash branch_name
                     original_build_number original_build_url pull_request_id))
            [] [] ;;
  Requests.raise_for_status resp ;;
  Requests.json resp.

(** [delete_build] has no [return]: its value is [None]. *)
Definition delete_build (self : t) (project_id build_id : pyval) : M (list request) unit :=
  url <- pure_result (_get_build_endpoint self project_id build_id) ;;
  resp <- Requests.delete url (_auth self) ;;
  Requests.raise_for_status resp.

Definition finish_build (self : t) (project_id build_id : pyval) : M (list request) pyval :=
  url <- pure_result (e <-- _get_build_endpoint self project_id build_id ;;
                      Urllib.urljoin e "finish") ;;
  resp <- Requests.post url (_auth self) None [] [] ;;
  Requests.raise_for_status resp ;;
  Requests.json resp.

Definition fail_build (self : t) (project_id build_id : pyval) : M (list request) pyval :=
  url <- pure_result (e <-- _get_build_endpoint self project_id build_id ;;
                      Urllib.urljoin e "fail") ;;
  resp <- Requests.post url (_auth self) None [] [] ;;
  Requests.raise_for_status resp ;;
  Requests.json resp.

Definition post_screenshot (self : t) (project_id build_id name : pyval)
           (image_data : list Byte.byte) (metadata : pyval)
  : M (list request) pyval :=
  url <- pure_result (_get_screenshots_endpoint self project_id build_id) ;;
  resp <- Requests.post url (_auth self) None
            [("name", name); ("metadata", PStr (Py.json_dumps metadata))]
            [("image", image_data)] ;;
  Requests.raise_for_status resp ;;
  Requests.json resp.

End Operations.

End PersephoneClient.

(* ------------------------------------------------------------------ *)
(** ** class PersephoneBuildHelper *)
(* ------------------------------------------------------------------ *)

Module PersephoneBuildHelper.

(** The attributes of a helper. *)
Record t : Type := mk {
  client : PersephoneClient.t;
  project_id : pyval;
  commit_hash : pyval;
  branch_name : pyval;
  original_build_number : pyval;
  original_build_url : pyval;
  pull_request_id : pyval;
  build_id : pyval
}.

Definition __init__ (root_endpoint username password : string) (project_id : pyval)
           (commit_hash branch_name original_build_number
            original_build_url pull_request_id build_id : option pyval) : t :=
  mk (PersephoneClient.__init__ root_endpoint username password)
     project_id
     (default_None commit_hash)
     (default_None branch_name)
     (default_None original_build_number)
     (default_None original_build_url)
     (default_None pull_request_id)
     (default_None build_id).

(** What a method of the helper can change: the helper object itself and
    the record of the calls made through [requests]. *)
Record world : Type := mk_world {
  self : t;
  sent : list request
}.

(** The helper [h] after [h.build_id = v]. *)
Definition with_build_id (h : t) (v : pyval) : t :=
  mk (client h) (project_id h) (commit_hash h) (branch_name h)
     (original_build_number h) (original_build_url h) (pull_request_id h) v.

(** [self.build_id = v]. *)
Definition set_build_id (v : pyval) : M world unit :=
  fun w => (Return tt, mk_world (with_build_id (self w) v) (sent w)).

(** A call of a client method from a helper method: it acts on the
    record of calls only. *)
Definition call_client {A} (m : M (list request) A) : M world A :=
  fun w =>
    let '(r, sent') := m (sent w) in
    (r, mk_world (self w) sent').

Definition already_running : string :=
  "There is already a build running. " ++
  "Please finish or fail the previous one before creating a new one.".

Definition no_build_running : string :=
  "No build is running. Please create a build first.".

Section Methods.
Context {ip : Ipaddress} {net : Network}.

Definition create_build : M world unit :=
  w <- get_state ;;
  if Py.truthy (build_id (self w)) then
    raise (PersephoneException already_running)
  else
    build <- call_client
               (PersephoneClient.create_build
                  (client (self w))
                  (project_id (self w))
                  (Some (commit_hash (self w)))
                  (Some (branch_name (self w)))
                  (Some (original_build_number (self w)))
                  (Some (original_build_url (self w)))
                  (Some (pull_request_id (self w)))) ;;
    id <- pure_result (getitem build "id") ;;
    set_build_id id.

Definition delete_build : M world unit :=
  w <- get_state ;;
  if negb (Py.truthy (build_id (self w))) then
    raise (PersephoneException no_build_running)
  else
    call_client (PersephoneClient.delete_build
                   (client (self w)) (project_id (self w)) (build_id (self w))) ;;
    set_build_id PNone.

Definition finish_build : M world unit :=
  w <- get_state ;;
  if negb (Py.truthy (build_id (self w))) then
    raise (PersephoneException no_build_running)
  else
    call_client (PersephoneClient.finish_build
                   (client (self w)) (project_id (self w)) (build_id (self w))) ;;
    set_build_id PNone.

Definition fail_build : M world unit :=
  w <- get_state ;;
  if negb (Py.truthy (build_id (self w))) then
    raise (PersephoneException no_build_running)
  else
    call_client (PersephoneClient.fail_build
                   (client (self w)) (project_id (self w)) (build_id (self w))) ;;
    set_build_id PNone.

Definition upload_screenshot (name : pyval) (image_data : list Byte.byte)
           (metadata : option pyval) : M world pyval :=
  w <- get_state ;;
  if negb (Py.truthy (build_id (self w))) then
    raise (PersephoneException no_build_running)
  else
    screenshot <- call_client
                    (PersephoneClient.post_screenshot
                       (client (self w)) (project_id (self w)) (build_id (self w))
                       name image_data (default_None metadata)) ;;
    pure_result (getitem screenshot "id").

End Methods.

End PersephoneBuildHelper.

(* ------------------------------------------------------------------ *)
(** ** Vocabulary of the properties *)
(* ------------------------------------------------------------------ *)

(** *** Well-formed inputs of the endpoint resolver *)

(** The unreserved characters of a URL: letters, digits, [-], [.], [_]
    and [~]. *)
Definition plain_char (c : ascii) : bool :=
  PyStr.is_ascii_alpha c || PyStr.is_digit c ||
  Ascii.eqb c "-"%char || Ascii.eqb c "."%char ||
  Ascii.eqb c "_"%char || Ascii.eqb c "~"%char.

(** A path segment that needs no escaping and is not a dot segment. *)
Definition plain_segment (s : string) : bool :=
  PyStr.nonempty s && PyStr.forallb plain_char s &&
  negb (String.eqb s ".") && negb (String.eqb s "..").

(** A URL-safe identifier: an int, or a str that is a plain segment. *)
Definition url_safe_id (v : pyval) : bool :=
  match v with
  | PInt _ => true
  | PStr s => plain_segment s
  | _ => false
  end.

(** [seg1/seg2/.../segn/]. *)
Fixpoint dirs (segs : list string) : string :=
  match segs with
  | [] => ""
  | s :: r => s ++ "/" ++ dirs r
  end.

(** [scheme://host/seg1/.../segn/]: an absolute URL that ends with a
    slash. *)
Definition abs_url (sch host : string) (segs : list string) : string :=
  sch ++ "://" ++ host ++ "/" ++ dirs segs.

(** A lower-case scheme name, as [urlsplit] recognises and returns it. *)
Definition scheme_ok (sch : string) : bool :=
  match sch with String a _ => PyStr.is_ascii_alpha a | EmptyString => false end
  && PyStr.forallb Urllib.scheme_char sch
  && String.eqb (PyStr.lower sch) sch.

(** The last segment of a relative reference: empty (the reference ends
    with a slash) or plain. *)
Definition leaf_ok (leaf : string) : bool :=
  negb (PyStr.nonempty leaf) || plain_segment leaf.

(** Not a dot segment. *)
Definition not_dot (s : string) : bool :=
  negb (String.eqb s "..") && negb (String.eqb s ".").

(** A character [urlsplit] does not remove: not a tab, a carriage return
    or a line feed. *)
Definition safe_char (c : ascii) : bool := negb (Urllib.unsafe_url_byte c).

(** A character of the path [urlsplit] returns: kept, and neither [?] nor
    [#]. *)
Definition kept_char (c : ascii) : bool :=
  safe_char c && negb (Ascii.eqb c "?"%char) && negb (Ascii.eqb c "#"%char).

(** A character of a path segment: the slash is left out as well. *)
Definition segment_char (c : ascii) : bool :=
  kept_char c && negb (Ascii.eqb c "/"%char).

(** A character of a relative reference made of plain segments. *)
Definition ref_char (c : ascii) : bool := plain_char c || Ascii.eqb c "/"%char.

(** A segment of a resolved path: not empty, not a dot segment. *)
Definition raw_segment (s : string) : bool :=
  PyStr.nonempty s && PyStr.forallb segment_char s && not_dot s.

(** A character of the authority [urlsplit] returns. *)
Definition netloc_char (c : ascii) : bool :=
  safe_char c && negb (Urllib.netloc_delim c).

(** The segments [urljoin] has resolved so far are in order: after the
    first one, which may be empty, each is a raw segment. *)
Definition resolved_ok (acc : list string) : bool :=
  match acc with
  | [] => true
  | y :: t => PyStr.forallb segment_char y && not_dot y && List.forallb raw_segment t
  end.

(** The segments of a resolved path that carry a name: all but an empty
    first one. *)
Definition named_segments (acc : list string) : list string :=
  match acc with
  | [] => []
  | y :: t => if PyStr.nonempty y then y :: t else t
  end.

Section Roots.
Context {ip : Ipaddress}.

(** [urlsplit] raises no [ValueError] on the authority [net]. *)
Definition netloc_accepted (net : string) : bool :=
  let ob := PyStr.contains "["%char net in
  let cb := PyStr.contains "]"%char net in
  if (ob && negb cb) || (cb && negb ob) then false
  else if ob && cb then Urllib._check_bracketed_netloc net
  else true.

(** The parts of an absolute URL [scheme://net/seg1/.../segn/] that
    [urlsplit] reads back as they are: a scheme that [urljoin] resolves
    relative references against, an authority, and the segments of a
    resolved path. *)
Definition regular_base (sch net : string) (segs : list string) : bool :=
  scheme_ok sch && PyStr.mem sch Urllib.uses_relative
  && PyStr.forallb netloc_char net && netloc_accepted net
  && List.forallb raw_segment segs.

(** An absolute root endpoint: [urlparse] accepts it and finds a scheme
    that [urljoin] resolves relative references against (http, https,
    ftp, ...). *)
Definition absolute_root (root : string) : bool :=
  match Urllib.urlparse root "" with
  | Return r => PyStr.nonempty (scheme r) && PyStr.mem (scheme r) Urllib.uses_relative
  | Raise _ => false
  end.

End Roots.

(** *** The operations of the two classes as data *)

Inductive client_call : Type :=
| Get_projects
| Get_project (project_id : pyval)
| Get_builds (project_id : pyval)
| Get_build (project_id build_id : pyval)
| Create_build (project_id : pyval)
    (commit_hash branch_name original_build_number
     original_build_url pull_request_id : option pyval)
| Delete_build (project_id build_id : pyval)
| Finish_build (project_id build_id : pyval)
| Fail_build (project_id build_id : pyval)
| Post_screenshot (project_id build_id name : pyval)
    (image_data : list Byte.byte) (metadata : pyval).

Inductive helper_call : Type :=
| Helper_create_build
| Helper_delete_build
| Helper_finish_build
| Helper_fail_build
| Helper_upload_screenshot (name : pyval) (image_data : list Byte.byte)
    (metadata : option pyval).

(** The operations that act on the current build. *)
Definition build_scoped (o : helper_call) : bool :=
  match o with
  | Helper_create_build => false
  | _ => true
  end.

(** The operations that end the current build. *)
Definition terminal (o : helper_call) : bool :=
  match o with
  | Helper_delete_build | Helper_finish_build | Helper_fail_build => true
  | _ => false
  end.

(** Status codes outside 200..299. *)
Definition non_2xx (resp : response) : bool :=
  (status_code resp <? 200)%Z || (300 <=? status_code resp)%Z.

(** Status codes 400..599. *)
Definition error_status (resp : response) : bool :=
  (400 <=? status_code resp)%Z && (status_code resp <? 600)%Z.

Section Runs.
Context {ip : Ipaddress} {net : Network}.

(** A method that returns nothing returns [None]. *)
Definition returning_None {S} (m : M S unit) : M S pyval :=
  m ;; ret PNone.

Definition client_run (c : PersephoneClient.t) (call : client_call)
  : M (list request) pyval :=
  match call with
  | Get_projects => PersephoneClient.get_projects c
  | Get_project p => PersephoneClient.get_project c p
  | Get_builds p => PersephoneClient.get_builds c p
  | Get_build p b => PersephoneClient.get_build c p b
  | Create_build p ch bn obn obu pr => PersephoneClient.create_build c p ch bn obn obu pr
  | Delete_build p b => returning_None (PersephoneClient.delete_build c p b)
  | Finish_build p b => PersephoneClient.finish_build c p b
  | Fail_build p b => PersephoneClient.fail_build c p b
  | Post_screenshot p b n i m => PersephoneClient.post_screenshot c p b n i m
  end.

Definition helper_run (o : helper_call) : M PersephoneBuildHelper.world pyval :=
  match o with
  | Helper_create_build => returning_None PersephoneBuildHelper.create_build
  | Helper_delete_build => returning_None PersephoneBuildHelper.delete_build
  | Helper_finish_build => returning_None PersephoneBuildHelper.finish_build
  | Helper_fail_build => returning_None PersephoneBuildHelper.fail_build
  | Helper_upload_screenshot n i m => PersephoneBuildHelper.upload_screenshot n i m
  end.

(** A caller that makes the calls of [os] one after the other on the same
    helper, catching what each raises: the outcomes, and the final
    state. *)
Fixpoint helper_run_all (os : list helper_call) (w : PersephoneBuildHelper.world)
  : list (result pyval) * PersephoneBuildHelper.world :=
  match os with
  | [] => ([], w)
  | o :: rest =>
      let '(r, w') := helper_run o w in
      let '(rs, w'') := helper_run_all rest w' in
      (r :: rs, w'')
  end.

End Runs.

(** *** What each operation asks of the service, and what it makes of
        the answer *)

Section Prepared.
Context {ip : Ipaddress}.

(** The call of [requests] a client operation prepares; [Raise] when an
    endpoint cannot be resolved. *)
Definition prepared_request (c : PersephoneClient.t) (call : client_call)
  : result request :=
  let auth := PersephoneClient._auth c in
  match call with
  | Get_projects =>
      url <-- PersephoneClient._get_projects_endpoint c ;;
      Return (mk_request GET url auth None [] [])
  | Get_project p =>
      url <-- PersephoneClient._get_project_endpoint c p ;;
      Return (mk_request GET url auth None [] [])
  | Get_builds p =>
      url <-- PersephoneClient._get_builds_endpoint c p ;;
      Return (mk_request GET url auth None [] [])
  | Get_build p b =>
      url <-- PersephoneClient._get_build_endpoint c p b ;;
      Return (mk_request GET url auth None [] [])
  | Create_build p ch bn obn obu pr =>
      url <-- PersephoneClient._get_builds_endpoint c p ;;
      Return (mk_request POST url auth
                (Some (PersephoneClient.create_build_payload ch bn obn obu pr)) [] [])
  | Delete_build p b =>
      url <-- PersephoneClient._get_build_endpoint c p b ;;
      Return (mk_request DELETE url auth None [] [])
  | Finish_build p b =>
      e <-- PersephoneClient._get_build_endpoint c p b ;;
      url <-- Urllib.urljoin e "finish" ;;
      Return (mk_request POST url auth None [] [])
  | Fail_build p b =>
      e <-- PersephoneClient._get_build_endpoint c p b ;;
      url <-- Urllib.urljoin e "fail" ;;
      Return (mk_request POST url auth None [] [])
  | Post_screenshot p b n i m =>
      url <-- PersephoneClient._get_screenshots_endpoint c p b ;;
      Return (mk_request POST url auth None
                [("name", n); ("metadata", PStr (Py.json_dumps m))]
                [("image", i)])
  end.

End Prepared.

(** Every operation but [delete_build] decodes the body of the response. *)
Definition decodes_body (call : client_call) : bool :=
  match call with
  | Delete_build _ _ => false
  | _ => true
  end.

(** The outcome of a client operation, given the answer to its call. *)
Definition outcome_of (call : client_call) (answer : option response) : result pyval :=
  match answer with
  | None => Raise ConnectionError
  | Some resp =>
      if error_status resp then Raise (HTTPError resp)
      else if decodes_body call then
             match json_body resp with
             | Some v => Return v
             | None => Raise JSONDecodeError
             end
           else Return PNone
  end.

(** The client operation a helper operation forwards to. *)
Definition helper_client_call (o : helper_call) (h : PersephoneBuildHelper.t)
  : client_call :=
  let pid := PersephoneBuildHelper.project_id h in
  let bid := PersephoneBuildHelper.build_id h in
  match o with
  | Helper_create_build =>
      Create_build pid
        (Some (PersephoneBuildHelper.commit_hash h))
        (Some (PersephoneBuildHelper.branch_name h))
        (Some (PersephoneBuildHelper.original_build_number h))
        (Some (PersephoneBuildHelper.original_build_url h))
        (Some (PersephoneBuildHelper.pull_request_id h))
  | Helper_delete_build => Delete_build pid bid
  | Helper_finish_build => Finish_build pid bid
  | Helper_fail_build => Fail_build pid bid
  | Helper_upload_screenshot n i m => Post_screenshot pid bid n i (default_None m)
  end.

(** The guard of a helper operation: a build-scoped operation needs a
    true [build_id], [create_build] a false one. *)
Definition guard_passes (o : helper_call) (h : PersephoneBuildHelper.t) : bool :=
  if build_scoped o then Py.truthy (PersephoneBuildHelper.build_id h)
  else negb (Py.truthy (PersephoneBuildHelper.build_id h)).

Definition guard_message (o : helper_call) : string :=
  if build_scoped o then PersephoneBuildHelper.no_build_running
  else PersephoneBuildHelper.already_running.

(** What a helper operation makes of the outcome of its client call. *)
Definition helper_finishes (o : helper_call) (w : PersephoneBuildHelper.world)
           (r : result pyval) (sent' : list request)
  : result pyval * PersephoneBuildHelper.world :=
  let h := PersephoneBuildHelper.self w in
  match r with
  | Raise e => (Raise e, PersephoneBuildHelper.mk_world h sent')
  | Return v =>
      match o with
      | Helper_create_build =>
          match getitem v "id" with
          | Return id =>
              (Return PNone,
               PersephoneBuildHelper.mk_world
                 (PersephoneBuildHelper.with_build_id h id) sent')
          | Raise e => (Raise e, PersephoneBuildHelper.mk_world h sent')
          end
      | Helper_upload_screenshot _ _ _ =>
          (getitem v "id", PersephoneBuildHelper.mk_world h sent')
      | _ =>
          (Return PNone,
           PersephoneBuildHelper.mk_world
             (PersephoneBuildHelper.with_build_id h PNone) sent')
      end
  end.


(** One upload: the arguments of [upload_screenshot]. *)
Definition upload : Type := pyval * list Byte.byte * option pyval.

Definition upload_call (u : upload) : helper_call :=
  let '(name, image_data, metadata) := u in
  Helper_upload_screenshot name image_data metadata.

(** The call [upload_screenshot] makes for one upload, given the
    screenshots endpoint and the credentials. *)
Definition upload_request (url : string) (auth : string * string) (u : upload)
  : request :=
  let '(name, image_data, metadata) := u in
  mk_request POST url auth None
    [("name", name); ("metadata", PStr (Py.json_dumps (default_None metadata)))]
    [("image", image_data)].

(** *** Concrete inputs of the examples *)

(** A platform on which no bracketed host is valid. *)
Definition no_bracketed_host : Ipaddress := {| check_bracketed_host := fun _ => false |}.

(** A service that gives the same answer to every call. *)
Definition always (resp : response) : Network := {| server := fun _ _ => Some resp |}.

(** A response with the given status and JSON document. *)
Definition json_response (status : Z) (v : pyval) : response :=
  mk_response status (Py.json_dumps v) (Some v).

(** A relative root endpoint whose leading segments change each time the
    URL is parsed again: [urlsplit] strips the leading spaces, and the
    segment [..] then laid bare is dropped by the next join. *)
Definition crafted_root : string := "x/../   ../  ../ ../a:b/".

Definition example_client : PersephoneClient.t :=
  PersephoneClient.__init__ "http://example.com/" "user" "secret".

(** A helper for project 1 of [root], with [build_id] as given. *)
Definition example_helper (root : string) (build_id : option pyval)
  : PersephoneBuildHelper.t :=
  PersephoneBuildHelper.__init__ root "user" "secret" (PInt 1)
    (Some (PStr "c0ffee")) None None None None build_id.

(* ------------------------------------------------------------------ *)
(** ** Properties of the Python string operations *)
(* ------------------------------------------------------------------ *)

Lemma append_nil_r (s : string) : s ++ "" = s.
Proof. induction s as [|a s IH]; simpl; [reflexivity | now rewrite IH]. Qed.

Lemma append_assoc (a b c : string) : (a ++ b) ++ c = a ++ (b ++ c).
Proof. induction a as [|x a IH]; simpl; [reflexivity | now rewrite IH]. Qed.

Lemma str_forallb_app p (a b : string) :
  PyStr.forallb p (a ++ b) = PyStr.forallb p a && PyStr.forallb p b.
Proof.
  induction a as [|x a IH]; simpl; [reflexivity|].
  rewrite IH. now rewrite andb_assoc.
Qed.

Lemma str_forallb_impl (p q : ascii -> bool) (s : string) :
  (forall c, p c = true -> q c = true) ->
  PyStr.forallb p s = true -> PyStr.forallb q s = true.
Proof.
  intros Himp. induction s as [|x s IH]; simpl; [reflexivity|].
  intros Hs. apply andb_prop in Hs as [Hx Hr].
  rewrite (Himp _ Hx), (IH Hr). reflexivity.
Qed.

Lemma str_forallb_and (p q : ascii -> bool) (s : string) :
  PyStr.forallb (fun c => p c && q c) s = PyStr.forallb p s && PyStr.forallb q s.
Proof.
  induction s as [|x s IH]; simpl; [reflexivity|].
  rewrite IH. destruct (p x), (q x), (PyStr.forallb p s); reflexivity.
Qed.

(** *** Characters that do not occur *)

Lemma contains_absent (p : ascii -> bool) (c : ascii) (s : string) :
  (forall a, p a = true -> Ascii.eqb a c = false) ->
  PyStr.forallb p s = true -> PyStr.contains c s = false.
Proof.
  intros Hp. induction s as [|x s IH]; simpl; [reflexivity|].
  intros Hs. apply andb_prop in Hs as [Hx Hr].
  rewrite (Hp _ Hx), (IH Hr). reflexivity.
Qed.

Lemma absent_forallb (c : ascii) (s : string) :
  PyStr.contains c s = false -> PyStr.forallb (fun x => negb (Ascii.eqb x c)) s = true.
Proof.
  induction s as [|x s IH]; simpl; [reflexivity|].
  intros Hs. apply orb_false_elim in Hs as [-> Hs]. now rewrite (IH Hs).
Qed.

Lemma partition_absent (c : ascii) (s : string) :
  PyStr.contains c s = false -> PyStr.partition c s = None.
Proof.
  induction s as [|x s IH]; simpl; [reflexivity|].
  intros Hs. apply orb_false_elim in Hs as [Hx Hr].
  rewrite Hx, (IH Hr). reflexivity.
Qed.

Lemma partition_none (c : ascii) (s : string) :
  PyStr.partition c s = None -> PyStr.contains c s = false.
Proof.
  induction s as [|x s IH]; simpl; [reflexivity|].
  destruct (Ascii.eqb x c); [discriminate|].
  destruct (PyStr.partition c s) as [[u v]|]; [discriminate|]. auto.
Qed.

Lemma partition_before (c : ascii) (s u v : string) :
  PyStr.partition c s = Some (u, v) -> PyStr.contains c u = false.
Proof.
  revert u v. induction s as [|x s IH]; simpl; intros u v; [discriminate|].
  destruct (Ascii.eqb x c) eqn:Hx.
  - now intros [= <- <-].
  - destruct (PyStr.partition c s) as [[u' v']|]; [|discriminate].
    intros [= <- <-]. simpl. now rewrite Hx, (IH u' v' eq_refl).
Qed.

Lemma partition_stop (p : ascii -> bool) (c : ascii) (a r : string) :
  (forall x, p x = true -> Ascii.eqb x c = false) ->
  PyStr.forallb p a = true ->
  PyStr.partition c (a ++ String c r) = Some (a, r).
Proof.
  intros Hp. induction a as [|x a IH]; simpl.
  - now rewrite Ascii.eqb_refl.
  - intros Ha. apply andb_prop in Ha as [Hx Hr].
    rewrite (Hp _ Hx), (IH Hr). reflexivity.
Qed.

Lemma rpartition_dir (s : string) :
  PyStr.rpartition "/" (s ++ "/") = Some (s, "").
Proof.
  induction s as [|x s IH]; [reflexivity|].
  cbn [append PyStr.rpartition]. now rewrite IH.
Qed.

Lemma span_stop (p : ascii -> bool) (a : string) (c : ascii) (r : string) :
  PyStr.forallb p a = true -> p c = false ->
  PyStr.span p (a ++ String c r) = (a, String c r).
Proof.
  intros Ha Hc. induction a as [|x a IH]; simpl.
  - now rewrite Hc.
  - simpl in Ha. apply andb_prop in Ha as [Hx Hr].
    rewrite Hx, (IH Hr). reflexivity.
Qed.

(** *** Characters that are kept *)

Lemma remove_absent (p q : ascii -> bool) (s : string) :
  (forall a, p a = true -> q a = false) ->
  PyStr.forallb p s = true -> PyStr.remove q s = s.
Proof.
  intros Hp. induction s as [|x s IH]; simpl; [reflexivity|].
  intros Hs. apply andb_prop in Hs as [Hx Hr].
  rewrite (Hp _ Hx), (IH Hr). reflexivity.
Qed.

Lemma remove_forallb (p : ascii -> bool) (s : string) :
  PyStr.forallb (fun c => negb (p c)) (PyStr.remove p s) = true.
Proof.
  induction s as [|x s IH]; simpl; [reflexivity|].
  destruct (p x) eqn:Hx; simpl; [assumption | now rewrite Hx].
Qed.

Lemma lstrip_keep (p q : ascii -> bool) (s : string) :
  (forall a, p a = true -> q a = false) ->
  PyStr.forallb p s = true -> PyStr.lstrip q s = s.
Proof.
  intros Hp. destruct s as [|x s]; simpl; [reflexivity|].
  intros Hs. apply andb_prop in Hs as [Hx _].
  now rewrite (Hp _ Hx).
Qed.

Lemma lstrip_first (q : ascii -> bool) (a : ascii) (r : string) :
  q a = false -> PyStr.lstrip q (String a r) = String a r.
Proof. intros Ha. simpl. now rewrite Ha. Qed.

Lemma rstrip_keep (p q : ascii -> bool) (s : string) :
  (forall a, p a = true -> q a = false) ->
  PyStr.forallb p s = true -> PyStr.rstrip q s = s.
Proof.
  intros Hp. induction s as [|x s IH]; simpl; [reflexivity|].
  intros Hs. apply andb_prop in Hs as [Hx Hr].
  rewrite (IH Hr). destruct s; [now rewrite (Hp _ Hx) | reflexivity].
Qed.

(** *** What the parts of a string inherit from it *)

Lemma partition_forallb (P : ascii -> bool) (c : ascii) (s u v : string) :
  PyStr.partition c s = Some (u, v) -> PyStr.forallb P s = true ->
  PyStr.forallb P u = true /\ PyStr.forallb P v = true.
Proof.
  revert u v. induction s as [|x s IH]; simpl; intros u v; [discriminate|].
  intros Hpart Hs. apply andb_prop in Hs as [Hx Hs].
  destruct (Ascii.eqb x c).
  - injection Hpart as <- <-. auto.
  - destruct (PyStr.partition c s) as [[u' v']|]; [|discriminate].
    injection Hpart as <- <-. destruct (IH u' v' eq_refl Hs) as [Hu Hv].
    simpl. now rewrite Hx, Hu, Hv.
Qed.

Lemma rpartition_forallb (P : ascii -> bool) (c : ascii) (s u v : string) :
  PyStr.rpartition c s = Some (u, v) -> PyStr.forallb P s = true ->
  PyStr.forallb P u = true /\ PyStr.forallb P v = true.
Proof.
  revert u v. induction s as [|x s IH]; simpl; intros u v; [discriminate|].
  intros Hpart Hs. apply andb_prop in Hs as [Hx Hs].
  destruct (PyStr.rpartition c s) as [[u' v']|].
  - injection Hpart as <- <-. destruct (IH u' v' eq_refl Hs) as [Hu Hv].
    simpl. now rewrite Hx, Hu, Hv.
  - destruct (Ascii.eqb x c); [|discriminate].
    injection Hpart as <- <-. auto.
Qed.

Lemma span_forallb (P q : ascii -> bool) (s u v : string) :
  PyStr.span q s = (u, v) -> PyStr.forallb P s = true ->
  PyStr.forallb P u = true /\ PyStr.forallb P v = true /\ PyStr.forallb q u = true.
Proof.
  revert u v. induction s as [|x s IH]; simpl; intros u v.
  - intros [= <- <-]. auto.
  - intros Hspan Hs. apply andb_prop in Hs as [Hx Hs].
    destruct (q x) eqn:Hq.
    + destruct (PyStr.span q s) as [u' v']. injection Hspan as <- <-.
      destruct (IH u' v' eq_refl Hs) as (Hu & Hv & Hqu).
      simpl. now rewrite Hx, Hq, Hu, Hv, Hqu.
    + injection Hspan as <- <-. simpl. now rewrite Hx, Hs.
Qed.

Lemma drop_forallb (P : ascii -> bool) (n : nat) (s : string) :
  PyStr.forallb P s = true -> PyStr.forallb P (PyStr.drop n s) = true.
Proof.
  revert s. induction n as [|n IH]; intros s Hs; [now destruct s|].
  destruct s as [|x s]; [reflexivity|]. simpl in *.
  apply andb_prop in Hs as [_ Hs]. auto.
Qed.

Lemma drop_last_forallb (P : ascii -> bool) (s : string) :
  PyStr.forallb P s = true -> PyStr.forallb P (PyStr.drop_last s) = true.
Proof.
  induction s as [|x s IH]; [reflexivity|].
  intros Hs. simpl in Hs. apply andb_prop in Hs as [Hx Hs].
  destruct s as [|y s]; [reflexivity|].
  change (PyStr.drop_last (String x (String y s)))
    with (String x (PyStr.drop_last (String y s))).
  cbn [PyStr.forallb]. rewrite Hx. exact (IH Hs).
Qed.

(** *** Character classes *)

Ltac by_ascii_cases c :=
  destruct c as [[] [] [] [] [] [] [] []];
  vm_compute; intros; try discriminate; repeat split.

Lemma plain_char_facts c :
  plain_char c = true ->
  segment_char c = true /\ Urllib.c0_control_or_space c = false /\
  Ascii.eqb c ":"%char = false /\ Ascii.eqb c "/"%char = false.
Proof. by_ascii_cases c. Qed.

Lemma ref_char_facts c :
  ref_char c = true ->
  kept_char c = true /\ Urllib.c0_control_or_space c = false /\
  Ascii.eqb c ":"%char = false /\ Ascii.eqb c ";"%char = false.
Proof. by_ascii_cases c. Qed.

Lemma segment_char_facts c :
  segment_char c = true -> kept_char c = true /\ Ascii.eqb c "/"%char = false.
Proof. by_ascii_cases c. Qed.

Lemma kept_char_facts c :
  kept_char c = true ->
  safe_char c = true /\ Ascii.eqb c "#"%char = false /\ Ascii.eqb c "?"%char = false.
Proof. by_ascii_cases c. Qed.

Lemma safe_char_facts c : safe_char c = true -> Urllib.unsafe_url_byte c = false.
Proof. by_ascii_cases c. Qed.

Lemma netloc_char_facts c :
  netloc_char c = true -> safe_char c = true /\ Urllib.netloc_delim c = false.
Proof. by_ascii_cases c. Qed.

Lemma scheme_char_facts c :
  Urllib.scheme_char c = true ->
  safe_char c = true /\ Ascii.eqb c ":"%char = false /\
  Urllib.c0_control_or_space c = false.
Proof. by_ascii_cases c. Qed.

Lemma lower_char_alpha c :
  PyStr.is_ascii_alpha c = true -> PyStr.is_ascii_alpha (PyStr.lower_char c) = true.
Proof. by_ascii_cases c. Qed.

Lemma lower_char_scheme c :
  Urllib.scheme_char c = true -> Urllib.scheme_char (PyStr.lower_char c) = true.
Proof. by_ascii_cases c. Qed.

Lemma lower_char_idem c : PyStr.lower_char (PyStr.lower_char c) = PyStr.lower_char c.
Proof. destruct c as [[] [] [] [] [] [] [] []]; reflexivity. Qed.

(** *** Schemes *)

Lemma lower_idem s : PyStr.lower (PyStr.lower s) = PyStr.lower s.
Proof.
  induction s as [|x s IH]; simpl; [reflexivity|]. now rewrite lower_char_idem, IH.
Qed.

Lemma lower_scheme_chars s :
  PyStr.forallb Urllib.scheme_char s = true ->
  PyStr.forallb Urllib.scheme_char (PyStr.lower s) = true.
Proof.
  induction s as [|x s IH]; simpl; [reflexivity|].
  intros Hs. apply andb_prop in Hs as [Hx Hs].
  now rewrite (lower_char_scheme _ Hx), (IH Hs).
Qed.

(** The scheme [urlsplit] finds in a URL is a lower-case scheme name. *)
Lemma lower_scheme_ok a pre :
  PyStr.is_ascii_alpha a = true ->
  PyStr.forallb Urllib.scheme_char (String a pre) = true ->
  scheme_ok (PyStr.lower (String a pre)) = true.
Proof.
  intros Ha Hs. unfold scheme_ok.
  rewrite (lower_scheme_chars _ Hs), lower_idem, String.eqb_refl.
  simpl. now rewrite (lower_char_alpha _ Ha).
Qed.

Lemma scheme_ok_facts sch :
  scheme_ok sch = true ->
  PyStr.nonempty sch = true
  /\ PyStr.forallb Urllib.scheme_char sch = true
  /\ PyStr.lower sch = sch
  /\ PyStr.strip Urllib.c0_control_or_space sch = sch
  /\ PyStr.remove Urllib.unsafe_url_byte sch = sch.
Proof.
  unfold scheme_ok. intros Hs.
  apply andb_prop in Hs as [Hs Hlow]. apply andb_prop in Hs as [Ha Hsc].
  apply String.eqb_eq in Hlow.
  repeat split; try assumption.
  - now destruct sch.
  - unfold PyStr.strip.
    rewrite (lstrip_keep Urllib.scheme_char), (rstrip_keep Urllib.scheme_char);
      try assumption; try reflexivity; intros a Hc; now apply scheme_char_facts.
  - apply (remove_absent Urllib.scheme_char); [|assumption].
    intros a Hc. apply safe_char_facts. now apply scheme_char_facts.
Qed.

(** Every scheme [urljoin] resolves against has an authority. *)
Lemma relative_uses_netloc sch :
  PyStr.mem sch Urllib.uses_relative = true -> PyStr.mem sch Urllib.uses_netloc = true.
Proof.
  unfold PyStr.mem. intros Hs. apply existsb_exists in Hs as (s & Hin & Heq).
  apply String.eqb_eq in Heq. subst s.
  cbn [In Urllib.uses_relative] in Hin.
  repeat (destruct Hin as [<-|Hin]; [reflexivity|]). contradiction.
Qed.

(* ------------------------------------------------------------------ *)
(** ** What urlsplit and urlparse return *)
(* ------------------------------------------------------------------ *)

Section ParseFacts.
Context {ip : Ipaddress}.

(** Whatever the input, the scheme [urlsplit] returns is the default or a
    lower-case scheme name, the authority was accepted and holds no
    delimiter, and the path holds no [?], no [#] and no removed
    character. *)
Lemma urlsplit_facts (url dflt : string) (r : SplitResult) :
  Urllib.urlsplit url dflt = Return r ->
  (s_scheme r = PyStr.remove Urllib.unsafe_url_byte
                  (PyStr.strip Urllib.c0_control_or_space dflt)
   \/ scheme_ok (s_scheme r) = true)
  /\ PyStr.forallb netloc_char (s_netloc r) = true
  /\ netloc_accepted (s_netloc r) = true
  /\ PyStr.forallb kept_char (s_path r) = true.
Proof.
  unfold Urllib.urlsplit.
  set (u1 := PyStr.remove Urllib.unsafe_url_byte
               (PyStr.lstrip Urllib.c0_control_or_space url)).
  set (d1 := PyStr.remove Urllib.unsafe_url_byte
               (PyStr.strip Urllib.c0_control_or_space dflt)).
  assert (H1 : PyStr.forallb safe_char u1 = true) by apply remove_forallb.
  assert (Hscheme : exists sch u2,
             match PyStr.partition ":" u1 with
             | Some (String a pre, rest) =>
                 if PyStr.is_ascii_alpha a && PyStr.forallb Urllib.scheme_char (String a pre)
                 then (PyStr.lower (String a pre), rest)
                 else (d1, u1)
             | _ => (d1, u1)
             end = (sch, u2)
             /\ PyStr.forallb safe_char u2 = true
             /\ (sch = d1 \/ scheme_ok sch = true)).
  { destruct (PyStr.partition ":" u1) as [[[|a pre] rest]|] eqn:Hp;
      try solve [exists d1, u1; auto].
    destruct (PyStr.is_ascii_alpha a
              && PyStr.forallb Urllib.scheme_char (String a pre)) eqn:Hok;
      [|exists d1, u1; auto].
    apply andb_prop in Hok as [Ha Hs].
    exists (PyStr.lower (String a pre)), rest. split; [reflexivity|]. split.
    - now destruct (partition_forallb safe_char _ _ _ _ Hp H1).
    - right. now apply lower_scheme_ok. }
  destruct Hscheme as (sch & u2 & -> & H2 & Hsch).
  assert (Hnet : forall x : result (string * string),
             x = (if PyStr.startswith "//" u2 then
                    let '(netloc, url') := Urllib._splitnetloc (PyStr.drop 2 u2) in
                    let ob := PyStr.contains "["%char netloc in
                    let cb := PyStr.contains "]"%char netloc in
                    if (ob && negb cb) || (cb && negb ob) then Raise ValueError
                    else if ob && cb then
                           if Urllib._check_bracketed_netloc netloc
                           then Return (netloc, url')
                           else Raise ValueError
                         else Return (netloc, url')
                  else Return ("", u2)) ->
             forall net u3, x = Return (net, u3) ->
             PyStr.forallb netloc_char net = true /\ netloc_accepted net = true
             /\ PyStr.forallb safe_char u3 = true).
  { intros x -> net u3.
    destruct (PyStr.startswith "//" u2).
    - destruct (Urllib._splitnetloc (PyStr.drop 2 u2)) as [n u'] eqn:Hspan.
      unfold Urllib._splitnetloc in Hspan.
      destruct (span_forallb safe_char _ _ _ _ Hspan (drop_forallb _ 2 _ H2))
        as (Hn & Hu' & Hq).
      cbv zeta.
      destruct (PyStr.contains "[" n && negb (PyStr.contains "]" n)
                || PyStr.contains "]" n && negb (PyStr.contains "[" n)) eqn:E1;
        [discriminate|].
      destruct (PyStr.contains "[" n && PyStr.contains "]" n) eqn:E2;
        [destruct (Urllib._check_bracketed_netloc n) eqn:Hc; [|discriminate]|];
        intros [= <- <-]; unfold netloc_accepted; rewrite E1, E2, ?Hc;
        (split; [|split; [reflexivity | assumption]]);
        unfold netloc_char; rewrite str_forallb_and; now rewrite Hn, Hq.
    - intros [= <- <-]. auto. }
  match goal with
  | |- rbind ?x _ = _ -> _ => specialize (Hnet x eq_refl); destruct x as [[net u3]|e]
  end; cbn [rbind]; [|discriminate].
  destruct (Hnet net u3 eq_refl) as (Hnc & Hacc & H3).
  assert (Hfrag : exists u4 f,
             match PyStr.partition "#" u3 with
             | Some (u, f) => (u, f)
             | None => (u3, "")
             end = (u4, f)
             /\ PyStr.forallb safe_char u4 = true /\ PyStr.contains "#" u4 = false).
  { destruct (PyStr.partition "#" u3) as [[u f]|] eqn:Hp.
    - exists u, f. split; [reflexivity|]. split.
      + now destruct (partition_forallb safe_char _ _ _ _ Hp H3).
      + eapply partition_before, Hp.
    - exists u3, "". auto using partition_none. }
  destruct Hfrag as (u4 & f & -> & H4 & Hnf).
  assert (Hquery : exists u5 q,
             match PyStr.partition "?" u4 with
             | Some (u, q) => (u, q)
             | None => (u4, "")
             end = (u5, q)
             /\ PyStr.forallb safe_char u5 = true /\ PyStr.contains "#" u5 = false
             /\ PyStr.contains "?" u5 = false).
  { destruct (PyStr.partition "?" u4) as [[u q]|] eqn:Hp.
    - exists u, q. split; [reflexivity|].
      destruct (partition_forallb safe_char _ _ _ _ Hp H4) as [Hu _].
      destruct (partition_forallb (fun x => negb (Ascii.eqb x "#")) _ _ _ _ Hp
                  (absent_forallb _ _ Hnf)) as [Hu' _].
      repeat split; [assumption | | eapply partition_before, Hp].
      eapply contains_absent; [|exact Hu']. intros a Ha. now apply negb_true_iff.
    - exists u4, "". auto using partition_none. }
  destruct Hquery as (u5 & q & -> & H5 & Hnf5 & Hnq5).
  intros [= <-]. cbn [s_scheme s_netloc s_path].
  repeat split; try assumption.
  unfold kept_char. rewrite !str_forallb_and.
  now rewrite H5, (absent_forallb _ _ Hnf5), (absent_forallb _ _ Hnq5).
Qed.

(** The path [_splitparams] returns is made of characters of its
    argument. *)
Lemma splitparams_forallb (P : ascii -> bool) (url : string) :
  PyStr.forallb P url = true -> P "/"%char = true ->
  PyStr.forallb P (fst (Urllib._splitparams url)) = true.
Proof.
  intros Hu Hslash. unfold Urllib._splitparams.
  destruct (PyStr.rpartition "/" url) as [[hd tl]|] eqn:Hr.
  - destruct (rpartition_forallb P _ _ _ _ Hr Hu) as [Hhd Htl].
    destruct (PyStr.partition ";" tl) as [[a b]|] eqn:Hp; [|exact Hu].
    destruct (partition_forallb P _ _ _ _ Hp Htl) as [Ha _].
    cbn [fst]. rewrite !str_forallb_app. cbn [PyStr.forallb].
    now rewrite Hhd, Hslash, Ha.
  - destruct (PyStr.partition ";" url) as [[a b]|] eqn:Hp.
    + now destruct (partition_forallb P _ _ _ _ Hp Hu).
    + now apply drop_last_forallb.
Qed.

(** A path that ends with a slash carries no parameters. *)
Lemma splitparams_dir (s : string) :
  Urllib._splitparams (s ++ "/") = (s ++ "/", "").
Proof. unfold Urllib._splitparams. now rewrite rpartition_dir. Qed.

Lemma urlparse_facts (url : string) (r : ParseResult) :
  Urllib.urlparse url "" = Return r ->
  (scheme r = "" \/ scheme_ok (scheme r) = true)
  /\ PyStr.forallb netloc_char (netloc r) = true
  /\ netloc_accepted (netloc r) = true
  /\ PyStr.forallb kept_char (path r) = true.
Proof.
  unfold Urllib.urlparse.
  destruct (Urllib.urlsplit url "") as [r0|e] eqn:Hsplit; cbn [rbind]; [|discriminate].
  destruct (urlsplit_facts _ _ _ Hsplit) as (Hs & Hn & Ha & Hp).
  destruct (_ && _).
  - pose proof (splitparams_forallb kept_char _ Hp eq_refl) as Hp'.
    destruct (Urllib._splitparams (s_path r0)) as [u pa].
    intros [= <-]. cbn [scheme netloc path] in *. auto.
  - intros [= <-]. cbn [scheme netloc path]. auto.
Qed.

(** *** URLs that are read back as they were written *)

Lemma urlsplit_regular (sch net rest dflt : string) :
  scheme_ok sch = true ->
  PyStr.forallb netloc_char net = true -> netloc_accepted net = true ->
  PyStr.forallb kept_char rest = true ->
  Urllib.urlsplit (sch ++ "://" ++ net ++ "/" ++ rest) dflt
  = Return (mk_split sch net ("/" ++ rest) "" "").
Proof.
  intros Hs Hn Hacc Hr.
  destruct (scheme_ok_facts _ Hs) as (Hne & Hsc & Hlow & _ & _).
  assert (Hsafe : PyStr.forallb safe_char (sch ++ "://" ++ net ++ "/" ++ rest) = true).
  { rewrite !str_forallb_app.
    rewrite (str_forallb_impl Urllib.scheme_char safe_char sch),
      (str_forallb_impl netloc_char safe_char net),
      (str_forallb_impl kept_char safe_char rest);
      try assumption; try reflexivity; intros c Hc.
    - now apply kept_char_facts.
    - now apply netloc_char_facts.
    - now apply scheme_char_facts. }
  unfold Urllib.urlsplit.
  destruct sch as [|a pre]; [discriminate|].
  assert (Ha : Urllib.scheme_char a = true).
  { simpl in Hsc. now apply andb_prop in Hsc as [-> _]. }
  assert (Halpha : PyStr.is_ascii_alpha a = true).
  { unfold scheme_ok in Hs. apply andb_prop in Hs as [Hs _].
    now apply andb_prop in Hs as [-> _]. }
  change (String a pre ++ "://" ++ net ++ "/" ++ rest)
    with (String a (pre ++ "://" ++ net ++ "/" ++ rest)) at 1.
  rewrite lstrip_first by now apply scheme_char_facts.
  change (String a (pre ++ "://" ++ net ++ "/" ++ rest))
    with (String a pre ++ String ":" ("//" ++ net ++ String "/" rest)).
  rewrite (remove_absent safe_char) by (exact Hsafe || apply safe_char_facts).
  rewrite (partition_stop Urllib.scheme_char);
    [ | intros x Hx; now apply scheme_char_facts | assumption ].
  cbv beta iota.
  rewrite Halpha, Hsc, Hlow. cbn [andb]. cbv beta iota zeta.
  cbn [append PyStr.startswith]. rewrite !Ascii.eqb_refl. cbn [andb PyStr.drop].
  unfold Urllib._splitnetloc.
  rewrite span_stop;
    [ | apply (str_forallb_impl netloc_char); [|assumption];
        intros c Hc; apply netloc_char_facts in Hc as [_ ->]; reflexivity
      | reflexivity ].
  unfold netloc_accepted in Hacc. cbv zeta in Hacc |- *.
  assert (Hbr : (if PyStr.contains "[" net && negb (PyStr.contains "]" net)
                    || PyStr.contains "]" net && negb (PyStr.contains "[" net)
                 then Raise ValueError
                 else if PyStr.contains "[" net && PyStr.contains "]" net
                      then if Urllib._check_bracketed_netloc net
                           then Return (net, String "/" rest)
                           else Raise ValueError
                      else Return (net, String "/" rest))
                = Return (net, String "/" rest)).
  { destruct (_ || _); [discriminate|].
    destruct (_ && _); [now rewrite Hacc | reflexivity]. }
  rewrite Hbr. cbn [rbind].
  assert (Hr' : PyStr.forallb kept_char (String "/" rest) = true) by exact Hr.
  rewrite !partition_absent;
    try (apply (contains_absent kept_char); [|exact Hr'];
         intros c Hc; now apply kept_char_facts).
  reflexivity.
Qed.

End ParseFacts.

(* ------------------------------------------------------------------ *)
(** ** Paths as lists of segments *)
(* ------------------------------------------------------------------ *)

Lemma raw_segment_facts s :
  raw_segment s = true ->
  PyStr.nonempty s = true /\ PyStr.forallb segment_char s = true /\ not_dot s = true.
Proof.
  unfold raw_segment. intros Hs.
  apply andb_prop in Hs as [Hs Hd]. apply andb_prop in Hs as [Hn Hc]. auto.
Qed.

Lemma plain_segment_facts s :
  plain_segment s = true ->
  PyStr.nonempty s = true /\ PyStr.forallb plain_char s = true /\ not_dot s = true.
Proof.
  unfold plain_segment, not_dot. intros Hs.
  apply andb_prop in Hs as [Hs H2]. apply andb_prop in Hs as [Hs H1].
  apply andb_prop in Hs as [Hn Hc]. now rewrite H1, H2.
Qed.

Lemma plain_chars_segment s :
  PyStr.forallb plain_char s = true -> PyStr.forallb segment_char s = true.
Proof. apply str_forallb_impl. intros c Hc. now apply plain_char_facts. Qed.

Lemma plain_segment_raw s : plain_segment s = true -> raw_segment s = true.
Proof.
  intros Hs. destruct (plain_segment_facts _ Hs) as (Hn & Hc & Hd).
  unfold raw_segment. now rewrite Hn, (plain_chars_segment _ Hc), Hd.
Qed.

Lemma plain_segments_raw l :
  List.forallb plain_segment l = true -> List.forallb raw_segment l = true.
Proof.
  rewrite !forallb_forall. intros Hl s Hs. apply plain_segment_raw. auto.
Qed.

Lemma leaf_ok_chars leaf : leaf_ok leaf = true -> PyStr.forallb plain_char leaf = true.
Proof.
  unfold leaf_ok. destruct leaf as [|x l]; [reflexivity|].
  simpl. intros Hl. now apply plain_segment_facts in Hl.
Qed.

Lemma leaf_ok_not_dot leaf : leaf_ok leaf = true -> not_dot leaf = true.
Proof.
  unfold leaf_ok. destruct leaf as [|x l]; [reflexivity|].
  simpl. intros Hl. now apply plain_segment_facts in Hl.
Qed.

Lemma dirs_leaf_assoc s r leaf : dirs (s :: r) ++ leaf = s ++ String "/" (dirs r ++ leaf).
Proof. simpl. now rewrite append_assoc. Qed.

Lemma dirs_app (a b : list string) : dirs (a ++ b) = dirs a ++ dirs b.
Proof.
  induction a as [|s a IH]; simpl; [reflexivity|].
  now rewrite IH, !append_assoc.
Qed.

(** A directory path ends with a slash. *)
Lemma dirs_ends_slash (l : list string) : exists s, "/" ++ dirs l = s ++ "/".
Proof.
  induction l as [|x l [s Hs]].
  - now exists "".
  - exists ("/" ++ x ++ s). cbn [dirs]. rewrite !append_assoc, <- Hs. reflexivity.
Qed.

Lemma dirs_kept_chars (l : list string) (leaf : string) :
  List.forallb raw_segment l = true -> PyStr.forallb segment_char leaf = true ->
  PyStr.forallb kept_char (dirs l ++ leaf) = true.
Proof.
  intros Hl Hleaf. induction l as [|s r IH].
  - simpl. eapply str_forallb_impl; [|exact Hleaf].
    intros c Hc. now apply segment_char_facts.
  - simpl in Hl. apply andb_prop in Hl as [Hs Hr].
    rewrite dirs_leaf_assoc, str_forallb_app. cbn [PyStr.forallb].
    rewrite (IH Hr), andb_true_r.
    apply raw_segment_facts in Hs as (_ & Hs & _).
    eapply str_forallb_impl; [|exact Hs]. intros c Hc. now apply segment_char_facts.
Qed.

Lemma split_segment (s t : string) :
  PyStr.forallb segment_char s = true ->
  PyStr.split "/" (s ++ String "/" t) = s :: PyStr.split "/" t.
Proof.
  induction s as [|x s IH]; simpl; [reflexivity|].
  intros Hs. apply andb_prop in Hs as [Hx Hr].
  destruct (segment_char_facts _ Hx) as [_ ->]. now rewrite (IH Hr).
Qed.

Lemma split_leaf (s : string) :
  PyStr.forallb segment_char s = true -> PyStr.split "/" s = [s].
Proof.
  induction s as [|x s IH]; simpl; [reflexivity|].
  intros Hs. apply andb_prop in Hs as [Hx Hr].
  destruct (segment_char_facts _ Hx) as [_ ->]. now rewrite (IH Hr).
Qed.

Lemma split_dirs (l : list string) (leaf : string) :
  List.forallb raw_segment l = true -> PyStr.forallb segment_char leaf = true ->
  PyStr.split "/" (dirs l ++ leaf) = (l ++ [leaf])%list.
Proof.
  intros Hn Hl. induction l as [|s r IH].
  - simpl. now apply split_leaf.
  - simpl in Hn. apply andb_prop in Hn as [Hs Hr].
    apply raw_segment_facts in Hs as (_ & Hs & _).
    rewrite dirs_leaf_assoc, split_segment by assumption.
    now rewrite (IH Hr).
Qed.

Lemma split_root (segs : list string) :
  List.forallb raw_segment segs = true ->
  PyStr.split "/" ("/" ++ dirs segs) = ("" :: segs ++ [""])%list.
Proof.
  intros Hs. cbn [append PyStr.split]. rewrite Ascii.eqb_refl.
  now rewrite <- (append_nil_r (dirs segs)), split_dirs.
Qed.

Lemma join_dirs (l : list string) (leaf : string) :
  PyStr.join "/" (l ++ [leaf])%list = dirs l ++ leaf.
Proof.
  induction l as [|s r IH]; [reflexivity|].
  rewrite dirs_leaf_assoc, <- IH. simpl.
  destruct (r ++ [leaf])%list eqn:E; [now destruct r|reflexivity].
Qed.

Lemma join_root (l : list string) (leaf : string) :
  PyStr.join "/" ("" :: l ++ [leaf])%list = "/" ++ dirs l ++ leaf.
Proof.
  rewrite <- join_dirs. simpl.
  destruct (l ++ [leaf])%list eqn:E; [now destruct l | reflexivity].
Qed.

(** *** Resolving segments that hold no dot segment *)

Lemma resolve_plain (l acc : list string) :
  List.forallb not_dot l = true ->
  fold_left Urllib.resolve_step l acc = (acc ++ l)%list.
Proof.
  revert acc. induction l as [|s l IH]; intros acc Hl; simpl.
  - now rewrite app_nil_r.
  - simpl in Hl. apply andb_prop in Hl as [Hs Hl].
    unfold not_dot in Hs. apply andb_prop in Hs as [H1 H2].
    unfold Urllib.resolve_step at 2.
    apply negb_true_iff in H1, H2. rewrite H1, H2.
    rewrite (IH _ Hl), <- app_assoc. reflexivity.
Qed.

Lemma filter_middle_cons (x : string) (r : list string) :
  r <> [] ->
  Urllib.filter_middle (x :: r)
  = (x :: List.filter PyStr.nonempty (removelast r) ++ [last r ""])%list.
Proof. destruct r; [congruence | reflexivity]. Qed.

Lemma forallb_impl {A} (p q : A -> bool) (l : list A) :
  (forall x, p x = true -> q x = true) ->
  List.forallb p l = true -> List.forallb q l = true.
Proof. intros Hpq. rewrite !forallb_forall. auto. Qed.

Lemma filter_all {A} (p : A -> bool) (l : list A) :
  List.forallb p l = true -> List.filter p l = l.
Proof.
  induction l as [|x l IH]; simpl; [reflexivity|].
  intros Hl. apply andb_prop in Hl as [Hx Hl]. now rewrite Hx, (IH Hl).
Qed.

(** The segments [urljoin] resolves, for a base path [/segs/] and a
    relative path [new/leaf]. *)
Lemma joined_segments (segs new : list string) (leaf : string) :
  List.forallb raw_segment segs = true ->
  List.forallb raw_segment new = true ->
  leaf_ok leaf = true ->
  Urllib.resolve
    (Urllib.filter_middle (("" :: segs ++ [""]) ++ (new ++ [leaf]))%list)
  = ("" :: (segs ++ new) ++ [leaf])%list.
Proof.
  intros Hs Hn Hl.
  assert (Hne : forall l, List.forallb raw_segment l = true ->
                          List.forallb PyStr.nonempty l = true).
  { intros l. apply forallb_impl. intros s Hr. now apply raw_segment_facts in Hr. }
  assert (Hnd : forall l, List.forallb raw_segment l = true ->
                          List.forallb not_dot l = true).
  { intros l. apply forallb_impl. intros s Hr. now apply raw_segment_facts in Hr. }
  assert (E : (("" :: segs ++ [""]) ++ (new ++ [leaf]) =
               "" :: ((segs ++ "" :: new) ++ [leaf]))%list).
  { simpl. f_equal. now rewrite <- !app_assoc. }
  rewrite E, filter_middle_cons by (now destruct (segs ++ "" :: new)%list).
  rewrite removelast_last, last_last, filter_app. simpl.
  rewrite !filter_all by auto.
  unfold Urllib.resolve.
  assert (Hall : List.forallb not_dot ("" :: (segs ++ new) ++ [leaf])%list = true).
  { simpl. rewrite !forallb_app. simpl.
    now rewrite (Hnd _ Hs), (Hnd _ Hn), (leaf_ok_not_dot _ Hl). }
  rewrite resolve_plain by assumption.
  rewrite app_comm_cons, last_last.
  apply leaf_ok_not_dot in Hl. unfold not_dot in Hl.
  apply andb_prop in Hl as [H1 H2]. apply negb_true_iff in H1, H2.
  rewrite H1, H2. reflexivity.
Qed.

(* ------------------------------------------------------------------ *)
(** ** Joining a relative reference of plain segments *)
(* ------------------------------------------------------------------ *)

Lemma regular_base_facts {ip : Ipaddress} sch net segs :
  regular_base sch net segs = true ->
  scheme_ok sch = true /\ PyStr.mem sch Urllib.uses_relative = true
  /\ PyStr.forallb netloc_char net = true /\ netloc_accepted net = true
  /\ List.forallb raw_segment segs = true.
Proof.
  unfold regular_base. intros H.
  apply andb_prop in H as [H H5]. apply andb_prop in H as [H H4].
  apply andb_prop in H as [H H3]. apply andb_prop in H as [H1 H2]. auto.
Qed.

Lemma regular_base_app {ip : Ipaddress} sch net segs new :
  regular_base sch net segs = true ->
  List.forallb plain_segment new = true ->
  regular_base sch net (segs ++ new) = true.
Proof.
  unfold regular_base. intros Hr Hn.
  apply andb_prop in Hr as [-> Hs].
  now rewrite forallb_app, Hs, (plain_segments_raw _ Hn).
Qed.

Lemma urlparse_regular {ip : Ipaddress} sch net segs dflt :
  regular_base sch net segs = true ->
  Urllib.urlparse (abs_url sch net segs) dflt
  = Return (mk_parse sch net ("/" ++ dirs segs) "" "" "").
Proof.
  intros (Hs & _ & Hn & Ha & Hsegs)%regular_base_facts.
  unfold Urllib.urlparse, abs_url.
  rewrite urlsplit_regular; try assumption.
  2:{ rewrite <- (append_nil_r (dirs segs)). now apply dirs_kept_chars. }
  cbn [rbind s_scheme s_netloc s_path s_query s_fragment].
  destruct (dirs_ends_slash segs) as [s ->].
  rewrite splitparams_dir. now destruct (_ && _).
Qed.

Lemma plain_char_ref c : plain_char c = true -> ref_char c = true.
Proof. unfold ref_char. now intros ->. Qed.

Lemma dirs_ref_chars (l : list string) (leaf : string) :
  List.forallb plain_segment l = true -> PyStr.forallb plain_char leaf = true ->
  PyStr.forallb ref_char (dirs l ++ leaf) = true.
Proof.
  intros Hl Hleaf. induction l as [|s r IH].
  - simpl. eapply str_forallb_impl; [|exact Hleaf]. apply plain_char_ref.
  - simpl in Hl. apply andb_prop in Hl as [Hs Hr].
    rewrite dirs_leaf_assoc, str_forallb_app. cbn [PyStr.forallb].
    rewrite (IH Hr), andb_true_r.
    apply plain_segment_facts in Hs as (_ & Hs & _).
    eapply str_forallb_impl; [|exact Hs]. apply plain_char_ref.
Qed.

(** A non-empty reference of plain segments starts with a plain
    character. *)
Lemma relative_shape (new : list string) (leaf : string) :
  List.forallb plain_segment new = true -> leaf_ok leaf = true ->
  PyStr.nonempty (dirs new ++ leaf) = true ->
  exists c r, dirs new ++ leaf = String c r /\ plain_char c = true /\
              PyStr.forallb ref_char r = true.
Proof.
  intros Hn Hl Hne.
  pose proof (dirs_ref_chars new leaf Hn (leaf_ok_chars _ Hl)) as Hp.
  destruct new as [|s r].
  - simpl in *. destruct leaf as [|c l]; [discriminate|].
    exists c, l. apply leaf_ok_chars in Hl. simpl in Hl, Hp.
    apply andb_prop in Hl as [Hc _]. apply andb_prop in Hp as [_ Hp]. auto.
  - simpl in Hn. apply andb_prop in Hn as [Hs _].
    destruct (plain_segment_facts _ Hs) as (Hsne & Hsc & _).
    destruct s as [|c s]; [discriminate|].
    exists c, ((s ++ "/" ++ dirs r) ++ leaf). simpl in Hsc, Hp |- *.
    apply andb_prop in Hsc as [Hc _]. apply andb_prop in Hp as [_ Hp]. auto.
Qed.

Section RelativeReference.
Context {ip : Ipaddress}.
Variables (sch : string) (c : ascii) (r : string).
Hypothesis Hsch : scheme_ok sch = true.
Hypothesis Hc : plain_char c = true.
Hypothesis Hr : PyStr.forallb ref_char r = true.

Lemma reference_chars : PyStr.forallb ref_char (String c r) = true.
Proof. simpl. now rewrite (plain_char_ref _ Hc). Qed.

Lemma reference_absent (x : ascii) :
  (forall a, ref_char a = true -> Ascii.eqb a x = false) ->
  PyStr.contains x (String c r) = false.
Proof. intros Hx. apply (contains_absent ref_char); [exact Hx | apply reference_chars]. Qed.

Lemma reference_kept (x : ascii) :
  (forall a, kept_char a = true -> Ascii.eqb a x = false) ->
  PyStr.contains x (String c r) = false.
Proof.
  intros Hx. apply reference_absent. intros a Ha. apply Hx. now apply ref_char_facts.
Qed.

Lemma urlsplit_rel :
  Urllib.urlsplit (String c r) sch = Return (mk_split sch "" (String c r) "" "").
Proof.
  destruct (scheme_ok_facts _ Hsch) as (_ & _ & _ & Hstrip & Hremove).
  unfold Urllib.urlsplit.
  rewrite Hstrip, Hremove.
  rewrite (lstrip_keep ref_char)
    by (apply reference_chars || (intros a Ha; now apply ref_char_facts)).
  rewrite (remove_absent ref_char);
    [ | intros a Ha; apply safe_char_facts, kept_char_facts; now apply ref_char_facts
      | apply reference_chars ].
  rewrite partition_absent
    by (apply reference_absent; intros a Ha; now apply ref_char_facts).
  cbn [PyStr.startswith].
  rewrite Ascii.eqb_sym. destruct (plain_char_facts _ Hc) as (_ & _ & _ & ->).
  cbn [andb rbind].
  rewrite !partition_absent
    by (apply reference_kept; intros a Ha; now apply kept_char_facts).
  reflexivity.
Qed.

Lemma urlparse_rel :
  Urllib.urlparse (String c r) sch = Return (mk_parse sch "" (String c r) "" "" "").
Proof.
  unfold Urllib.urlparse. rewrite urlsplit_rel.
  cbn [rbind s_scheme s_path s_netloc s_query s_fragment].
  rewrite reference_absent by (intros a Ha; now apply ref_char_facts).
  now rewrite andb_false_r.
Qed.

End RelativeReference.

(** The path of a joined URL does not start with two slashes. *)
Lemma single_leading_slash (l : list string) (leaf : string) :
  List.forallb raw_segment l = true -> PyStr.forallb segment_char leaf = true ->
  PyStr.startswith "//" ("/" ++ dirs l ++ leaf) = false.
Proof.
  intros Hl Hleaf.
  assert (Hfirst : forall x t, segment_char x = true ->
            PyStr.startswith "//" ("/" ++ String x t) = false).
  { intros x t Hx. cbn [append PyStr.startswith].
    rewrite (Ascii.eqb_sym "/" x).
    now destruct (segment_char_facts _ Hx) as [_ ->]. }
  destruct l as [|s l].
  - destruct leaf as [|x leaf]; [reflexivity|].
    simpl in Hleaf. apply andb_prop in Hleaf as [Hx _].
    now apply Hfirst.
  - simpl in Hl. apply andb_prop in Hl as [Hs _].
    apply raw_segment_facts in Hs as (Hne & Hs & _).
    destruct s as [|x s]; [discriminate|].
    simpl in Hs. apply andb_prop in Hs as [Hx _].
    cbn [dirs]. rewrite !append_assoc. now apply Hfirst.
Qed.

(** Joining a reference of plain segments to a URL that ends with a slash
    appends it. *)
Lemma urljoin_regular {ip : Ipaddress} sch net segs new leaf :
  regular_base sch net segs = true ->
  List.forallb plain_segment new = true -> leaf_ok leaf = true ->
  PyStr.nonempty (dirs new ++ leaf) = true ->
  Urllib.urljoin (abs_url sch net segs) (dirs new ++ leaf)
  = Return (abs_url sch net (segs ++ new) ++ leaf).
Proof.
  intros Hbase Hn Hl Hne.
  destruct (regular_base_facts _ _ _ Hbase) as (Hok & Hrel & Hnet & Hacc & Hsegs).
  destruct (scheme_ok_facts _ Hok) as (Hsne & _).
  pose proof (relative_uses_netloc _ Hrel) as Huses.
  pose proof (plain_segments_raw _ Hn) as Hnraw.
  pose proof (plain_chars_segment _ (leaf_ok_chars _ Hl)) as Hleaf.
  pose proof (split_dirs new leaf Hnraw Hleaf) as Hsplit.
  destruct (relative_shape new leaf Hn Hl Hne) as (c & r & Erel & Hc & Hr).
  unfold Urllib.urljoin.
  assert (Hbne : PyStr.nonempty (abs_url sch net segs) = true).
  { unfold abs_url. destruct sch; [discriminate | reflexivity]. }
  rewrite Hbne, Hne. cbn [negb].
  rewrite urlparse_regular by assumption.
  cbn [rbind scheme].
  rewrite Erel at 1. rewrite urlparse_rel by assumption.
  cbn [rbind scheme netloc path params query fragment].
  rewrite String.eqb_refl, Hrel, Huses. cbn [negb orb andb PyStr.nonempty].
  rewrite Erel in Hsplit.
  cbn [PyStr.startswith]. rewrite Ascii.eqb_sym.
  destruct (plain_char_facts _ Hc) as (_ & _ & _ & ->). cbn [andb].
  rewrite split_root, Hsplit by assumption.
  rewrite (app_comm_cons segs [""] ""), last_last. cbn [PyStr.nonempty].
  rewrite <- app_comm_cons, joined_segments, join_root by assumption.
  assert (Hraw : List.forallb raw_segment (segs ++ new) = true)
    by now rewrite forallb_app, Hsegs, Hnraw.
  pose proof (single_leading_slash _ _ Hraw Hleaf) as Hslash.
  unfold Urllib.urlunparse, Urllib.urlunsplit.
  cbn [scheme netloc path params query fragment s_scheme s_netloc s_path s_query
       s_fragment PyStr.nonempty].
  change (PyStr.nonempty ("/" ++ dirs (segs ++ new) ++ leaf)) with true.
  cbv beta iota.
  rewrite Hslash, Hsne, Huses.
  cbn [append PyStr.nonempty PyStr.startswith]. rewrite Ascii.eqb_refl.
  rewrite orb_true_r. cbn [orb andb negb].
  unfold abs_url. rewrite !append_assoc. reflexivity.
Qed.

Lemma urljoin_dirs {ip : Ipaddress} sch net segs new :
  regular_base sch net segs = true ->
  List.forallb plain_segment new = true -> new <> [] ->
  Urllib.urljoin (abs_url sch net segs) (dirs new)
  = Return (abs_url sch net (segs ++ new)).
Proof.
  intros Hr Hn Hne.
  rewrite <- (append_nil_r (dirs new)), urljoin_regular; try assumption; try reflexivity.
  - now rewrite append_nil_r.
  - destruct new as [|s r]; [congruence|].
    simpl in Hn. apply andb_prop in Hn as [Hs _].
    apply plain_segment_facts in Hs as (Hs & _). destruct s; [discriminate | reflexivity].
Qed.

Lemma urljoin_leaf {ip : Ipaddress} sch net segs leaf :
  regular_base sch net segs = true -> plain_segment leaf = true ->
  Urllib.urljoin (abs_url sch net segs) leaf = Return (abs_url sch net segs ++ leaf).
Proof.
  intros Hr Hl.
  pose proof (urljoin_regular sch net segs [] leaf Hr eq_refl) as Hj.
  simpl in Hj. rewrite app_nil_r in Hj. apply Hj.
  - unfold leaf_ok. now rewrite Hl, orb_true_r.
  - now apply plain_segment_facts in Hl.
Qed.

Lemma abs_url_app sch net segs new :
  abs_url sch net (segs ++ new) = abs_url sch net segs ++ dirs new.
Proof. unfold abs_url. now rewrite dirs_app, !append_assoc. Qed.

(* ------------------------------------------------------------------ *)
(** ** The API endpoint of an absolute root *)
(* ------------------------------------------------------------------ *)

Lemma split_segment_chars (s : string) :
  PyStr.forallb kept_char s = true ->
  List.forallb (PyStr.forallb segment_char) (PyStr.split "/" s) = true.
Proof.
  induction s as [|a s IH]; [reflexivity|].
  simpl. intros Hs. apply andb_prop in Hs as [Ha Hs]. specialize (IH Hs).
  destruct (Ascii.eqb a "/") eqn:Ea; [exact IH|].
  assert (Hseg : segment_char a = true) by (unfold segment_char; now rewrite Ha, Ea).
  destruct (PyStr.split "/" s) as [|w ws]; simpl in *; now rewrite Hseg.
Qed.

Lemma removelast_forallb {A} (p : A -> bool) (l : list A) :
  List.forallb p l = true -> List.forallb p (removelast l) = true.
Proof.
  induction l as [|x l IH]; [reflexivity|].
  intros Hl. simpl in Hl. apply andb_prop in Hl as [Hx Hl].
  destruct l as [|y l]; [reflexivity|].
  change (forallb p (removelast (x :: y :: l)))
    with (p x && forallb p (removelast (y :: l))).
  now rewrite Hx, (IH Hl).
Qed.

Lemma filter_forallb {A} (p q : A -> bool) (l : list A) :
  List.forallb p l = true -> List.forallb (fun x => q x && p x) (List.filter q l) = true.
Proof.
  induction l as [|x l IH]; [reflexivity|].
  simpl. intros Hl. apply andb_prop in Hl as [Hx Hl].
  destruct (q x) eqn:Hq; [|auto]. simpl. now rewrite Hq, Hx, (IH Hl).
Qed.

Lemma resolved_ok_removelast acc : resolved_ok acc = true -> resolved_ok (removelast acc) = true.
Proof.
  destruct acc as [|y t]; [reflexivity|]. intros H.
  destruct t as [|z t]; [reflexivity|].
  change (resolved_ok (removelast (y :: z :: t)))
    with (PyStr.forallb segment_char y && not_dot y
          && List.forallb raw_segment (removelast (z :: t))).
  unfold resolved_ok in H. apply andb_prop in H as [-> Ht].
  now rewrite (removelast_forallb _ _ Ht).
Qed.

Lemma resolve_step_ok acc e :
  resolved_ok acc = true -> PyStr.forallb segment_char e = true ->
  acc = [] \/ PyStr.nonempty e = true ->
  resolved_ok (Urllib.resolve_step acc e) = true.
Proof.
  intros Hacc He Hne. unfold Urllib.resolve_step.
  destruct (String.eqb e "..") eqn:E2; [now apply resolved_ok_removelast|].
  destruct (String.eqb e ".") eqn:E1; [exact Hacc|].
  assert (Hd : not_dot e = true) by (unfold not_dot; now rewrite E1, E2).
  destruct acc as [|y t].
  - simpl. now rewrite He, Hd.
  - destruct Hne as [|Hne]; [discriminate|].
    simpl in *. apply andb_prop in Hacc as [-> Ht].
    rewrite forallb_app, Ht. simpl. unfold raw_segment. now rewrite Hne, He, Hd.
Qed.

Lemma resolve_fold_ok l acc :
  resolved_ok acc = true ->
  List.forallb (fun e => PyStr.nonempty e && PyStr.forallb segment_char e) l = true ->
  resolved_ok (fold_left Urllib.resolve_step l acc) = true.
Proof.
  revert acc. induction l as [|e l IH]; intros acc Hacc Hl; [exact Hacc|].
  simpl in Hl. apply andb_prop in Hl as [He Hl]. apply andb_prop in He as [Hne He].
  simpl. apply IH; [|exact Hl]. apply resolve_step_ok; auto.
Qed.

(** The segments [urljoin] resolves when [api/v1/] is joined to a base
    whose path splits into [bp]. *)
Lemma api_segments (bp : list string) :
  List.forallb (PyStr.forallb segment_char) bp = true ->
  exists P, resolved_ok P = true /\
    Urllib.resolve (Urllib.filter_middle (bp ++ ["api"; "v1"; ""])%list)
    = (P ++ ["api"; "v1"; ""])%list.
Proof.
  intros Hbp. destruct bp as [|x r].
  - now exists [].
  - simpl in Hbp. apply andb_prop in Hbp as [Hx Hr].
    exists (fold_left Urllib.resolve_step (x :: List.filter PyStr.nonempty r) []).
    split.
    + cbn [fold_left]. apply resolve_fold_ok.
      * apply resolve_step_ok; auto.
      * now apply filter_forallb.
    + rewrite <- app_comm_cons, filter_middle_cons by now destruct r.
      change (r ++ ["api"; "v1"; ""])%list with (r ++ ["api"; "v1"] ++ [""])%list.
      rewrite app_assoc, removelast_last, last_last, filter_app.
      cbn [List.filter PyStr.nonempty app].
      unfold Urllib.resolve.
      rewrite app_comm_cons, last_last. cbn [String.eqb orb].
      rewrite <- app_comm_cons, <- app_assoc, app_comm_cons, fold_left_app.
      generalize (fold_left Urllib.resolve_step (x :: List.filter PyStr.nonempty r) []).
      intros acc. cbn. now rewrite <- !app_assoc.
Qed.

Lemma resolved_ok_named P :
  resolved_ok P = true -> List.forallb raw_segment (named_segments P) = true.
Proof.
  destruct P as [|y t]; [reflexivity|]. simpl. intros H.
  apply andb_prop in H as [H Ht]. apply andb_prop in H as [Hy Hd].
  destruct y as [|c y]; [exact Ht|].
  simpl forallb. unfold raw_segment at 1. now rewrite Hy, Hd, Ht.
Qed.

(** The URL [urljoin] puts together from the resolved segments. *)
Lemma api_unparse sch net P :
  resolved_ok P = true ->
  PyStr.nonempty sch = true -> PyStr.mem sch Urllib.uses_netloc = true ->
  Urllib.urlunparse
    (mk_parse sch net
       (if PyStr.nonempty (PyStr.join "/" (P ++ ["api"; "v1"; ""])%list)
        then PyStr.join "/" (P ++ ["api"; "v1"; ""])%list else "/") "" "" "")
  = abs_url sch net (named_segments P ++ ["api"; "v1"])%list.
Proof.
  intros HP Hsne Huses.
  unfold Urllib.urlunparse, Urllib.urlunsplit, abs_url.
  cbn [scheme netloc path params query fragment s_scheme s_netloc s_path s_query
       s_fragment PyStr.nonempty].
  rewrite Hsne, Huses. cbn [andb].
  destruct P as [|y t].
  - cbn. rewrite orb_true_r. reflexivity.
  - assert (E : ((y :: t) ++ ["api"; "v1"; ""] = (y :: t ++ ["api"; "v1"]) ++ [""])%list)
      by (simpl; now rewrite <- app_assoc).
    rewrite E.
    rewrite join_dirs, append_nil_r.
    simpl in HP. apply andb_prop in HP as [HP Ht]. apply andb_prop in HP as [Hy Hd].
    assert (Hraw : List.forallb raw_segment (t ++ ["api"; "v1"])%list = true)
      by now rewrite forallb_app, Ht.
    destruct y as [|c y].
    + cbn [dirs named_segments PyStr.nonempty].
      change ("" ++ "/" ++ dirs (t ++ ["api"; "v1"])%list)
        with ("/" ++ dirs (t ++ ["api"; "v1"])%list).
      pose proof (single_leading_slash _ "" Hraw eq_refl) as Hslash.
      rewrite append_nil_r in Hslash.
      change (PyStr.nonempty ("/" ++ dirs (t ++ ["api"; "v1"])%list)) with true.
      cbv beta iota. rewrite Hslash.
      cbn [append PyStr.startswith PyStr.nonempty]. rewrite Ascii.eqb_refl.
      rewrite orb_true_r. reflexivity.
    + simpl in Hy. apply andb_prop in Hy as [Hc Hy].
      destruct (segment_char_facts _ Hc) as [_ Hns].
      cbn [dirs named_segments PyStr.nonempty append PyStr.startswith].
      rewrite (Ascii.eqb_sym "/" c), Hns. cbn [andb negb].
      rewrite orb_true_r. reflexivity.
Qed.

Section ApiEndpoint.
Context {ip : Ipaddress}.

Lemma absolute_root_facts (root : string) :
  absolute_root root = true ->
  exists b, Urllib.urlparse root "" = Return b
    /\ PyStr.nonempty root = true
    /\ scheme_ok (scheme b) = true
    /\ PyStr.mem (scheme b) Urllib.uses_relative = true
    /\ PyStr.forallb netloc_char (netloc b) = true
    /\ netloc_accepted (netloc b) = true
    /\ PyStr.forallb kept_char (path b) = true.
Proof.
  unfold absolute_root.
  destruct (Urllib.urlparse root "") as [b|e] eqn:Hparse; [|discriminate].
  intros H. apply andb_prop in H as [Hne Hrel].
  destruct (urlparse_facts _ _ Hparse) as (Hs & Hn & Ha & Hp).
  exists b. repeat split; try assumption.
  - destruct root; [|reflexivity]. cbv in Hparse. injection Hparse as <-. discriminate.
  - destruct Hs as [Hs|Hs]; [|exact Hs]. rewrite Hs in Hne. discriminate.
Qed.

(** Whatever absolute URL the root is, its API endpoint is a regular
    URL: scheme, authority and a path of raw segments ending with a
    slash. *)
Lemma api_endpoint_regular (root : string) :
  absolute_root root = true ->
  exists sch net segs,
    regular_base sch net segs = true
    /\ Urllib.urljoin root "api/v1/" = Return (abs_url sch net segs).
Proof.
  intros (b & Hparse & Hne & Hok & Hrel & Hnet & Hacc & Hpath)%absolute_root_facts.
  destruct (scheme_ok_facts _ Hok) as (Hsne & _).
  pose proof (relative_uses_netloc _ Hrel) as Huses.
  set (bp := if PyStr.nonempty (last (PyStr.split "/" (path b)) "")
             then removelast (PyStr.split "/" (path b))
             else PyStr.split "/" (path b)).
  assert (Hbp : List.forallb (PyStr.forallb segment_char) bp = true).
  { pose proof (split_segment_chars _ Hpath) as Hs. unfold bp.
    destruct (PyStr.nonempty (last (PyStr.split "/" (path b)) ""));
      [now apply removelast_forallb | exact Hs]. }
  destruct (api_segments bp Hbp) as (P & HP & Hres).
  exists (scheme b), (netloc b), (named_segments P ++ ["api"; "v1"])%list. split.
  - unfold regular_base. rewrite Hok, Hrel, Hnet, Hacc, forallb_app.
    now rewrite (resolved_ok_named _ HP).
  - unfold Urllib.urljoin. rewrite Hne. cbn [negb PyStr.nonempty].
    rewrite Hparse. cbn [rbind].
    rewrite (urlparse_rel (scheme b) "a" "pi/v1/") by (assumption || reflexivity).
    cbn [rbind scheme netloc path params query fragment].
    rewrite String.eqb_refl, Hrel, Huses.
    cbn [negb orb andb PyStr.nonempty PyStr.startswith Ascii.eqb Bool.eqb].
    change (PyStr.split "/" "api/v1/") with ["api"; "v1"; ""].
    fold bp. rewrite Hres. cbv zeta.
    now rewrite api_unparse.
Qed.

End ApiEndpoint.

(** *** Identifiers *)

Lemma digits_plain (d : Decimal.uint) :
  PyStr.forallb plain_char (NilEmpty.string_of_uint d) = true.
Proof. induction d; simpl; [reflexivity | assumption ..]. Qed.

Lemma uint_plain_segment (d : Decimal.uint) :
  plain_segment (NilZero.string_of_uint d) = true.
Proof.
  unfold plain_segment.
  destruct d; try reflexivity; cbn -[plain_char]; rewrite digits_plain; reflexivity.
Qed.

Lemma str_of_int_plain (z : Z) : plain_segment (Py.str_of_int z) = true.
Proof.
  unfold Py.str_of_int. destruct z as [|p|p]; simpl.
  - reflexivity.
  - apply uint_plain_segment.
  - pose proof (uint_plain_segment (Pos.to_uint p)) as Hd.
    unfold plain_segment in *.
    apply andb_prop in Hd as [Hd _]. apply andb_prop in Hd as [Hd _].
    apply andb_prop in Hd as [_ Hd].
    cbn -[plain_char NilZero.string_of_uint]. rewrite Hd. reflexivity.
Qed.

Lemma url_safe_id_plain (v : pyval) :
  url_safe_id v = true -> plain_segment (Py.str v) = true.
Proof.
  destruct v; simpl; try discriminate; auto using str_of_int_plain.
Qed.

(** *** The endpoints under a regular API endpoint *)

Section Endpoints.
Context {ip : Ipaddress}.
Variables (c : PersephoneClient.t) (sch net : string) (segs : list string).
Hypothesis Hapi : PersephoneClient._get_api_endpoint c = Return (abs_url sch net segs).
Hypothesis Hreg : regular_base sch net segs = true.

Lemma projects_endpoint_regular :
  PersephoneClient._get_projects_endpoint c
  = Return (abs_url sch net (segs ++ ["projects"])).
Proof.
  unfold PersephoneClient._get_projects_endpoint.
  rewrite Hapi. cbn [rbind].
  now rewrite (urljoin_dirs _ _ _ ["projects"]).
Qed.

Lemma project_endpoint_regular p :
  url_safe_id p = true ->
  PersephoneClient._get_project_endpoint c p
  = Return (abs_url sch net (segs ++ ["projects"; Py.str p])).
Proof.
  intros Hp. apply url_safe_id_plain in Hp.
  unfold PersephoneClient._get_project_endpoint.
  rewrite projects_endpoint_regular. cbn [rbind].
  change (Py.format_slash p) with (dirs [Py.str p]).
  rewrite urljoin_dirs;
    [ now rewrite <- app_assoc | now apply regular_base_app
    | simpl; now rewrite Hp | discriminate ].
Qed.

Lemma builds_endpoint_regular p :
  url_safe_id p = true ->
  PersephoneClient._get_builds_endpoint c p
  = Return (abs_url sch net (segs ++ ["projects"; Py.str p; "builds"])).
Proof.
  intros Hp. unfold PersephoneClient._get_builds_endpoint.
  rewrite project_endpoint_regular by assumption. cbn [rbind].
  apply url_safe_id_plain in Hp.
  rewrite (urljoin_dirs _ _ _ ["builds"]);
    [ now rewrite <- app_assoc
    | apply regular_base_app; [assumption | simpl; now rewrite Hp]
    | reflexivity | discriminate ].
Qed.

Lemma build_endpoint_regular p b :
  url_safe_id p = true -> url_safe_id b = true ->
  PersephoneClient._get_build_endpoint c p b
  = Return (abs_url sch net (segs ++ ["projects"; Py.str p; "builds"; Py.str b])).
Proof.
  intros Hp Hb. unfold PersephoneClient._get_build_endpoint.
  rewrite builds_endpoint_regular by assumption. cbn [rbind].
  apply url_safe_id_plain in Hp, Hb.
  change (Py.format_slash b) with (dirs [Py.str b]).
  rewrite urljoin_dirs;
    [ now rewrite <- app_assoc
    | apply regular_base_app; [assumption | simpl; now rewrite Hp]
    | simpl; now rewrite Hb | discriminate ].
Qed.

Lemma build_segs_regular p b :
  url_safe_id p = true -> url_safe_id b = true ->
  regular_base sch net (segs ++ ["projects"; Py.str p; "builds"; Py.str b]) = true.
Proof.
  intros Hp Hb. apply url_safe_id_plain in Hp, Hb.
  apply regular_base_app; [assumption | simpl; now rewrite Hp, Hb].
Qed.

(** The closed form of the build endpoint. *)
Lemma build_url_closed_form p b :
  abs_url sch net (segs ++ ["projects"; Py.str p; "builds"; Py.str b])
  = abs_url sch net segs ++ "projects/" ++ Py.str p ++ "/builds/" ++ Py.str b ++ "/".
Proof. now rewrite abs_url_app. Qed.

End Endpoints.

(** The endpoints of a client whose root is an absolute URL. *)
Lemma endpoints_of_absolute_root {ip : Ipaddress} (c : PersephoneClient.t) :
  absolute_root (PersephoneClient.root_endpoint c) = true ->
  exists sch net segs,
    regular_base sch net segs = true
    /\ PersephoneClient._get_api_endpoint c = Return (abs_url sch net segs).
Proof. apply api_endpoint_regular. Qed.

(** The API endpoint of a root that is itself regular. *)
Lemma api_endpoint_of_regular_root {ip : Ipaddress} (c : PersephoneClient.t) sch net segs :
  PersephoneClient.root_endpoint c = abs_url sch net segs ->
  regular_base sch net segs = true ->
  PersephoneClient._get_api_endpoint c
  = Return (PersephoneClient.root_endpoint c ++ "api/v1/").
Proof.
  intros Hroot Hreg. unfold PersephoneClient._get_api_endpoint. rewrite Hroot.
  rewrite (urljoin_dirs sch net segs ["api"; "v1"]) by (assumption || reflexivity || discriminate).
  now rewrite abs_url_app.
Qed.

(** *** One exchange with the service *)

Section Exchange.
Context {net : Network}.

Lemma bind_pure_return {S A B} (a : A) (k : A -> M S B) (s : S) :
  bind (pure_result (Return a)) k s = k a s.
Proof. reflexivity. Qed.

Lemma bind_pure_raise {S A B} (e : exn) (k : A -> M S B) (s : S) :
  bind (pure_result (Raise e)) k s = (Raise e, s).
Proof. reflexivity. Qed.

(** A call that decodes the body: the response is checked, then
    decoded; the call is recorded in every case. *)
Lemma send_decoded (req : request) (sent : list request) :
  (resp <- Requests.send req ;; Requests.raise_for_status resp ;; Requests.json resp) sent
  = (match server sent req with
     | None => Raise ConnectionError
     | Some resp =>
         if error_status resp then Raise (HTTPError resp)
         else match json_body resp with
              | Some v => Return v
              | None => Raise JSONDecodeError
              end
     end, (sent ++ [req])%list).
Proof.
  unfold bind, Requests.send, Requests.raise_for_status, Requests.json, error_status.
  destruct (server sent req) as [resp|]; [|reflexivity].
  destruct (_ && _); [reflexivity|].
  unfold ret. destruct (json_body resp); reflexivity.
Qed.

(** A call whose body is ignored. *)
Lemma send_checked (req : request) (sent : list request) :
  (resp <- Requests.send req ;; Requests.raise_for_status resp) sent
  = (match server sent req with
     | None => Raise ConnectionError
     | Some resp => if error_status resp then Raise (HTTPError resp) else Return tt
     end, (sent ++ [req])%list).
Proof.
  unfold bind, Requests.send, Requests.raise_for_status, error_status.
  destruct (server sent req) as [resp|]; [|reflexivity].
  destruct (_ && _); reflexivity.
Qed.

End Exchange.

(** *** The client operations, one by one *)

Section ClientRuns.
Context {ip : Ipaddress} {net : Network}.

Lemma bind_pure {S A B} (r : result A) (k : A -> M S B) (s : S) :
  bind (pure_result r) k s
  = match r with Return a => k a s | Raise e => (Raise e, s) end.
Proof. destruct r; reflexivity. Qed.

Lemma bind_assoc {S A B C} (m : M S A) (k : A -> M S B) (k' : B -> M S C) (s : S) :
  bind (bind m k) k' s = bind m (fun a => bind (k a) k') s.
Proof. unfold bind. destruct (m s) as [[a|e] s']; reflexivity. Qed.

(** Every client operation prepares one call, makes it, and turns the
    answer into its outcome; it makes no call when the endpoint cannot be
    resolved. *)
Lemma client_run_spec (c : PersephoneClient.t) (call : client_call)
      (sent : list request) :
  client_run c call sent
  = match prepared_request c call with
    | Return req => (outcome_of call (server sent req), (sent ++ [req])%list)
    | Raise e => (Raise e, sent)
    end.
Proof.
  destruct call; cbn [client_run prepared_request];
    unfold PersephoneClient.get_projects, PersephoneClient.get_project,
      PersephoneClient.get_builds, PersephoneClient.get_build,
      PersephoneClient.create_build, PersephoneClient.delete_build,
      PersephoneClient.finish_build, PersephoneClient.fail_build,
      PersephoneClient.post_screenshot, returning_None,
      Requests.get, Requests.post, Requests.delete, rbind;
    rewrite ?bind_assoc, ?bind_pure;
    match goal with
    | |- context [PersephoneClient._get_projects_endpoint ?c] =>
        destruct (PersephoneClient._get_projects_endpoint c)
    | |- context [PersephoneClient._get_project_endpoint ?c ?p] =>
        destruct (PersephoneClient._get_project_endpoint c p)
    | |- context [PersephoneClient._get_builds_endpoint ?c ?p] =>
        destruct (PersephoneClient._get_builds_endpoint c p)
    | |- context [PersephoneClient._get_build_endpoint ?c ?p ?b] =>
        destruct (PersephoneClient._get_build_endpoint c p b)
    | |- context [PersephoneClient._get_screenshots_endpoint ?c ?p ?b] =>
        destruct (PersephoneClient._get_screenshots_endpoint c p b)
    end;
    cbv beta iota;
    try match goal with
      | |- context [Urllib.urljoin ?a ?b] => destruct (Urllib.urljoin a b)
      end;
    try reflexivity;
    rewrite ?send_decoded; unfold outcome_of; cbn [decodes_body];
    try reflexivity.
  unfold bind at 1. rewrite send_checked.
  destruct (server sent _) as [resp|]; [|reflexivity].
  destruct (error_status resp); reflexivity.
Qed.

End ClientRuns.

(** *** Resolving an endpoint raises nothing but ValueError *)

Section OnlyValueError.
Context {ip : Ipaddress}.

Lemma urlsplit_raises (url scheme : string) (e : exn) :
  Urllib.urlsplit url scheme = Raise e -> e = ValueError.
Proof.
  unfold Urllib.urlsplit.
  match goal with
  | |- context [let '(_, _) := ?x in _] => destruct x as [sc u]
  end.
  destruct (PyStr.startswith "//" u); cbn [rbind].
  - destruct (Urllib._splitnetloc (PyStr.drop 2 u)) as [n u'].
    destruct (_ || _); cbn [rbind]; [congruence|].
    destruct (_ && _); cbn [rbind].
    + destruct (Urllib._check_bracketed_netloc n); cbn [rbind]; [|congruence].
      destruct (PyStr.partition "#" u') as [[? ?]|];
        destruct (PyStr.partition "?" _) as [[? ?]|]; discriminate.
    + destruct (PyStr.partition "#" u') as [[? ?]|];
        destruct (PyStr.partition "?" _) as [[? ?]|]; discriminate.
  - destruct (PyStr.partition "#" u) as [[? ?]|];
      destruct (PyStr.partition "?" _) as [[? ?]|]; discriminate.
Qed.

Lemma urlparse_raises (url scheme : string) (e : exn) :
  Urllib.urlparse url scheme = Raise e -> e = ValueError.
Proof.
  unfold Urllib.urlparse.
  destruct (Urllib.urlsplit url scheme) as [r|e'] eqn:E; cbn [rbind].
  - destruct (_ && _); [destruct (Urllib._splitparams _)|]; discriminate.
  - intros [= <-]. eapply urlsplit_raises, E.
Qed.

Lemma urljoin_raises (base url : string) (e : exn) :
  Urllib.urljoin base url = Raise e -> e = ValueError.
Proof.
  unfold Urllib.urljoin.
  destruct (negb (PyStr.nonempty base)); [discriminate|].
  destruct (negb (PyStr.nonempty url)); [discriminate|].
  destruct (Urllib.urlparse base "") as [b|e1] eqn:E1; cbn [rbind];
    [|intros [= <-]; eapply urlparse_raises, E1].
  destruct (Urllib.urlparse url (scheme b)) as [u|e2] eqn:E2; cbn [rbind];
    [|intros [= <-]; eapply urlparse_raises, E2].
  repeat match goal with
    | |- context [if ?b then _ else _] => destruct b
    end; discriminate.
Qed.

Lemma rbind_urljoin_raises (r : result string) (url : string) (e : exn) :
  (forall e', r = Raise e' -> e' = ValueError) ->
  (x <-- r ;; Urllib.urljoin x url) = Raise e -> e = ValueError.
Proof.
  intros Hr. destruct r as [x|e']; cbn [rbind].
  - apply urljoin_raises.
  - intros [= <-]. now apply Hr.
Qed.

Lemma build_endpoint_raises c p b e :
  PersephoneClient._get_build_endpoint c p b = Raise e -> e = ValueError.
Proof.
  unfold PersephoneClient._get_build_endpoint, PersephoneClient._get_builds_endpoint,
    PersephoneClient._get_project_endpoint, PersephoneClient._get_projects_endpoint,
    PersephoneClient._get_api_endpoint.
  repeat (apply rbind_urljoin_raises; intros ?). apply urljoin_raises.
Qed.

Lemma prepared_request_raises c call e :
  prepared_request c call = Raise e -> e = ValueError.
Proof.
  assert (Hwrap : forall (r : result string) (k : string -> request),
             (forall e', r = Raise e' -> e' = ValueError) ->
             (url <-- r ;; Return (k url)) = Raise e -> e = ValueError).
  { intros r k Hr. destruct r; cbn [rbind]; [discriminate|].
    intros [= <-]. now apply Hr. }
  destruct call; cbn [prepared_request];
    try (apply Hwrap; intros e';
         unfold PersephoneClient._get_screenshots_endpoint,
           PersephoneClient._get_build_endpoint, PersephoneClient._get_builds_endpoint,
           PersephoneClient._get_project_endpoint, PersephoneClient._get_projects_endpoint,
           PersephoneClient._get_api_endpoint;
         repeat (apply rbind_urljoin_raises; intros ?); apply urljoin_raises).
  - destruct (PersephoneClient._get_build_endpoint c project_id build_id) as [x|e'] eqn:E;
      cbn [rbind]; [|intros [= <-]; eapply build_endpoint_raises, E].
    apply Hwrap. intros e'. apply urljoin_raises.
  - destruct (PersephoneClient._get_build_endpoint c project_id build_id) as [x|e'] eqn:E;
      cbn [rbind]; [|intros [= <-]; eapply build_endpoint_raises, E].
    apply Hwrap. intros e'. apply urljoin_raises.
Qed.

Lemma prepared_request_not_session_error c call msg :
  prepared_request c call <> Raise (PersephoneException msg).
Proof. intros E. apply prepared_request_raises in E. discriminate. Qed.

End OnlyValueError.

(** *** The helper operations *)

Section HelperRuns.
Context {ip : Ipaddress} {net : Network}.
Import PersephoneBuildHelper.

Lemma helper_run_spec (o : helper_call) (w : world) :
  helper_run o w
  = if guard_passes o (self w) then
      let '(r, sent') :=
        client_run (client (self w)) (helper_client_call o (self w)) (sent w) in
      helper_finishes o w r sent'
    else (Raise (PersephoneException (guard_message o)), w).
Proof.
  destruct o; cbn [helper_run helper_client_call client_run];
    unfold guard_passes, guard_message, helper_finishes; cbn [build_scoped];
    unfold create_build, delete_build, finish_build, fail_build, upload_screenshot,
      returning_None;
    rewrite ?bind_assoc; unfold bind at 1; unfold get_state;
    destruct (Py.truthy (build_id (self w))); cbn [negb]; try reflexivity;
    unfold bind, call_client, pure_result, set_build_id, ret.
  - destruct (PersephoneClient.create_build _ _ _ _ _ _ _ _) as [[v|e] sent'];
      [destruct (getitem v "id")|]; reflexivity.
  - destruct (PersephoneClient.delete_build _ _ _ _) as [[v|e] sent']; reflexivity.
  - destruct (PersephoneClient.finish_build _ _ _ _) as [[v|e] sent']; reflexivity.
  - destruct (PersephoneClient.fail_build _ _ _ _) as [[v|e] sent']; reflexivity.
  - destruct (PersephoneClient.post_screenshot _ _ _ _ _ _ _) as [[v|e] sent'];
      reflexivity.
Qed.

(** A client operation never raises the library's own exception. *)
Lemma client_run_not_session_error (c : PersephoneClient.t) (call : client_call)
      (sent : list request) (msg : string) :
  fst (client_run c call sent) <> Raise (PersephoneException msg).
Proof.
  rewrite client_run_spec.
  destruct (prepared_request c call) as [req|e] eqn:E; cbn [fst].
  - unfold outcome_of. destruct (server sent req) as [resp|]; [|discriminate].
    destruct (error_status resp); [discriminate|].
    destruct (decodes_body call); [|discriminate].
    destruct (json_body resp); discriminate.
  - intros [= ->]. revert E. apply prepared_request_not_session_error.
Qed.

End HelperRuns.

(* ------------------------------------------------------------------ *)
(** ** The endpoint resolver and the API client: C5, C6, C7, C8, C9 *)
(* ------------------------------------------------------------------ *)

(** C5, as stated, does not hold: for the root [http://example.com/], the
    project ["1"] and the non-empty build identifier ["/x"], joining the
    builds endpoint with ["/x/"] gives [http://example.com/x/], while
    joining the project endpoint with ["builds//x/"] gives
    [http://example.com/api/v1/projects/1/builds/x/].  URL-safe identifiers
    alone do not restore it: for the relative root [crafted_root], the
    project 12 and the build ["b-7"], the first join gives [b-7/] and the
    second [a:b/api/v1/projects/12/builds/b-7/]. *)
Lemma C5_counterexample :
  ~ (forall (I : Ipaddress) (c : PersephoneClient.t) (p b : string),
        p <> "" -> b <> "" ->
        PersephoneClient._get_build_endpoint c (PStr p) (PStr b)
        = (e <-- PersephoneClient._get_builds_endpoint c (PStr p) ;;
           Urllib.urljoin e (Py.format_slash (PStr b)))
        /\
        (e <-- PersephoneClient._get_builds_endpoint c (PStr p) ;;
         Urllib.urljoin e (Py.format_slash (PStr b)))
        = (e <-- PersephoneClient._get_project_endpoint c (PStr p) ;;
           Urllib.urljoin e ("builds/" ++ Py.format_slash (PStr b))))
  /\
  ~ (forall (I : Ipaddress) (c : PersephoneClient.t) (p b : pyval),
        url_safe_id p = true -> url_safe_id b = true ->
        (e <-- PersephoneClient._get_builds_endpoint c p ;;
         Urllib.urljoin e (Py.format_slash b))
        = (e <-- PersephoneClient._get_project_endpoint c p ;;
           Urllib.urljoin e ("builds/" ++ Py.format_slash b))).
Proof.
  split; intros Hclaim.
  - destruct (Hclaim no_bracketed_host example_client "1" "/x") as [_ Hjoin];
      [discriminate | discriminate |].
    vm_compute in Hjoin. discriminate Hjoin.
  - pose proof (Hclaim no_bracketed_host
                  (PersephoneClient.__init__ crafted_root "user" "secret")
                  (PInt 12) (PStr "b-7") eq_refl eq_refl) as Hjoin.
    vm_compute in Hjoin. discriminate Hjoin.
Qed.

(** C5, amended: for a root endpoint that is an absolute URL (its scheme
    admits relative references, as http and https do) and URL-safe
    identifiers [p] and [b] (ints, or non-empty strings of unreserved
    characters other than [.] and [..]), [build_endpoint(p, b)], the join
    of [builds_endpoint(p)] with ["{b}/"] and the join of
    [project_endpoint(p)] with ["builds/{b}/"] are one and the same URL,
    [api_endpoint + "projects/{p}/builds/{b}/"].  When the root is written
    [scheme://authority/seg1/.../segn/], [api_endpoint] is
    [root + "api/v1/"]. *)
Theorem C5_endpoint_joins_agree {ip : Ipaddress} (c : PersephoneClient.t)
        (p b : pyval) :
  absolute_root (PersephoneClient.root_endpoint c) = true ->
  url_safe_id p = true -> url_safe_id b = true ->
  exists api,
    PersephoneClient._get_api_endpoint c = Return api
    /\ (let url := api ++ "projects/" ++ Py.str p ++ "/builds/" ++ Py.str b ++ "/" in
        PersephoneClient._get_build_endpoint c p b = Return url
        /\ (e <-- PersephoneClient._get_builds_endpoint c p ;;
            Urllib.urljoin e (Py.format_slash b)) = Return url
        /\ (e <-- PersephoneClient._get_project_endpoint c p ;;
            Urllib.urljoin e ("builds/" ++ Py.format_slash b)) = Return url)
    /\ (forall sch net segs,
          PersephoneClient.root_endpoint c = abs_url sch net segs ->
          regular_base sch net segs = true ->
          api = PersephoneClient.root_endpoint c ++ "api/v1/").
Proof.
  intros Hroot Hp Hb.
  destruct (endpoints_of_absolute_root c Hroot) as (sch & net & segs & Hreg & Hapi).
  exists (abs_url sch net segs). split; [exact Hapi|]. split.
  - cbv zeta. rewrite <- (build_url_closed_form sch net segs).
    pose proof (build_endpoint_regular c sch net segs Hapi Hreg p b Hp Hb) as Hbuild.
    split; [exact Hbuild|]. split; [exact Hbuild|].
    rewrite (project_endpoint_regular c sch net segs Hapi Hreg p Hp). cbn [rbind].
    apply url_safe_id_plain in Hp, Hb.
    change ("builds/" ++ Py.format_slash b) with (dirs ["builds"; Py.str b]).
    rewrite urljoin_dirs;
      [ now rewrite <- app_assoc
      | apply regular_base_app; [assumption | simpl; now rewrite Hp]
      | simpl; now rewrite Hb | discriminate ].
  - intros sch' net' segs' Hshape Hreg'.
    pose proof (api_endpoint_of_regular_root c sch' net' segs' Hshape Hreg') as Hapi'.
    rewrite Hapi in Hapi'. now injection Hapi'.
Qed.

(** C5, amended, at the root [http://example.com/], project 1 and build
    ["b-7"]. *)
Lemma C5_endpoint_joins_agree_witness :
  absolute_root (ip := no_bracketed_host) "http://example.com/" = true
  /\ url_safe_id (PInt 1) = true /\ url_safe_id (PStr "b-7") = true
  /\ PersephoneClient._get_build_endpoint (ip := no_bracketed_host)
       example_client (PInt 1) (PStr "b-7")
     = Return "http://example.com/api/v1/projects/1/builds/b-7/".
Proof.
  split; [reflexivity|]. split; [reflexivity|]. split; [reflexivity|].
  destruct (C5_endpoint_joins_agree (ip := no_bracketed_host) example_client
              (PInt 1) (PStr "b-7") eq_refl eq_refl eq_refl)
    as (api & Hapi & (Hbuild & _) & _).
  change (Return "http://example.com/api/v1/" = Return api) in Hapi.
  injection Hapi as <-. exact Hbuild.
Defined.

(** C6: for the root endpoint [http://example.com/] and the project id 42
    (as a str or as an int), the chain of relative joins root, ["api/v1/"],
    ["projects/"], ["42/"] yields
    [http://example.com/api/v1/projects/42/], and that is the project
    endpoint. *)
Theorem C6_project_endpoint_example {ip : Ipaddress} (username password : string) :
  let c := PersephoneClient.__init__ "http://example.com/" username password in
  Urllib.urljoin "http://example.com/" "api/v1/" = Return "http://example.com/api/v1/"
  /\ Urllib.urljoin "http://example.com/api/v1/" "projects/"
     = Return "http://example.com/api/v1/projects/"
  /\ Urllib.urljoin "http://example.com/api/v1/projects/" "42/"
     = Return "http://example.com/api/v1/projects/42/"
  /\ PersephoneClient._get_project_endpoint c (PStr "42")
     = Return "http://example.com/api/v1/projects/42/"
  /\ PersephoneClient._get_project_endpoint c (PInt 42)
     = Return "http://example.com/api/v1/projects/42/".
Proof. repeat split; vm_compute; reflexivity. Qed.

(** C7: [finish_build] and [fail_build] make one POST, to the relative
    join of the build endpoint with ["finish"] and ["fail"], and return the
    decoded JSON body of a response that passes the status check.  For a
    root endpoint that is an absolute URL and URL-safe identifiers the
    build endpoint is [api_endpoint + "projects/{pid}/builds/{bid}/"] and
    the two URLs are the build endpoint followed by [finish] and by
    [fail], with no trailing slash. *)
Theorem C7_finish_and_fail_urls {ip : Ipaddress} {net : Network}
        (c : PersephoneClient.t) (pid bid : pyval) (sent : list request)
        (be u_finish u_fail : string) :
  PersephoneClient._get_build_endpoint c pid bid = Return be ->
  Urllib.urljoin be "finish" = Return u_finish ->
  Urllib.urljoin be "fail" = Return u_fail ->
  let req_finish := mk_request POST u_finish (PersephoneClient._auth c) None [] [] in
  let req_fail := mk_request POST u_fail (PersephoneClient._auth c) None [] [] in
  snd (PersephoneClient.finish_build c pid bid sent) = (sent ++ [req_finish])%list
  /\ snd (PersephoneClient.fail_build c pid bid sent) = (sent ++ [req_fail])%list
  /\ (forall resp v,
        server sent req_finish = Some resp -> error_status resp = false ->
        json_body resp = Some v ->
        fst (PersephoneClient.finish_build c pid bid sent) = Return v)
  /\ (forall resp v,
        server sent req_fail = Some resp -> error_status resp = false ->
        json_body resp = Some v ->
        fst (PersephoneClient.fail_build c pid bid sent) = Return v)
  /\ (absolute_root (PersephoneClient.root_endpoint c) = true ->
      url_safe_id pid = true -> url_safe_id bid = true ->
      exists api,
        PersephoneClient._get_api_endpoint c = Return api
        /\ be = api ++ "projects/" ++ Py.str pid ++ "/builds/" ++ Py.str bid ++ "/"
        /\ u_finish = be ++ "finish"
        /\ u_fail = be ++ "fail").
Proof.
  intros Hbe Hfin Hfail req_finish req_fail.
  assert (Efin : PersephoneClient.finish_build c pid bid sent
                 = (outcome_of (Finish_build pid bid) (server sent req_finish),
                    (sent ++ [req_finish])%list)).
  { change (PersephoneClient.finish_build c pid bid sent)
      with (client_run c (Finish_build pid bid) sent).
    rewrite client_run_spec. cbn [prepared_request]. rewrite Hbe. cbn [rbind].
    rewrite Hfin. reflexivity. }
  assert (Efail : PersephoneClient.fail_build c pid bid sent
                  = (outcome_of (Fail_build pid bid) (server sent req_fail),
                     (sent ++ [req_fail])%list)).
  { change (PersephoneClient.fail_build c pid bid sent)
      with (client_run c (Fail_build pid bid) sent).
    rewrite client_run_spec. cbn [prepared_request]. rewrite Hbe. cbn [rbind].
    rewrite Hfail. reflexivity. }
  rewrite Efin, Efail. cbn [fst snd]. unfold outcome_of. cbn [decodes_body].
  split; [reflexivity|]. split; [reflexivity|].
  split; [intros resp v -> -> ->; reflexivity|].
  split; [intros resp v -> -> ->; reflexivity|].
  intros Hroot Hp Hb.
  destruct (endpoints_of_absolute_root c Hroot) as (sch & host & segs & Hreg & Hapi).
  exists (abs_url sch host segs). split; [exact Hapi|].
  rewrite (build_endpoint_regular c sch host segs Hapi Hreg pid bid Hp Hb) in Hbe.
  injection Hbe as <-.
  rewrite urljoin_leaf in Hfin, Hfail by (reflexivity || now apply build_segs_regular).
  injection Hfin as <-. injection Hfail as <-.
  split; [apply build_url_closed_form|]. split; reflexivity.
Qed.

(** C7 at the root [http://example.com/], project 1 and build 7, with a
    service that answers 200 and an empty JSON object. *)
Lemma C7_finish_and_fail_urls_witness :
  let N := always (json_response 200 (PDict [])) in
  PersephoneClient.finish_build (ip := no_bracketed_host) (net := N)
    example_client (PInt 1) (PInt 7) []
  = (Return (PDict []),
     [mk_request POST "http://example.com/api/v1/projects/1/builds/7/finish"
        ("user", "secret") None [] []])
  /\ snd (PersephoneClient.fail_build (ip := no_bracketed_host) (net := N)
            example_client (PInt 1) (PInt 7) [])
     = [mk_request POST "http://example.com/api/v1/projects/1/builds/7/fail"
          ("user", "secret") None [] []].
Proof.
  intros N.
  destruct (C7_finish_and_fail_urls (ip := no_bracketed_host) (net := N)
              example_client (PInt 1) (PInt 7) []
              "http://example.com/api/v1/projects/1/builds/7/"
              "http://example.com/api/v1/projects/1/builds/7/finish"
              "http://example.com/api/v1/projects/1/builds/7/fail"
              eq_refl eq_refl eq_refl)
    as (Hsent & Hsent' & Hok & _).
  split; [|exact Hsent'].
  rewrite (surjective_pairing (PersephoneClient.finish_build _ _ _ _)).
  rewrite Hsent, (Hok (json_response 200 (PDict [])) (PDict [])); reflexivity.
Defined.

(** C8: [post_screenshot] makes one POST to the screenshots endpoint whose
    form data holds [name] under ["name"] and [json.dumps(metadata)] under
    ["metadata"], and whose files hold the image bytes under ["image"]; the
    metadata text is a form field, apart from the file field.  The
    metadata [{"k": 1}] is sent as the eight characters [{"k": 1}]. *)
Theorem C8_post_screenshot_form {ip : Ipaddress} {net : Network}
        (c : PersephoneClient.t) (pid bid name : pyval) (image_data : list Byte.byte)
        (metadata : pyval) (sent : list request) (url : string) :
  PersephoneClient._get_screenshots_endpoint c pid bid = Return url ->
  snd (PersephoneClient.post_screenshot c pid bid name image_data metadata sent)
  = (sent ++ [mk_request POST url (PersephoneClient._auth c) None
                [("name", name); ("metadata", PStr (Py.json_dumps metadata))]
                [("image", image_data)]])%list
  /\ Py.json_dumps (PDict [("k", PInt 1)])
     = "{" ++ String Py.dq ("k" ++ String Py.dq ": 1}").
Proof.
  intros Hurl. split; [|reflexivity].
  change (PersephoneClient.post_screenshot c pid bid name image_data metadata sent)
    with (client_run c (Post_screenshot pid bid name image_data metadata) sent).
  rewrite client_run_spec. cbn [prepared_request]. rewrite Hurl. reflexivity.
Qed.

(** C8 for the screenshot ["a/b.png"] of build 7 with metadata
    [{"k": 1}]. *)
Lemma C8_post_screenshot_form_witness :
  let N := always (json_response 200 (PDict [("id", PInt 3)])) in
  snd (PersephoneClient.post_screenshot (ip := no_bracketed_host) (net := N)
         example_client (PInt 1) (PInt 7) (PStr "a/b.png")
         [Byte.x89; Byte.x50; Byte.x4e; Byte.x47] (PDict [("k", PInt 1)]) [])
  = [mk_request POST "http://example.com/api/v1/projects/1/builds/7/screenshots/"
       ("user", "secret") None
       [("name", PStr "a/b.png");
        ("metadata", PStr ("{" ++ String Py.dq ("k" ++ String Py.dq ": 1}")))]
       [("image", [Byte.x89; Byte.x50; Byte.x4e; Byte.x47])]].
Proof.
  intros N.
  apply (C8_post_screenshot_form (ip := no_bracketed_host) (net := N)
           example_client (PInt 1) (PInt 7) (PStr "a/b.png")
           [Byte.x89; Byte.x50; Byte.x4e; Byte.x47] (PDict [("k", PInt 1)]) []
           "http://example.com/api/v1/projects/1/builds/7/screenshots/").
  reflexivity.
Defined.

(** C9: every call the client's [create_build] makes carries a JSON body
    with exactly the five keys [commit_hash], [branch_name],
    [original_build_number], [original_build_url] and [pull_request_id], in
    that order; each holds the argument supplied, and [None] (JSON null)
    when the argument is left out. *)
Theorem C9_create_build_body {ip : Ipaddress} {net : Network}
        (c : PersephoneClient.t) (pid : pyval)
        (commit_hash branch_name original_build_number
         original_build_url pull_request_id : option pyval)
        (sent : list request) (url : string) :
  PersephoneClient._get_builds_endpoint c pid = Return url ->
  let body :=
    [("commit_hash", default_None commit_hash);
     ("branch_name", default_None branch_name);
     ("original_build_number", default_None original_build_number);
     ("original_build_url", default_None original_build_url);
     ("pull_request_id", default_None pull_request_id)] in
  snd (PersephoneClient.create_build c pid commit_hash branch_name
         original_build_number original_build_url pull_request_id sent)
  = (sent ++ [mk_request POST url (PersephoneClient._auth c) (Some (PDict body)) [] []])%list
  /\ List.map fst body
     = ["commit_hash"; "branch_name"; "original_build_number";
        "original_build_url"; "pull_request_id"]
  /\ (forall (key : string) (arg : option pyval),
         In (key, arg)
            [("commit_hash", commit_hash); ("branch_name", branch_name);
             ("original_build_number", original_build_number);
             ("original_build_url", original_build_url);
             ("pull_request_id", pull_request_id)] ->
         dict_get body key = Return (match arg with Some v => v | None => PNone end)).
Proof.
  intros Hurl body. split; [|split].
  - change (PersephoneClient.create_build c pid commit_hash branch_name
              original_build_number original_build_url pull_request_id sent)
      with (client_run c (Create_build pid commit_hash branch_name
                            original_build_number original_build_url pull_request_id) sent).
    rewrite client_run_spec. cbn [prepared_request]. rewrite Hurl. reflexivity.
  - reflexivity.
  - intros key arg Hin. cbn [In] in Hin.
    repeat (destruct Hin as [[= <- <-]|Hin]; [reflexivity|]). contradiction.
Qed.

(** C9 for a call that supplies the commit hash alone. *)
Lemma C9_create_build_body_witness :
  let N := always (json_response 201 (PDict [("id", PInt 7)])) in
  snd (PersephoneClient.create_build (ip := no_bracketed_host) (net := N)
         example_client (PInt 1) (Some (PStr "c0ffee")) None None None None [])
  = [mk_request POST "http://example.com/api/v1/projects/1/builds/" ("user", "secret")
       (Some (PDict [("commit_hash", PStr "c0ffee"); ("branch_name", PNone);
                     ("original_build_number", PNone); ("original_build_url", PNone);
                     ("pull_request_id", PNone)]))
       [] []].
Proof.
  intros N.
  apply (C9_create_build_body (ip := no_bracketed_host) (net := N)
           example_client (PInt 1) (Some (PStr "c0ffee")) None None None None []
           "http://example.com/api/v1/projects/1/builds/").
  reflexivity.
Defined.

(* ------------------------------------------------------------------ *)
(** ** The build helper: C1, C2, C3, C4, C10 *)
(* ------------------------------------------------------------------ *)

Import PersephoneBuildHelper.

Section HelperFacts.
Context {ip : Ipaddress} {net : Network}.


Lemma getitem_not_session_error (v : pyval) (key msg : string) :
  getitem v key <> Raise (PersephoneException msg).
Proof.
  destruct v; cbn [getitem]; try discriminate.
  induction d as [|[k x] d IH]; cbn [dict_get]; [discriminate|].
  destruct (String.eqb k key); [discriminate | exact IH].
Qed.

(** Once the guard of a helper operation passes, the operation does not
    raise the library's own exception. *)
Lemma helper_finishes_not_session_error o w sent0 msg :
  fst (let '(r, sent') := client_run (client (self w)) (helper_client_call o (self w)) sent0
       in helper_finishes o w r sent')
  <> Raise (PersephoneException msg).
Proof.
  pose proof (client_run_not_session_error (client (self w))
                (helper_client_call o (self w)) sent0 msg) as Hc.
  destruct (client_run _ _ _) as [[v|e] sent']; cbn [fst] in Hc;
    unfold helper_finishes; [|exact Hc].
  destruct o; cbn [fst]; try discriminate.
  - pose proof (getitem_not_session_error v "id" msg).
    destruct (getitem v "id"); cbn [fst]; [discriminate | assumption].
  - apply getitem_not_session_error.
Qed.

(** A helper operation that raises leaves the helper as it was. *)
Lemma helper_raise_keeps_self o w e :
  fst (helper_run o w) = Raise e -> self (snd (helper_run o w)) = self w.
Proof.
  rewrite helper_run_spec.
  destruct (guard_passes o (self w)); [|reflexivity].
  destruct (client_run _ _ _) as [[v|e'] sent']; unfold helper_finishes; [|reflexivity].
  destruct o; cbn [fst snd self]; try discriminate; try reflexivity.
  destruct (getitem v "id"); cbn [fst snd self]; [discriminate | reflexivity].
Qed.

(** With a false [build_id], a build-scoped operation is rejected on the
    spot. *)
Lemma build_scoped_rejected o w :
  build_scoped o = true -> Py.truthy (build_id (self w)) = false ->
  helper_run o w = (Raise (PersephoneException no_build_running), w).
Proof.
  intros Ho Hb. rewrite helper_run_spec.
  unfold guard_passes, guard_message. now rewrite Ho, Hb.
Qed.

End HelperFacts.




(** C2, as stated, does not hold: with [build_id] equal to 0, which is
    not null, [finish_build] raises the "no build running" error. *)
Lemma C2_counterexample :
  ~ (forall (I : Ipaddress) (N : Network) (o : helper_call) (w : world),
        build_scoped o = true ->
        ((exists msg, fst (helper_run o w) = Raise (PersephoneException msg))
         <-> build_id (self w) = PNone)).
Proof.
  intros Hclaim.
  pose (w := mk_world (example_helper "http://example.com/" (Some (PInt 0))) []).
  destruct (Hclaim no_bracketed_host
              (always (json_response 200 (PDict []))) Helper_finish_build w eq_refl)
    as [Hnull _].
  assert (Hraises : exists msg,
             fst (helper_run (ip := no_bracketed_host)
                    (net := always (json_response 200 (PDict [])))
                    Helper_finish_build w)
             = Raise (PersephoneException msg)).
  { exists no_build_running. reflexivity. }
  specialize (Hnull Hraises). discriminate Hnull.
Qed.

(** C2, amended: each build-scoped operation ([delete_build],
    [finish_build], [fail_build], [upload_screenshot]) raises the library's
    exception if and only if [build_id] is false in Python's truth test
    (null, 0, the empty string, False, an empty list or dict); it then
    carries the "no build running" message, and the helper and the record
    of calls are left as they were: no call is made. *)
Theorem C2_no_build_guard {ip : Ipaddress} {net : Network} (o : helper_call) (w : world) :
  build_scoped o = true ->
  ((exists msg, fst (helper_run o w) = Raise (PersephoneException msg))
   <-> Py.truthy (build_id (self w)) = false)
  /\ (Py.truthy (build_id (self w)) = false ->
      helper_run o w = (Raise (PersephoneException no_build_running), w)).
Proof.
  intros Ho. split; [split|].
  - intros [msg Hmsg]. rewrite helper_run_spec in Hmsg.
    unfold guard_passes in Hmsg. rewrite Ho in Hmsg.
    destruct (Py.truthy (build_id (self w))); [|reflexivity].
    exfalso. revert Hmsg. apply helper_finishes_not_session_error.
  - intros Hb. exists no_build_running. now rewrite build_scoped_rejected.
  - now apply build_scoped_rejected.
Qed.

(** C2, amended, for [upload_screenshot] on a helper without a
    build. *)
Lemma C2_no_build_guard_witness :
  build_scoped (Helper_upload_screenshot (PStr "a/b.png") [] None) = true
  /\ helper_run (ip := no_bracketed_host) (net := always (json_response 200 (PDict [])))
       (Helper_upload_screenshot (PStr "a/b.png") [] None)
       (mk_world (example_helper "http://example.com/" None) [])
     = (Raise (PersephoneException no_build_running),
        mk_world (example_helper "http://example.com/" None) []).
Proof.
  split; [reflexivity|].
  apply (C2_no_build_guard (ip := no_bracketed_host)
           (net := always (json_response 200 (PDict [])))
           (Helper_upload_screenshot (PStr "a/b.png") [] None)
           (mk_world (example_helper "http://example.com/" None) []));
    reflexivity.
Defined.

(** C3: when [build_id] is not null and [finish_build], [fail_build] or
    [delete_build] returns, [build_id] is null afterwards; every
    build-scoped operation that follows, in any number, raises the "no
    build running" error and changes nothing.  No operation replaces one
    tracked build by another: an operation leaves [build_id] as it was,
    or resets it to null (a terminal operation on a helper with a build),
    or sets it from a helper without a build ([create_build]). *)
Theorem C3_terminal_resets_build_id {ip : Ipaddress} {net : Network}
        (o : helper_call) (w : world) :
  terminal o = true ->
  build_id (self w) <> PNone ->
  fst (helper_run o w) = Return PNone ->
  let w' := snd (helper_run o w) in
  build_id (self w') = PNone
  /\ (forall os : list helper_call,
         List.forallb build_scoped os = true ->
         helper_run_all os w'
         = (List.map (fun _ => Raise (PersephoneException no_build_running)) os, w'))
  /\ (forall (o2 : helper_call) (w2 : world),
         let w3 := snd (helper_run o2 w2) in
         build_id (self w3) = build_id (self w2)
         \/ (terminal o2 = true /\ Py.truthy (build_id (self w2)) = true
             /\ build_id (self w3) = PNone)
         \/ (o2 = Helper_create_build /\ Py.truthy (build_id (self w2)) = false
             /\ fst (helper_run o2 w2) = Return PNone)).
Proof.
  intros Ho Hnn Hok w'.
  assert (Hreset : build_id (self w') = PNone).
  { subst w'. rewrite helper_run_spec in Hok |- *.
    destruct (guard_passes o (self w)); [|discriminate].
    destruct (client_run _ _ _) as [[v|e] sent']; unfold helper_finishes in *;
      [|discriminate].
    destruct o; try discriminate; reflexivity. }
  split; [exact Hreset|]. split.
  - induction os as [|o1 os IH]; intros Hos; [reflexivity|].
    cbn [List.forallb] in Hos. apply andb_prop in Hos as [Ho1 Hos].
    cbn [helper_run_all List.map].
    rewrite build_scoped_rejected by (assumption || now rewrite Hreset).
    now rewrite (IH Hos).
  - intros o2 w2 w3. subst w3. rewrite helper_run_spec.
    unfold guard_passes.
    destruct o2; cbn [build_scoped terminal];
      destruct (Py.truthy (build_id (self w2))) eqn:Hb; cbn [negb];
      try (left; reflexivity);
      destruct (client_run _ _ _) as [[v|e] sent']; unfold helper_finishes;
      try (left; reflexivity);
      try (right; left; repeat split; reflexivity).
    destruct (getitem v "id"); [|left; reflexivity].
    right; right. repeat split.
Qed.

(** C3 for [finish_build] on build 7, followed by
    [upload_screenshot]. *)
Lemma C3_terminal_resets_build_id_witness :
  let N := always (json_response 200 (PDict [("id", PInt 7)])) in
  let w := mk_world (example_helper "http://example.com/" (Some (PInt 7))) [] in
  let w' := snd (helper_run (ip := no_bracketed_host) (net := N) Helper_finish_build w) in
  terminal Helper_finish_build = true
  /\ build_id (self w) <> PNone
  /\ fst (helper_run (ip := no_bracketed_host) (net := N) Helper_finish_build w) = Return PNone
  /\ build_id (self w') = PNone
  /\ helper_run_all (ip := no_bracketed_host) (net := N)
       [Helper_upload_screenshot (PStr "a/b.png") [] None] w'
     = ([Raise (PersephoneException no_build_running)], w').
Proof.
  intros N w w'.
  assert (Ht : terminal Helper_finish_build = true) by reflexivity.
  assert (Hn : build_id (self w) <> PNone) by discriminate.
  assert (Hok : fst (helper_run (ip := no_bracketed_host) (net := N) Helper_finish_build w)
                = Return PNone) by reflexivity.
  destruct (C3_terminal_resets_build_id (ip := no_bracketed_host) (net := N)
              Helper_finish_build w Ht Hn Hok) as (Hreset & Hafter & _).
  repeat (split; [assumption|]).
  exact (Hafter [Helper_upload_screenshot (PStr "a/b.png") [] None] eq_refl).
Defined.

(** C4, as stated, does not hold: [raise_for_status] raises for the
    statuses 400 to 599 only.  When the service answers [get_projects]
    with status 300 and the JSON body [[]], the operation returns the
    empty list and raises nothing. *)
Lemma C4_counterexample :
  ~ (forall (I : Ipaddress) (N : Network) (c : PersephoneClient.t)
            (sent : list request) (req : request) (resp : response),
        prepared_request c Get_projects = Return req ->
        server sent req = Some resp ->
        non_2xx resp = true ->
        exists e, fst (PersephoneClient.get_projects c sent) = Raise e).
Proof.
  intros Hclaim.
  destruct (Hclaim no_bracketed_host (always (json_response 300 (PList [])))
              example_client []
              (mk_request GET "http://example.com/api/v1/projects/" ("user", "secret")
                 None [] [])
              (json_response 300 (PList [])) eq_refl eq_refl eq_refl)
    as [e He].
  vm_compute in He. discriminate He.
Qed.

(** C4, amended: a response with a status from 400 to 599 makes every
    client operation raise [HTTPError], which carries the response (status
    code and body); a helper operation whose call is answered so raises the
    same error, with the helper unchanged and the call recorded; whatever
    a helper operation raises, the helper is left as it was (so [build_id]
    stays null after a failed [create_build], and keeps its value after a
    failed operation on a build); and a client operation raises
    [HTTPError] for no other status. *)
Theorem C4_error_status_raises {ip : Ipaddress} {net : Network} :
  (forall (c : PersephoneClient.t) (call : client_call) (sent : list request)
          (req : request) (resp : response),
      prepared_request c call = Return req ->
      server sent req = Some resp ->
      error_status resp = true ->
      client_run c call sent = (Raise (HTTPError resp), (sent ++ [req])%list))
  /\ (forall (o : helper_call) (w : world) (req : request) (resp : response),
         guard_passes o (self w) = true ->
         prepared_request (client (self w)) (helper_client_call o (self w)) = Return req ->
         server (sent w) req = Some resp ->
         error_status resp = true ->
         helper_run o w
         = (Raise (HTTPError resp), mk_world (self w) (sent w ++ [req])%list))
  /\ (forall (o : helper_call) (w : world) (e : exn),
         fst (helper_run o w) = Raise e ->
         self (snd (helper_run o w)) = self w)
  /\ (forall (c : PersephoneClient.t) (call : client_call) (sent : list request)
             (resp : response),
         fst (client_run c call sent) = Raise (HTTPError resp) ->
         exists req : request,
           prepared_request c call = Return req
           /\ server sent req = Some resp
           /\ error_status resp = true).
Proof.
  assert (Hclient : forall c call sent req resp,
             prepared_request c call = Return req ->
             server sent req = Some resp ->
             error_status resp = true ->
             client_run c call sent = (Raise (HTTPError resp), (sent ++ [req])%list)).
  { intros c call sent req resp Hreq Hresp Hstatus.
    rewrite client_run_spec, Hreq, Hresp. unfold outcome_of. now rewrite Hstatus. }
  split; [exact Hclient|]. split.
  - intros o w req resp Hguard Hreq Hresp Hstatus.
    rewrite helper_run_spec, Hguard, (Hclient _ _ _ _ _ Hreq Hresp Hstatus).
    reflexivity.
  - split; [intros o w e; apply helper_raise_keeps_self|].
    intros c call sent resp. rewrite client_run_spec.
    destruct (prepared_request c call) as [req|e] eqn:Hreq; cbn [fst].
    + unfold outcome_of.
      destruct (server sent req) as [resp'|] eqn:Hserver; [|discriminate].
      destruct (error_status resp') eqn:Hstatus.
      * intros [= ->]. exists req. auto.
      * destruct (decodes_body call); [|discriminate].
        destruct (json_body resp'); discriminate.
    + intros [= ->]. apply prepared_request_raises in Hreq. discriminate Hreq.
Qed.

(** C4, amended, for a service that answers 404. *)
Lemma C4_error_status_raises_witness :
  let N := always (json_response 404 (PDict [])) in
  let w := mk_world (example_helper "http://example.com/" None) [] in
  let req := mk_request GET "http://example.com/api/v1/projects/" ("user", "secret")
               None [] [] in
  error_status (json_response 404 (PDict [])) = true
  /\ client_run (ip := no_bracketed_host) (net := N) example_client Get_projects []
     = (Raise (HTTPError (json_response 404 (PDict []))), [req])
  /\ build_id (self (snd (helper_run (ip := no_bracketed_host) (net := N)
                            Helper_create_build w))) = PNone.
Proof.
  intros N w req.
  destruct (C4_error_status_raises (ip := no_bracketed_host) (net := N))
    as (Hclient & _ & Hkeep & _).
  split; [reflexivity|]. split.
  - apply (Hclient example_client Get_projects [] req (json_response 404 (PDict [])));
      reflexivity.
  - rewrite (Hkeep Helper_create_build w (HTTPError (json_response 404 (PDict []))));
      reflexivity.
Defined.

(** C10: [upload_screenshot] called without [metadata], or with
    [None], on a helper with a build makes a call whose form data holds
    the field ["metadata"] with the four characters [null]. *)
Theorem C10_metadata_omitted {ip : Ipaddress} {net : Network}
        (w : world) (name : pyval) (image_data : list Byte.byte) (url : string) :
  Py.truthy (build_id (self w)) = true ->
  PersephoneClient._get_screenshots_endpoint
    (client (self w)) (project_id (self w)) (build_id (self w)) = Return url ->
  let req :=
    mk_request POST url (PersephoneClient._auth (client (self w))) None
      [("name", name); ("metadata", PStr "null")] [("image", image_data)] in
  sent (snd (upload_screenshot name image_data None w)) = (sent w ++ [req])%list
  /\ sent (snd (upload_screenshot name image_data (Some PNone) w)) = (sent w ++ [req])%list
  /\ String.length "null" = 4.
Proof.
  intros Hb Hurl req.
  assert (Hrun : forall md, default_None md = PNone ->
             sent (snd (upload_screenshot name image_data md w)) = (sent w ++ [req])%list).
  { intros md Hmd.
    change (upload_screenshot name image_data md w)
      with (helper_run (Helper_upload_screenshot name image_data md) w).
    rewrite helper_run_spec. unfold guard_passes. cbn [build_scoped]. rewrite Hb.
    rewrite client_run_spec. cbn [helper_client_call prepared_request].
    rewrite Hurl, Hmd. cbn [rbind]. unfold helper_finishes.
    destruct (outcome_of _ _); reflexivity. }
  split; [|split]; [now apply Hrun | now apply Hrun | reflexivity].
Qed.

(** C10 for the screenshot ["a/b.png"] of build 7. *)
Lemma C10_metadata_omitted_witness :
  let N := always (json_response 200 (PDict [("id", PInt 3)])) in
  let w := mk_world (example_helper "http://example.com/" (Some (PInt 7))) [] in
  Py.truthy (build_id (self w)) = true
  /\ sent (snd (upload_screenshot (ip := no_bracketed_host) (net := N)
                  (PStr "a/b.png") [Byte.x89; Byte.x50] None w))
     = [mk_request POST "http://example.com/api/v1/projects/1/builds/7/screenshots/"
          ("user", "secret") None
          [("name", PStr "a/b.png"); ("metadata", PStr "null")]
          [("image", [Byte.x89; Byte.x50])]].
Proof.
  intros N w. split; [reflexivity|].
  apply (C10_metadata_omitted (ip := no_bracketed_host) (net := N) w
           (PStr "a/b.png") [Byte.x89; Byte.x50]
           "http://example.com/api/v1/projects/1/builds/7/screenshots/");
    reflexivity.
Defined.

(* ------------------------------------------------------------------ *)
(** ** Beyond the claims: the calls the client makes *)
(* ------------------------------------------------------------------ *)

Lemma app_one_inv {A} (l : list A) (x y : A) : (l ++ [x] = l ++ [y])%list -> x = y.
Proof. intros H. apply app_inv_head in H. now injection H. Qed.

Lemma app_one_neq {A} (l : list A) (x : A) : l <> (l ++ [x])%list.
Proof.
  intros H. apply (f_equal (@List.length A)) in H.
  rewrite length_app in H. simpl in H. lia.
Qed.

Section CallsMade.
Context {ip : Ipaddress} {net : Network}.

(** The call an operation has recorded is the one it prepared. *)
Lemma recorded_call_prepared (c : PersephoneClient.t) (call : client_call)
      (sent : list request) (req : request) :
  snd (client_run c call sent) = (sent ++ [req])%list ->
  prepared_request c call = Return req.
Proof.
  rewrite client_run_spec.
  destruct (prepared_request c call) as [req'|e]; cbn [snd].
  - intros H. now apply app_one_inv in H as ->.
  - intros H. now apply app_one_neq in H.
Qed.



End CallsMade.


(** X2: the call a client operation makes is a GET for [get_projects],
    [get_project], [get_builds] and [get_build], a DELETE for
    [delete_build] and a POST for the others; no operation but
    [create_build] sends a JSON body, and none but [post_screenshot] sends
    form fields or files. *)
Theorem X2_request_shape {ip : Ipaddress} {net : Network}
        (c : PersephoneClient.t) (call : client_call) (sent : list request)
        (req : request) :
  snd (client_run c call sent) = (sent ++ [req])%list ->
  req_method req
  = match call with
    | Get_projects | Get_project _ | Get_builds _ | Get_build _ _ => GET
    | Delete_build _ _ => DELETE
    | _ => POST
    end
  /\ (req_json req = None
      \/ exists p ch bn obn obu pr, call = Create_build p ch bn obn obu pr)
  /\ ((req_data req = [] /\ req_files req = [])
      \/ exists p b n i m, call = Post_screenshot p b n i m).
Proof.
  intros Hreq%recorded_call_prepared. revert Hreq.
  destruct call; cbn [prepared_request];
    repeat match goal with
      | |- context [rbind ?r _] => destruct r; cbn [rbind]
      end;
    intros [= <-]; cbn [req_method req_json req_data req_files];
    (split; [reflexivity|]); split; eauto 12.
Qed.

Lemma X2_request_shape_witness :
  let N := always (json_response 200 (PList [])) in
  let req := mk_request GET "http://example.com/api/v1/projects/1/builds/"
               ("user", "secret") None [] [] in
  snd (client_run (ip := no_bracketed_host) (net := N) example_client
         (Get_builds (PInt 1)) [])
  = [req]
  /\ req_method req = GET.
Proof.
  intros N req. split; [reflexivity|].
  apply (X2_request_shape (ip := no_bracketed_host) (net := N) example_client
           (Get_builds (PInt 1)) [] req).
  reflexivity.
Defined.

(** X3: when the response to the call of a client operation has a status
    outside 400..599, [delete_build] returns [None] whatever the body is,
    and every other operation returns the decoded JSON body as it is,
    whatever its shape, or raises [JSONDecodeError] when the body is not
    JSON. *)
Theorem X3_outcome_of_accepted_response {ip : Ipaddress} {net : Network}
        (c : PersephoneClient.t) (call : client_call) (sent : list request)
        (req : request) (resp : response) :
  snd (client_run c call sent) = (sent ++ [req])%list ->
  server sent req = Some resp ->
  error_status resp = false ->
  fst (client_run c call sent)
  = match call with
    | Delete_build _ _ => Return PNone
    | _ => match json_body resp with
           | Some v => Return v
           | None => Raise JSONDecodeError
           end
    end.
Proof.
  intros Hreq%recorded_call_prepared Hresp Hstatus.
  rewrite client_run_spec, Hreq. cbn [fst]. unfold outcome_of.
  rewrite Hresp, Hstatus. destruct call; reflexivity.
Qed.

Lemma X3_outcome_of_accepted_response_witness :
  let resp := mk_response 204 "" None in
  let N := always resp in
  fst (client_run (ip := no_bracketed_host) (net := N) example_client
         (Delete_build (PInt 1) (PInt 7)) [])
  = Return PNone
  /\ fst (client_run (ip := no_bracketed_host) (net := N) example_client
            (Finish_build (PInt 1) (PInt 7)) [])
     = Raise JSONDecodeError.
Proof.
  intros resp N. split.
  - apply (X3_outcome_of_accepted_response (ip := no_bracketed_host) (net := N)
             example_client (Delete_build (PInt 1) (PInt 7)) []
             (mk_request DELETE "http://example.com/api/v1/projects/1/builds/7/"
                ("user", "secret") None [] []) resp); reflexivity.
  - apply (X3_outcome_of_accepted_response (ip := no_bracketed_host) (net := N)
             example_client (Finish_build (PInt 1) (PInt 7)) []
             (mk_request POST "http://example.com/api/v1/projects/1/builds/7/finish"
                ("user", "secret") None [] []) resp); reflexivity.
Defined.

(* ------------------------------------------------------------------ *)
(** ** Beyond the claims: the build helper *)
(* ------------------------------------------------------------------ *)

Section HelperCalls.
Context {ip : Ipaddress} {net : Network}.

Lemma helper_finishes_sent o w r sent' : sent (snd (helper_finishes o w r sent')) = sent'.
Proof.
  unfold helper_finishes. destruct r as [v|e]; [|reflexivity].
  destruct o; try reflexivity. destruct (getitem v "id"); reflexivity.
Qed.

(** What a helper operation does once its guard has passed and its call
    is prepared. *)
Lemma helper_run_prepared o w req :
  guard_passes o (self w) = true ->
  prepared_request (client (self w)) (helper_client_call o (self w)) = Return req ->
  helper_run o w
  = helper_finishes o w
      (outcome_of (helper_client_call o (self w)) (server (sent w) req))
      (sent w ++ [req])%list.
Proof.
  intros Hg Hreq. now rewrite helper_run_spec, Hg, client_run_spec, Hreq.
Qed.

(** The call a helper operation has recorded: its guard passed, and the
    call is the one prepared for the client operation it forwards to. *)
Lemma helper_recorded_call o w req :
  sent (snd (helper_run o w)) = (sent w ++ [req])%list ->
  guard_passes o (self w) = true
  /\ prepared_request (client (self w)) (helper_client_call o (self w)) = Return req.
Proof.
  rewrite helper_run_spec.
  destruct (guard_passes o (self w)); cbn [snd].
  - rewrite client_run_spec.
    destruct (prepared_request _ _) as [req'|e]; rewrite helper_finishes_sent.
    + intros H. now apply app_one_inv in H as ->.
    + intros H. now apply app_one_neq in H.
  - intros H. now apply app_one_neq in H.
Qed.

(** Every helper operation leaves all attributes but [build_id] as they
    were, and records at most one call. *)
Lemma helper_run_frame o w :
  self (snd (helper_run o w))
  = with_build_id (self w) (build_id (self (snd (helper_run o w))))
  /\ (sent (snd (helper_run o w)) = sent w
      \/ exists req, sent (snd (helper_run o w)) = (sent w ++ [req])%list).
Proof.
  assert (Hself : forall h : t, h = with_build_id h (build_id h)) by now intros [].
  rewrite helper_run_spec.
  destruct (guard_passes o (self w)); cbn [snd]; [|split; [apply Hself | now left]].
  rewrite client_run_spec.
  destruct (prepared_request _ _) as [req|e].
  - split; [|right; exists req; apply helper_finishes_sent].
    unfold helper_finishes. destruct (outcome_of _ _) as [v|e]; [|apply Hself].
    destruct o; cbn [snd self]; try reflexivity; try apply Hself.
    destruct (getitem v "id"); cbn [snd self]; [reflexivity | apply Hself].
  - split; [apply Hself | now left].
Qed.

Lemma dict_get_missing (d : list (string * pyval)) (key : string) :
  (forall x, ~ In (key, x) d) -> dict_get d key = Raise (KeyError key).
Proof.
  induction d as [|[k v] d IH]; intros Hd; [reflexivity|].
  cbn [dict_get]. destruct (String.eqb_spec k key) as [->|Hk].
  - exfalso. apply (Hd v). now left.
  - apply IH. intros x Hx. apply (Hd x). now right.
Qed.

End HelperCalls.

(** X4: when a helper operation has made its call and the response has
    a status outside 400..599 and a body that is not JSON, [delete_build]
    returns and resets [build_id] to [None], while [create_build],
    [finish_build], [fail_build] and [upload_screenshot] raise
    [JSONDecodeError] and leave the helper as it was: after such a
    [finish_build] the helper still holds its build. *)
Theorem X4_helper_undecodable_body {ip : Ipaddress} {net : Network}
        (o : helper_call) (w : world) (req : request) (resp : response) :
  sent (snd (helper_run o w)) = (sent w ++ [req])%list ->
  server (sent w) req = Some resp ->
  error_status resp = false ->
  json_body resp = None ->
  helper_run o w
  = match o with
    | Helper_delete_build =>
        (Return PNone, mk_world (with_build_id (self w) PNone) (sent w ++ [req])%list)
    | _ => (Raise JSONDecodeError, mk_world (self w) (sent w ++ [req])%list)
    end.
Proof.
  intros [Hg Hreq]%helper_recorded_call Hresp Hstatus Hbody.
  rewrite (helper_run_prepared _ _ _ Hg Hreq). unfold outcome_of.
  rewrite Hresp, Hstatus. destruct o; cbn [helper_client_call decodes_body];
    rewrite ?Hbody; reflexivity.
Qed.

Lemma X4_helper_undecodable_body_witness :
  let resp := mk_response 204 "" None in
  let N := always resp in
  let w := mk_world (example_helper "http://example.com/" (Some (PInt 7))) [] in
  let req := mk_request POST "http://example.com/api/v1/projects/1/builds/7/finish"
               ("user", "secret") None [] [] in
  helper_run (ip := no_bracketed_host) (net := N) Helper_finish_build w
  = (Raise JSONDecodeError, mk_world (self w) [req]).
Proof.
  intros resp N w req.
  apply (X4_helper_undecodable_body (ip := no_bracketed_host) (net := N)
           Helper_finish_build w req resp); reflexivity.
Defined.

(** X5: when [create_build] or [upload_screenshot] has made its call and
    the response has a status outside 400..599 and a JSON body without an
    ["id"], the operation raises [KeyError] for a JSON object that lacks
    the key and [TypeError] for a JSON value that is not an object; the
    call stays recorded and the helper is left as it was, so a
    [create_build] that fails this way has stored no build. *)
Theorem X5_helper_missing_id {ip : Ipaddress} {net : Network}
        (o : helper_call) (w : world) (req : request) (resp : response) (v : pyval) :
  terminal o = false ->
  sent (snd (helper_run o w)) = (sent w ++ [req])%list ->
  server (sent w) req = Some resp ->
  error_status resp = false ->
  json_body resp = Some v ->
  (forall d, v = PDict d -> (forall x, ~ In ("id", x) d) ->
     helper_run o w = (Raise (KeyError "id"), mk_world (self w) (sent w ++ [req])%list))
  /\ ((forall d, v <> PDict d) ->
      helper_run o w = (Raise TypeError, mk_world (self w) (sent w ++ [req])%list)).
Proof.
  intros Ho [Hg Hreq]%helper_recorded_call Hresp Hstatus Hbody.
  rewrite (helper_run_prepared _ _ _ Hg Hreq). unfold outcome_of.
  rewrite Hresp, Hstatus.
  assert (Hkind : o = Helper_create_build
                  \/ exists n i m, o = Helper_upload_screenshot n i m).
  { destruct o; try discriminate Ho; eauto. }
  assert (Hdec : decodes_body (helper_client_call o (self w)) = true)
    by (destruct Hkind as [->|(n & i & m & ->)]; reflexivity).
  rewrite Hdec, Hbody. unfold helper_finishes. split.
  - intros d -> Hd. cbn [getitem]. rewrite (dict_get_missing _ _ Hd).
    destruct Hkind as [->|(n & i & m & ->)]; reflexivity.
  - intros Hv.
    assert (Hget : getitem v "id" = Raise TypeError).
    { destruct v; try reflexivity. now destruct (Hv d). }
    rewrite Hget. destruct Hkind as [->|(n & i & m & ->)]; reflexivity.
Qed.

Lemma X5_helper_missing_id_witness :
  let N := always (json_response 201 (PDict [("name", PStr "b")])) in
  let w := mk_world (example_helper "http://example.com/" None) [] in
  let req :=
    mk_request POST "http://example.com/api/v1/projects/1/builds/" ("user", "secret")
      (Some (PDict [("commit_hash", PStr "c0ffee"); ("branch_name", PNone);
                    ("original_build_number", PNone); ("original_build_url", PNone);
                    ("pull_request_id", PNone)]))
      [] [] in
  helper_run (ip := no_bracketed_host) (net := N) Helper_create_build w
  = (Raise (KeyError "id"), mk_world (self w) [req]).
Proof.
  intros N w req.
  destruct (X5_helper_missing_id (ip := no_bracketed_host) (net := N)
              Helper_create_build w req
              (json_response 201 (PDict [("name", PStr "b")]))
              (PDict [("name", PStr "b")]))
    as [Hkey _];
    [reflexivity | reflexivity | reflexivity | reflexivity | reflexivity |].
  apply (Hkey [("name", PStr "b")] eq_refl).
  intros x [H|[]]. discriminate H.
Defined.

Section HelperSequences.
Context {ip : Ipaddress} {net : Network}.

Lemma helper_run_all_cons o os w :
  helper_run_all (o :: os) w
  = (fst (helper_run o w) :: fst (helper_run_all os (snd (helper_run o w))),
     snd (helper_run_all os (snd (helper_run o w)))).
Proof.
  cbn [helper_run_all]. destruct (helper_run o w) as [r w'].
  cbn [fst snd]. now destruct (helper_run_all os w').
Qed.

(** One upload on a helper that holds a build: the call is made, and the
    helper is left as it was whatever the answer. *)
Lemma upload_step (w : world) (url : string) (u : upload) :
  Py.truthy (build_id (self w)) = true ->
  PersephoneClient._get_screenshots_endpoint
    (client (self w)) (project_id (self w)) (build_id (self w)) = Return url ->
  snd (helper_run (upload_call u) w)
  = mk_world (self w)
      (sent w ++ [upload_request url (PersephoneClient._auth (client (self w))) u])%list.
Proof.
  intros Hb Hurl. destruct u as [[n i] m]. cbn [upload_call upload_request].
  rewrite (helper_run_prepared _ _
             (mk_request POST url (PersephoneClient._auth (client (self w))) None
                [("name", n); ("metadata", PStr (Py.json_dumps (default_None m)))]
                [("image", i)])).
  - unfold helper_finishes. now destruct (outcome_of _ _).
  - unfold guard_passes. cbn [build_scoped]. exact Hb.
  - cbn [helper_client_call prepared_request]. now rewrite Hurl.
Qed.

End HelperSequences.

(** X6: on a helper that holds a build and whose screenshots endpoint
    resolves, any number of [upload_screenshot] calls in a row makes one
    POST each, in order and to the same URL, and leaves the helper as it
    was, whatever the service answers: an upload never ends the build,
    and a failed upload does not stop the next one from being sent. *)
Theorem X6_uploads_in_sequence {ip : Ipaddress} {net : Network}
        (w : world) (url : string) (ups : list upload) :
  Py.truthy (build_id (self w)) = true ->
  PersephoneClient._get_screenshots_endpoint
    (client (self w)) (project_id (self w)) (build_id (self w)) = Return url ->
  snd (helper_run_all (List.map upload_call ups) w)
  = mk_world (self w)
      (sent w
       ++ List.map (upload_request url (PersephoneClient._auth (client (self w)))) ups)%list.
Proof.
  revert w. induction ups as [|u ups IH]; intros w Hb Hurl.
  - cbn. rewrite app_nil_r. now destruct w.
  - cbn [List.map]. rewrite helper_run_all_cons. cbn [snd].
    rewrite (upload_step w url u Hb Hurl), IH by assumption.
    cbn [self sent]. now rewrite <- app_assoc.
Qed.

Lemma X6_uploads_in_sequence_witness :
  let N := always (json_response 500 (PDict [])) in
  let w := mk_world (example_helper "http://example.com/" (Some (PInt 7))) [] in
  let url := "http://example.com/api/v1/projects/1/builds/7/screenshots/" in
  snd (helper_run_all (ip := no_bracketed_host) (net := N)
         [Helper_upload_screenshot (PStr "a.png") [] None;
          Helper_upload_screenshot (PStr "b.png") [] (Some (PDict []))] w)
  = mk_world (self w)
      [mk_request POST url ("user", "secret") None
         [("name", PStr "a.png"); ("metadata", PStr "null")] [("image", [])];
       mk_request POST url ("user", "secret") None
         [("name", PStr "b.png"); ("metadata", PStr "{}")] [("image", [])]].
Proof.
  intros N w url.
  apply (X6_uploads_in_sequence (ip := no_bracketed_host) (net := N) w url
           [(PStr "a.png", [], None); (PStr "b.png", [], Some (PDict []))]);
    reflexivity.
Defined.

(** X7: whatever operations are called on a helper, in whatever order
    and with whatever answers, its client, project and build fields other
    than [build_id] never change, the calls recorded before stay in
    place, and at most one call is added per operation. *)
Theorem X7_helper_frame {ip : Ipaddress} {net : Network}
        (os : list helper_call) (w : world) :
  let w' := snd (helper_run_all os w) in
  self w' = with_build_id (self w) (build_id (self w'))
  /\ exists added : list request,
       sent w' = (sent w ++ added)%list /\ List.length added <= List.length os.
Proof.
  revert w. induction os as [|o os IH]; intros w; cbv zeta.
  - cbn. split; [now destruct (self w)|]. exists []. now rewrite app_nil_r.
  - rewrite helper_run_all_cons. cbn [snd].
    destruct (IH (snd (helper_run o w))) as (Hself & added & Hsent & Hlen).
    destruct (helper_run_frame o w) as (Hself1 & Hsent1).
    split.
    + rewrite Hself, Hself1 at 1. reflexivity.
    + destruct Hsent1 as [Hsame|[req Hone]].
      * exists added. rewrite Hsent, Hsame. cbn [List.length]. split; [reflexivity | lia].
      * exists (req :: added). rewrite Hsent, Hone, <- app_assoc.
        cbn [List.length]. split; [reflexivity | lia].
Qed.

Section UnresolvableRoot.
Context {ip : Ipaddress}.

(** When the API endpoint cannot be resolved, no call can be prepared. *)
Lemma prepared_request_needs_api (c : PersephoneClient.t) (call : client_call) (e : exn) :
  PersephoneClient._get_api_endpoint c = Raise e ->
  prepared_request c call = Raise ValueError.
Proof.
  intros Hapi.
  assert (He : e = ValueError) by (eapply urljoin_raises; exact Hapi).
  subst e.
  destruct call; cbn [prepared_request];
    unfold PersephoneClient._get_screenshots_endpoint,
      PersephoneClient._get_build_endpoint, PersephoneClient._get_builds_endpoint,
      PersephoneClient._get_project_endpoint, PersephoneClient._get_projects_endpoint;
    rewrite Hapi; reflexivity.
Qed.

End UnresolvableRoot.

(** X15: when [urljoin] rejects the root endpoint (the API endpoint
    raises, as for an unbalanced square bracket in the authority), every
    client operation raises [ValueError] without making a call, and every
    helper operation whose guard passes raises [ValueError] and leaves the
    helper and the record of calls as they were. *)
Theorem X15_unresolvable_root {ip : Ipaddress} {net : Network}
        (c : PersephoneClient.t) (e : exn) :
  PersephoneClient._get_api_endpoint c = Raise e ->
  (forall (call : client_call) (sent : list request),
      client_run c call sent = (Raise ValueError, sent))
  /\ (forall (o : helper_call) (w : world),
         client (self w) = c ->
         guard_passes o (self w) = true ->
         helper_run o w = (Raise ValueError, w)).
Proof.
  intros Hapi.
  assert (Hclient : forall call sent, client_run c call sent = (Raise ValueError, sent)).
  { intros call sent.
    now rewrite client_run_spec, (prepared_request_needs_api c call e Hapi). }
  split; [exact Hclient|].
  intros o w <- Hg. rewrite helper_run_spec, Hg, Hclient.
  unfold helper_finishes. now destruct w.
Qed.

Lemma X15_unresolvable_root_witness :
  let N := always (json_response 200 (PDict [])) in
  let w := mk_world (example_helper "http://[/" (Some (PInt 7))) [] in
  helper_run (ip := no_bracketed_host) (net := N) Helper_finish_build w
  = (Raise ValueError, w).
Proof.
  intros N w.
  destruct (X15_unresolvable_root (ip := no_bracketed_host) (net := N)
              (client (self w)) ValueError eq_refl) as [_ Hhelper].
  apply Hhelper; reflexivity.
Defined.

(* ------------------------------------------------------------------ *)
(** ** Beyond the claims: the endpoint resolver *)
(* ------------------------------------------------------------------ *)

Section MoreEndpoints.
Context {ip : Ipaddress}.
Variables (c : PersephoneClient.t) (sch host : string) (segs : list string).
Hypothesis Hapi : PersephoneClient._get_api_endpoint c = Return (abs_url sch host segs).
Hypothesis Hreg : regular_base sch host segs = true.

Lemma screenshots_endpoint_regular p b :
  url_safe_id p = true -> url_safe_id b = true ->
  PersephoneClient._get_screenshots_endpoint c p b
  = Return (abs_url sch host
              (segs ++ ["projects"; Py.str p; "builds"; Py.str b; "screenshots"])).
Proof.
  intros Hp Hb. unfold PersephoneClient._get_screenshots_endpoint.
  rewrite (build_endpoint_regular c sch host segs Hapi Hreg p b Hp Hb). cbn [rbind].
  rewrite (urljoin_dirs _ _ _ ["screenshots"]);
    [ now rewrite <- app_assoc
    | now apply build_segs_regular
    | reflexivity | discriminate ].
Qed.


End MoreEndpoints.

(** X8: for a root endpoint that is an absolute URL and URL-safe
    identifiers, the projects, project, builds and screenshots endpoints
    are the API endpoint followed by [projects/], [projects/{p}/],
    [projects/{p}/builds/] and [projects/{p}/builds/{b}/screenshots/]. *)
Theorem X8_endpoint_table {ip : Ipaddress} (c : PersephoneClient.t) (p b : pyval) :
  absolute_root (PersephoneClient.root_endpoint c) = true ->
  url_safe_id p = true -> url_safe_id b = true ->
  exists api : string,
    PersephoneClient._get_api_endpoint c = Return api
    /\ PersephoneClient._get_projects_endpoint c = Return (api ++ "projects/")
    /\ PersephoneClient._get_project_endpoint c p
       = Return (api ++ "projects/" ++ Py.str p ++ "/")
    /\ PersephoneClient._get_builds_endpoint c p
       = Return (api ++ "projects/" ++ Py.str p ++ "/builds/")
    /\ PersephoneClient._get_screenshots_endpoint c p b
       = Return (api ++ "projects/" ++ Py.str p ++ "/builds/" ++ Py.str b
                 ++ "/screenshots/").
Proof.
  intros Hroot Hp Hb.
  destruct (endpoints_of_absolute_root c Hroot) as (sch & host & segs & Hreg & Hapi).
  exists (abs_url sch host segs). split; [exact Hapi|].
  rewrite (projects_endpoint_regular c sch host segs Hapi Hreg),
    (project_endpoint_regular c sch host segs Hapi Hreg p Hp),
    (builds_endpoint_regular c sch host segs Hapi Hreg p Hp),
    (screenshots_endpoint_regular c sch host segs Hapi Hreg p b Hp Hb).
  rewrite !abs_url_app. repeat split; reflexivity.
Qed.

Lemma X8_endpoint_table_witness :
  PersephoneClient._get_screenshots_endpoint (ip := no_bracketed_host)
    example_client (PInt 1) (PInt 7)
  = Return "http://example.com/api/v1/projects/1/builds/7/screenshots/".
Proof.
  destruct (X8_endpoint_table (ip := no_bracketed_host) example_client
              (PInt 1) (PInt 7) eq_refl eq_refl eq_refl)
    as (api & Hapi & _ & _ & _ & Hshots).
  change (Return "http://example.com/api/v1/" = Return api) in Hapi.
  injection Hapi as <-. exact Hshots.
Defined.



(** *** Joining against any base whose segments are known *)

Lemma rpartition_absent (c : ascii) (s : string) :
  PyStr.contains c s = false -> PyStr.rpartition c s = None.
Proof.
  induction s as [|x s IH]; simpl; [reflexivity|].
  intros Hs. apply orb_false_elim in Hs as [Hx Hr].
  now rewrite (IH Hr), Hx.
Qed.

Lemma rpartition_last (s leaf : string) :
  PyStr.contains "/" leaf = false ->
  PyStr.rpartition "/" (s ++ "/" ++ leaf) = Some (s, leaf).
Proof.
  intros Hleaf. induction s as [|x s IH].
  - cbn [append PyStr.rpartition]. now rewrite (rpartition_absent _ _ Hleaf).
  - cbn [append PyStr.rpartition] in *. now rewrite IH.
Qed.

(** A path whose last segment holds no [;] carries no parameters. *)
Lemma splitparams_leaf (s leaf : string) :
  PyStr.contains "/" leaf = false -> PyStr.contains ";" leaf = false ->
  Urllib._splitparams (s ++ "/" ++ leaf) = (s ++ "/" ++ leaf, "").
Proof.
  intros Hslash Hsemi. unfold Urllib._splitparams.
  now rewrite (rpartition_last _ _ Hslash), (partition_absent _ _ Hsemi).
Qed.

Lemma span_all (p : ascii -> bool) (s : string) :
  PyStr.forallb p s = true -> PyStr.span p s = (s, "").
Proof.
  induction s as [|x s IH]; simpl; [reflexivity|].
  intros Hs. apply andb_prop in Hs as [Hx Hr]. now rewrite Hx, (IH Hr).
Qed.

Lemma plain_segment_absent (leaf : string) (x : ascii) :
  plain_segment leaf = true -> plain_char x = false -> PyStr.contains x leaf = false.
Proof.
  intros (_ & Hc & _)%plain_segment_facts Hx.
  induction leaf as [|a leaf IH]; [reflexivity|].
  simpl in Hc. apply andb_prop in Hc as [Ha Hc]. simpl.
  rewrite (IH Hc), orb_false_r.
  destruct (Ascii.eqb_spec a x) as [->|]; [congruence | reflexivity].
Qed.

Section AnyBase.
Context {ip : Ipaddress}.

(** A URL [scheme://authority/seg1/.../segn/last] is read back as it
    was written. *)
Lemma urlparse_with_leaf sch net segs leaf dflt :
  regular_base sch net segs = true -> plain_segment leaf = true ->
  Urllib.urlparse (abs_url sch net segs ++ leaf) dflt
  = Return (mk_parse sch net ("/" ++ dirs segs ++ leaf) "" "" "").
Proof.
  intros (Hs & _ & Hn & Ha & Hsegs)%regular_base_facts Hleaf.
  destruct (plain_segment_facts _ Hleaf) as (_ & Hchars & _).
  unfold Urllib.urlparse, abs_url. rewrite !append_assoc.
  rewrite urlsplit_regular; try assumption.
  2:{ apply dirs_kept_chars; [assumption | now apply plain_chars_segment]. }
  cbn [rbind s_scheme s_netloc s_path s_query s_fragment].
  destruct (dirs_ends_slash segs) as [s Hs'].
  assert (Hpath : "/" ++ dirs segs ++ leaf = s ++ "/" ++ leaf)
    by now rewrite <- !append_assoc, Hs'.
  rewrite Hpath, splitparams_leaf by (now apply plain_segment_absent).
  now destruct (_ && _).
Qed.

(** A URL [scheme://authority], without a path. *)
Lemma urlsplit_authority sch net dflt :
  regular_base sch net [] = true ->
  Urllib.urlsplit (sch ++ "://" ++ net) dflt = Return (mk_split sch net "" "" "").
Proof.
  intros (Hs & _ & Hn & Hacc & _)%regular_base_facts.
  destruct (scheme_ok_facts _ Hs) as (Hne & Hsc & Hlow & _ & _).
  assert (Hsafe : PyStr.forallb safe_char (sch ++ "://" ++ net) = true).
  { rewrite !str_forallb_app.
    rewrite (str_forallb_impl Urllib.scheme_char safe_char sch),
      (str_forallb_impl netloc_char safe_char net);
      try assumption; try reflexivity; intros c Hc.
    - now apply netloc_char_facts.
    - now apply scheme_char_facts. }
  unfold Urllib.urlsplit.
  destruct sch as [|a pre]; [discriminate|].
  assert (Ha : Urllib.scheme_char a = true).
  { simpl in Hsc. now apply andb_prop in Hsc as [-> _]. }
  assert (Halpha : PyStr.is_ascii_alpha a = true).
  { unfold scheme_ok in Hs. apply andb_prop in Hs as [Hs _].
    now apply andb_prop in Hs as [-> _]. }
  change (String a pre ++ "://" ++ net) with (String a (pre ++ "://" ++ net)) at 1.
  rewrite lstrip_first by now apply scheme_char_facts.
  change (String a (pre ++ "://" ++ net)) with (String a pre ++ String ":" ("//" ++ net)).
  rewrite (remove_absent safe_char) by (exact Hsafe || apply safe_char_facts).
  rewrite (partition_stop Urllib.scheme_char);
    [ | intros x Hx; now apply scheme_char_facts | assumption ].
  cbv beta iota.
  rewrite Halpha, Hsc, Hlow. cbn [andb]. cbv beta iota zeta.
  cbn [append PyStr.startswith]. rewrite !Ascii.eqb_refl. cbn [andb PyStr.drop].
  unfold Urllib._splitnetloc.
  rewrite span_all.
  2:{ apply (str_forallb_impl netloc_char); [|assumption].
      intros c Hc. now apply netloc_char_facts in Hc as [_ ->]. }
  unfold netloc_accepted in Hacc. cbv zeta in Hacc |- *.
  assert (Hbr : (if PyStr.contains "[" net && negb (PyStr.contains "]" net)
                    || PyStr.contains "]" net && negb (PyStr.contains "[" net)
                 then Raise ValueError
                 else if PyStr.contains "[" net && PyStr.contains "]" net
                      then if Urllib._check_bracketed_netloc net
                           then Return (net, "")
                           else Raise ValueError
                      else Return (net, ""))
                = Return (net, "")).
  { destruct (_ || _); [discriminate|].
    destruct (_ && _); [now rewrite Hacc | reflexivity]. }
  rewrite Hbr. reflexivity.
Qed.

Lemma urlparse_authority sch net dflt :
  regular_base sch net [] = true ->
  Urllib.urlparse (sch ++ "://" ++ net) dflt = Return (mk_parse sch net "" "" "" "").
Proof.
  intros Hreg. unfold Urllib.urlparse. rewrite urlsplit_authority by assumption.
  cbn [rbind s_scheme s_netloc s_path s_query s_fragment PyStr.contains].
  now rewrite andb_false_r.
Qed.

(** [urljoin] of a base whose parts are known and a relative reference
    that starts with a plain character, once the segments it resolves
    are known. *)
Lemma urljoin_resolved sch net base bpath c r out leaf :
  scheme_ok sch = true -> PyStr.mem sch Urllib.uses_relative = true ->
  PyStr.nonempty base = true ->
  Urllib.urlparse base "" = Return (mk_parse sch net bpath "" "" "") ->
  plain_char c = true -> PyStr.forallb ref_char r = true ->
  Urllib.resolve
    (Urllib.filter_middle
       ((if PyStr.nonempty (last (PyStr.split "/" bpath) "")
         then removelast (PyStr.split "/" bpath)
         else PyStr.split "/" bpath) ++ PyStr.split "/" (String c r))%list)
  = ("" :: out ++ [leaf])%list ->
  List.forallb raw_segment out = true -> PyStr.forallb segment_char leaf = true ->
  Urllib.urljoin base (String c r) = Return (abs_url sch net out ++ leaf).
Proof.
  intros Hok Hrel Hbne Hparse Hc Hr Hres Hout Hleaf.
  destruct (scheme_ok_facts _ Hok) as (Hsne & _).
  pose proof (relative_uses_netloc _ Hrel) as Huses.
  unfold Urllib.urljoin.
  rewrite Hbne. cbn [negb PyStr.nonempty].
  rewrite Hparse. cbn [rbind scheme].
  rewrite urlparse_rel by assumption.
  cbn [rbind scheme netloc path params query fragment].
  rewrite String.eqb_refl, Hrel, Huses. cbn [negb orb andb PyStr.nonempty].
  cbn [PyStr.startswith]. rewrite (Ascii.eqb_sym "/" c).
  destruct (plain_char_facts _ Hc) as (_ & _ & _ & ->). cbn [andb].
  cbv zeta. rewrite Hres, join_root.
  pose proof (single_leading_slash _ _ Hout Hleaf) as Hslash.
  unfold Urllib.urlunparse, Urllib.urlunsplit.
  cbn [scheme netloc path params query fragment s_scheme s_netloc s_path s_query
       s_fragment PyStr.nonempty].
  change (PyStr.nonempty ("/" ++ dirs out ++ leaf)) with true.
  cbv beta iota.
  rewrite Hslash, Hsne, Huses.
  cbn [append PyStr.nonempty PyStr.startswith]. rewrite Ascii.eqb_refl.
  rewrite orb_true_r. cbn [orb andb negb].
  unfold abs_url. rewrite !append_assoc. reflexivity.
Qed.

End AnyBase.

(** *** The segments of some joins *)

Lemma raw_segments_nonempty (l : list string) :
  List.forallb raw_segment l = true -> List.forallb PyStr.nonempty l = true.
Proof. apply forallb_impl. intros s Hr. now apply raw_segment_facts in Hr. Qed.

Lemma raw_segments_not_dot (l : list string) :
  List.forallb raw_segment l = true -> List.forallb not_dot l = true.
Proof. apply forallb_impl. intros s Hr. now apply raw_segment_facts in Hr. Qed.

(** A base path without its last segment, followed by a reference of
    raw segments. *)
Lemma resolve_trimmed (segs new : list string) (leaf : string) :
  List.forallb raw_segment segs = true ->
  List.forallb raw_segment new = true ->
  leaf_ok leaf = true ->
  Urllib.resolve (Urllib.filter_middle (("" :: segs) ++ (new ++ [leaf]))%list)
  = ("" :: (segs ++ new) ++ [leaf])%list.
Proof.
  intros Hs Hn Hl.
  assert (E : (("" :: segs) ++ (new ++ [leaf]) = "" :: ((segs ++ new) ++ [leaf]))%list).
  { simpl. f_equal. now rewrite <- !app_assoc. }
  rewrite E, filter_middle_cons by (now destruct (segs ++ new)%list).
  rewrite removelast_last, last_last.
  rewrite filter_all
    by (rewrite forallb_app; now rewrite !raw_segments_nonempty).
  unfold Urllib.resolve.
  assert (Hall : List.forallb not_dot ("" :: (segs ++ new) ++ [leaf])%list = true).
  { simpl. rewrite !forallb_app. simpl.
    now rewrite !raw_segments_not_dot, (leaf_ok_not_dot _ Hl). }
  rewrite resolve_plain by assumption.
  rewrite app_comm_cons, last_last.
  apply leaf_ok_not_dot in Hl. unfold not_dot in Hl.
  apply andb_prop in Hl as [H1 H2]. apply negb_true_iff in H1, H2.
  rewrite H1, H2. reflexivity.
Qed.

(** The reference [../] against a directory: its last segment goes. *)
Lemma resolve_parent (segs : list string) (x : string) :
  List.forallb raw_segment segs = true -> raw_segment x = true ->
  Urllib.resolve
    (Urllib.filter_middle (("" :: (segs ++ [x]) ++ [""]) ++ [".."; ""])%list)
  = ("" :: segs ++ [""])%list.
Proof.
  intros Hs Hx.
  assert (Hsx : List.forallb raw_segment (segs ++ [x])%list = true)
    by (rewrite forallb_app; simpl; now rewrite Hs, Hx).
  assert (E : (("" :: (segs ++ [x]) ++ [""]) ++ [".."; ""]
               = "" :: (((segs ++ [x]) ++ [""; ".."]) ++ [""]))%list).
  { simpl. f_equal. now rewrite <- !app_assoc. }
  rewrite E, filter_middle_cons by (now destruct ((segs ++ [x]) ++ [""; ".."])%list).
  rewrite removelast_last, last_last, filter_app.
  rewrite filter_all by now apply raw_segments_nonempty.
  cbn [List.filter PyStr.nonempty].
  unfold Urllib.resolve.
  rewrite app_comm_cons, last_last. cbn [String.eqb orb].
  assert (E' : ("" :: ((segs ++ [x]) ++ [".."]) ++ [""]
                = ("" :: segs ++ [x]) ++ [".."; ""])%list).
  { simpl. f_equal. now rewrite <- !app_assoc. }
  rewrite <- app_comm_cons, E', fold_left_app.
  rewrite (resolve_plain ("" :: segs ++ [x])%list [])
    by (simpl; now apply raw_segments_not_dot).
  cbn [fold_left app]. unfold Urllib.resolve_step.
  cbn [String.eqb Ascii.eqb Bool.eqb].
  now rewrite app_comm_cons, removelast_last.
Qed.

(** The reference [./] against a directory: the directory itself. *)
Lemma resolve_self (segs : list string) :
  List.forallb raw_segment segs = true ->
  Urllib.resolve (Urllib.filter_middle (("" :: segs ++ [""]) ++ ["."; ""])%list)
  = ("" :: segs ++ [""])%list.
Proof.
  intros Hs.
  assert (E : (("" :: segs ++ [""]) ++ ["."; ""]
               = "" :: ((segs ++ [""; "."]) ++ [""]))%list).
  { simpl. f_equal. now rewrite <- !app_assoc. }
  rewrite E, filter_middle_cons by (now destruct (segs ++ [""; "."])%list).
  rewrite removelast_last, last_last, filter_app.
  rewrite filter_all by now apply raw_segments_nonempty.
  cbn [List.filter PyStr.nonempty].
  unfold Urllib.resolve.
  rewrite app_comm_cons, last_last. cbn [String.eqb orb].
  assert (E' : ("" :: (segs ++ ["."]) ++ [""] = ("" :: segs) ++ ["."; ""])%list).
  { simpl. f_equal. now rewrite <- !app_assoc. }
  rewrite <- app_comm_cons, E', fold_left_app.
  rewrite (resolve_plain ("" :: segs)%list [])
    by (simpl; now apply raw_segments_not_dot).
  reflexivity.
Qed.

Lemma split_root_leaf (segs : list string) (leaf : string) :
  List.forallb raw_segment segs = true -> PyStr.forallb segment_char leaf = true ->
  PyStr.split "/" ("/" ++ dirs segs ++ leaf) = ("" :: segs ++ [leaf])%list.
Proof.
  intros Hs Hl. cbn [append PyStr.split]. rewrite Ascii.eqb_refl.
  now rewrite split_dirs.
Qed.

Section RootShapes.
Context {ip : Ipaddress}.

(** [api/v1/] joined to a URL whose path does not end with a slash: the
    last segment of the path is replaced. *)
Lemma api_beside_last_segment sch host segs last :
  regular_base sch host segs = true -> plain_segment last = true ->
  Urllib.urljoin (abs_url sch host segs ++ last) "api/v1/"
  = Return (abs_url sch host segs ++ "api/v1/").
Proof.
  intros Hreg Hlast.
  destruct (regular_base_facts _ _ _ Hreg) as (Hok & Hrel & _ & _ & Hsegs).
  destruct (plain_segment_facts _ Hlast) as (Hne & Hchars & _).
  rewrite (urljoin_resolved sch host _ ("/" ++ dirs segs ++ last) "a" "pi/v1/"
             (segs ++ ["api"; "v1"])%list "");
    try assumption; try reflexivity.
  - now rewrite append_nil_r, abs_url_app.
  - unfold abs_url. now destruct sch.
  - now apply urlparse_with_leaf.
  - rewrite split_root_leaf by (assumption || now apply plain_chars_segment).
    rewrite app_comm_cons, last_last, Hne, removelast_last.
    change (PyStr.split "/" "api/v1/") with (["api"; "v1"] ++ [""])%list.
    now apply resolve_trimmed.
  - now rewrite forallb_app, Hsegs.
Qed.

(** [api/v1/] joined to a URL without a path. *)
Lemma api_under_authority sch host :
  regular_base sch host [] = true ->
  Urllib.urljoin (sch ++ "://" ++ host) "api/v1/"
  = Return (abs_url sch host [] ++ "api/v1/").
Proof.
  intros Hreg.
  destruct (regular_base_facts _ _ _ Hreg) as (Hok & Hrel & _ & _ & _).
  rewrite (urljoin_resolved sch host _ "" "a" "pi/v1/" ["api"; "v1"] "");
    try assumption; try reflexivity.
  - rewrite append_nil_r. apply f_equal, (abs_url_app sch host [] ["api"; "v1"]).
  - now destruct sch.
  - now apply urlparse_authority.
Qed.

(** A reference that is itself an absolute URL with an authority
    replaces the base. *)
Lemma urljoin_absolute_reference base b sch host segs :
  Urllib.urlparse base "" = Return b ->
  regular_base sch host segs = true -> PyStr.nonempty host = true ->
  Urllib.urljoin base (abs_url sch host segs) = Return (abs_url sch host segs).
Proof.
  intros Hparse Hreg Hhost.
  destruct (regular_base_facts _ _ _ Hreg) as (Hok & Hrel & _ & _ & _).
  destruct (scheme_ok_facts _ Hok) as (Hsne & _).
  pose proof (relative_uses_netloc _ Hrel) as Huses.
  unfold Urllib.urljoin.
  destruct (PyStr.nonempty base); cbn [negb]; [|reflexivity].
  assert (Hune : PyStr.nonempty (abs_url sch host segs) = true).
  { unfold abs_url. now destruct sch. }
  rewrite Hune. cbn [negb].
  rewrite Hparse. cbn [rbind].
  rewrite urlparse_regular by assumption.
  cbn [rbind scheme netloc path params query fragment].
  rewrite Hrel, Huses, Hhost. cbn [negb andb].
  destruct (String.eqb sch (scheme b)); cbn [negb orb]; [|reflexivity].
  unfold Urllib.urlunparse, Urllib.urlunsplit.
  cbn [scheme netloc path params query fragment s_scheme s_netloc s_path s_query
       s_fragment PyStr.nonempty].
  rewrite Hhost, Hsne.
  cbn [orb append PyStr.nonempty PyStr.startswith]. rewrite Ascii.eqb_refl.
  cbn [andb negb]. reflexivity.
Qed.

(** The references [../] and [./] against a regular URL. *)
Lemma urljoin_parent sch host segs x :
  regular_base sch host segs = true -> raw_segment x = true ->
  Urllib.urljoin (abs_url sch host (segs ++ [x])) "../" = Return (abs_url sch host segs).
Proof.
  intros Hreg Hx.
  destruct (regular_base_facts _ _ _ Hreg) as (Hok & Hrel & Hn & Ha & Hsegs).
  assert (Hsx : List.forallb raw_segment (segs ++ [x])%list = true)
    by (rewrite forallb_app; simpl; now rewrite Hsegs, Hx).
  assert (Hreg' : regular_base sch host (segs ++ [x]) = true)
    by (unfold regular_base; now rewrite Hok, Hrel, Hn, Ha, Hsx).
  rewrite (urljoin_resolved sch host _ ("/" ++ dirs (segs ++ [x])) "." "./" segs "");
    try assumption; try reflexivity.
  - now rewrite append_nil_r.
  - unfold abs_url. now destruct sch.
  - now apply urlparse_regular.
  - rewrite split_root by assumption.
    rewrite (app_comm_cons (segs ++ [x]) [""] ""), last_last. cbn [PyStr.nonempty].
    change (PyStr.split "/" "../") with [".."; ""].
    now apply resolve_parent.
Qed.

Lemma urljoin_self sch host segs :
  regular_base sch host segs = true ->
  Urllib.urljoin (abs_url sch host segs) "./" = Return (abs_url sch host segs).
Proof.
  intros Hreg.
  destruct (regular_base_facts _ _ _ Hreg) as (Hok & Hrel & Hn & Ha & Hsegs).
  rewrite (urljoin_resolved sch host _ ("/" ++ dirs segs) "." "/" segs "");
    try assumption; try reflexivity.
  - now rewrite append_nil_r.
  - unfold abs_url. now destruct sch.
  - now apply urlparse_regular.
  - rewrite split_root by assumption.
    rewrite (app_comm_cons segs [""] ""), last_last. cbn [PyStr.nonempty].
    change (PyStr.split "/" "./") with ["."; ""].
    now apply resolve_self.
Qed.

End RootShapes.

(** X10: a root endpoint without a trailing slash loses its last path
    segment.  For a root [scheme://authority/seg1/.../segn/last] the API
    endpoint is [scheme://authority/seg1/.../segn/api/v1/], the same as
    for the root without [last]; for a root [scheme://authority] it is
    [scheme://authority/api/v1/]. *)
Theorem X10_root_without_trailing_slash {ip : Ipaddress} (c : PersephoneClient.t)
        (sch host : string) (segs : list string) :
  regular_base sch host segs = true ->
  (exists last : string,
      plain_segment last = true
      /\ PersephoneClient.root_endpoint c = abs_url sch host segs ++ last)
  \/ (segs = [] /\ PersephoneClient.root_endpoint c = sch ++ "://" ++ host) ->
  PersephoneClient._get_api_endpoint c = Return (abs_url sch host segs ++ "api/v1/").
Proof.
  intros Hreg [(last & Hlast & Hroot) | [-> Hroot]];
    unfold PersephoneClient._get_api_endpoint; rewrite Hroot.
  - now apply api_beside_last_segment.
  - now apply api_under_authority.
Qed.

Lemma X10_root_without_trailing_slash_witness :
  PersephoneClient._get_api_endpoint (ip := no_bracketed_host)
    (PersephoneClient.__init__ "http://example.com/persephone" "user" "secret")
  = Return "http://example.com/api/v1/".
Proof.
  apply (X10_root_without_trailing_slash (ip := no_bracketed_host)
           (PersephoneClient.__init__ "http://example.com/persephone" "user" "secret")
           "http" "example.com" []).
  - reflexivity.
  - left. exists "persephone". split; reflexivity.
Defined.

Lemma kept_char_no_query c :
  kept_char c = true ->
  negb (Ascii.eqb c "?"%char) && negb (Ascii.eqb c "#"%char) = true.
Proof. by_ascii_cases c. Qed.

Lemma netloc_char_no_query c :
  netloc_char c = true ->
  negb (Ascii.eqb c "?"%char) && negb (Ascii.eqb c "#"%char) = true.
Proof. by_ascii_cases c. Qed.

Lemma scheme_char_no_query c :
  Urllib.scheme_char c = true ->
  negb (Ascii.eqb c "?"%char) && negb (Ascii.eqb c "#"%char) = true.
Proof. by_ascii_cases c. Qed.

Lemma no_query_absent (s : string) :
  PyStr.forallb (fun c => negb (Ascii.eqb c "?"%char) && negb (Ascii.eqb c "#"%char)) s
  = true ->
  PyStr.contains "?" s = false /\ PyStr.contains "#" s = false.
Proof.
  induction s as [|x s IH]; [now split|].
  simpl. intros H. apply andb_prop in H as [Hx Hs]. apply andb_prop in Hx as [H1 H2].
  apply negb_true_iff in H1, H2. destruct (IH Hs) as [-> ->]. now rewrite H1, H2.
Qed.

(** A regular URL holds no query and no fragment. *)
Lemma regular_url_no_query {ip : Ipaddress} sch host segs :
  regular_base sch host segs = true ->
  PyStr.contains "?" (abs_url sch host segs) = false
  /\ PyStr.contains "#" (abs_url sch host segs) = false.
Proof.
  intros (Hok & _ & Hn & _ & Hsegs)%regular_base_facts.
  destruct (scheme_ok_facts _ Hok) as (_ & Hsc & _).
  apply no_query_absent. unfold abs_url. rewrite !str_forallb_app.
  rewrite (str_forallb_impl _ _ sch scheme_char_no_query Hsc),
    (str_forallb_impl _ _ host netloc_char_no_query Hn).
  pose proof (dirs_kept_chars segs "" Hsegs eq_refl) as Hd.
  rewrite append_nil_r in Hd.
  now rewrite (str_forallb_impl _ _ _ kept_char_no_query Hd).
Qed.

Section ApiParts.
Context {ip : Ipaddress}.

(** The API endpoint of an absolute root, part by part. *)
Lemma api_endpoint_parts (root : string) (b : ParseResult) :
  Urllib.urlparse root "" = Return b ->
  absolute_root root = true ->
  exists segs : list string,
    regular_base (scheme b) (netloc b) segs = true
    /\ Urllib.urljoin root "api/v1/"
       = Return (abs_url (scheme b) (netloc b) segs ++ "api/v1/").
Proof.
  intros Hb (b' & Hparse & Hne & Hok & Hrel & Hnet & Hacc & Hpath)%absolute_root_facts.
  rewrite Hb in Hparse. injection Hparse as <-.
  destruct (scheme_ok_facts _ Hok) as (Hsne & _).
  pose proof (relative_uses_netloc _ Hrel) as Huses.
  set (bp := if PyStr.nonempty (last (PyStr.split "/" (path b)) "")
             then removelast (PyStr.split "/" (path b))
             else PyStr.split "/" (path b)).
  assert (Hbp : List.forallb (PyStr.forallb segment_char) bp = true).
  { pose proof (split_segment_chars _ Hpath) as Hs. unfold bp.
    destruct (PyStr.nonempty (last (PyStr.split "/" (path b)) ""));
      [now apply removelast_forallb | exact Hs]. }
  destruct (api_segments bp Hbp) as (P & HP & Hres).
  exists (named_segments P). split.
  - unfold regular_base. rewrite Hok, Hrel, Hnet, Hacc.
    now rewrite (resolved_ok_named _ HP).
  - unfold Urllib.urljoin. rewrite Hne. cbn [negb PyStr.nonempty].
    rewrite Hb. cbn [rbind].
    rewrite (urlparse_rel (scheme b) "a" "pi/v1/") by (assumption || reflexivity).
    cbn [rbind scheme netloc path params query fragment].
    rewrite String.eqb_refl, Hrel, Huses.
    cbn [negb orb andb PyStr.nonempty PyStr.startswith Ascii.eqb Bool.eqb].
    change (PyStr.split "/" "api/v1/") with ["api"; "v1"; ""].
    fold bp. rewrite Hres. cbv zeta.
    now rewrite api_unparse, abs_url_app.
Qed.

End ApiParts.

(** X11: whatever absolute URL the root endpoint is, the API endpoint
    keeps the scheme and the authority that [urlparse] finds in the root,
    ends with [api/v1/], and holds no [?] and no [#]: a query or a
    fragment of the root endpoint is dropped. *)
Theorem X11_api_endpoint_of_absolute_root {ip : Ipaddress} (c : PersephoneClient.t) :
  absolute_root (PersephoneClient.root_endpoint c) = true ->
  exists (b : ParseResult) (rest api : string),
    Urllib.urlparse (PersephoneClient.root_endpoint c) "" = Return b
    /\ PersephoneClient._get_api_endpoint c = Return api
    /\ api = scheme b ++ "://" ++ netloc b ++ "/" ++ rest ++ "api/v1/"
    /\ PyStr.contains "?" api = false
    /\ PyStr.contains "#" api = false.
Proof.
  intros Hroot.
  destruct (absolute_root_facts _ Hroot) as (b & Hparse & _).
  destruct (api_endpoint_parts _ b Hparse Hroot) as (segs & Hreg & Hapi).
  exists b, (dirs segs), (abs_url (scheme b) (netloc b) segs ++ "api/v1/").
  split; [exact Hparse|]. split; [exact Hapi|]. split.
  - unfold abs_url. now rewrite !append_assoc.
  - rewrite <- (abs_url_app _ _ segs ["api"; "v1"]).
    apply regular_url_no_query. now apply regular_base_app.
Qed.

Lemma X11_api_endpoint_of_absolute_root_witness :
  PersephoneClient._get_api_endpoint (ip := no_bracketed_host)
    (PersephoneClient.__init__ "https://example.com/a/?token=1#top" "user" "secret")
  = Return "https://example.com/a/api/v1/".
Proof.
  destruct (X11_api_endpoint_of_absolute_root (ip := no_bracketed_host)
              (PersephoneClient.__init__ "https://example.com/a/?token=1#top"
                 "user" "secret") eq_refl)
    as (b & rest & api & _ & Hapi & _).
  pose proof Hapi as Hsame.
  change (Return "https://example.com/a/api/v1/" = Return api) in Hsame.
  injection Hsame as <-. exact Hapi.
Defined.

(** X12: identifiers are not escaped.  For a root endpoint that is an
    absolute URL and a URL-safe project, a build identifier that is itself
    an absolute URL with an authority replaces the whole build endpoint:
    [build_endpoint(p, b)] is ["{b}/"], and [get_build] sends its GET, with
    the client's credentials, to that URL. *)
Theorem X12_absolute_url_identifier {ip : Ipaddress} {net : Network}
        (c : PersephoneClient.t) (p b : pyval)
        (sch host : string) (segs : list string) :
  absolute_root (PersephoneClient.root_endpoint c) = true ->
  url_safe_id p = true ->
  Py.format_slash b = abs_url sch host segs ->
  regular_base sch host segs = true ->
  PyStr.nonempty host = true ->
  PersephoneClient._get_build_endpoint c p b = Return (Py.format_slash b)
  /\ forall sent : list request,
       snd (PersephoneClient.get_build c p b sent)
       = (sent ++ [mk_request GET (Py.format_slash b)
                     (PersephoneClient.username c, PersephoneClient.password c)
                     None [] []])%list.
Proof.
  intros Hroot Hp Hb Hreg Hhost.
  destruct (endpoints_of_absolute_root c Hroot) as (sch0 & host0 & segs0 & Hreg0 & Hapi).
  assert (Hbuild : PersephoneClient._get_build_endpoint c p b = Return (Py.format_slash b)).
  { unfold PersephoneClient._get_build_endpoint.
    rewrite (builds_endpoint_regular c sch0 host0 segs0 Hapi Hreg0 p Hp). cbn [rbind].
    rewrite Hb.
    eapply urljoin_absolute_reference; try eassumption.
    apply urlparse_regular, regular_base_app; [assumption|].
    apply url_safe_id_plain in Hp. simpl. now rewrite Hp. }
  split; [exact Hbuild|].
  intros sent.
  change (PersephoneClient.get_build c p b sent) with (client_run c (Get_build p b) sent).
  rewrite client_run_spec. cbn [prepared_request]. rewrite Hbuild. reflexivity.
Qed.

Lemma X12_absolute_url_identifier_witness :
  let N := always (json_response 200 (PDict [])) in
  snd (PersephoneClient.get_build (ip := no_bracketed_host) (net := N)
         example_client (PInt 1) (PStr "http://other.example/x") [])
  = [mk_request GET "http://other.example/x/" ("user", "secret") None [] []].
Proof.
  intros N.
  destruct (X12_absolute_url_identifier (ip := no_bracketed_host) (net := N)
              example_client (PInt 1) (PStr "http://other.example/x")
              "http" "other.example" ["x"]
              eq_refl eq_refl eq_refl eq_refl eq_refl) as [_ Hsent].
  apply (Hsent []).
Defined.

(** X13: dot segments are not rejected as identifiers.  For a root
    endpoint that is an absolute URL and a URL-safe project, the build
    endpoint of the build [".."] is the project endpoint and that of the
    build ["."] is the builds endpoint, so [delete_build(p, "..")] sends
    its DELETE to the project endpoint. *)
Theorem X13_dot_identifiers {ip : Ipaddress} {net : Network}
        (c : PersephoneClient.t) (p : pyval) :
  absolute_root (PersephoneClient.root_endpoint c) = true ->
  url_safe_id p = true ->
  exists project builds : string,
    PersephoneClient._get_project_endpoint c p = Return project
    /\ PersephoneClient._get_builds_endpoint c p = Return builds
    /\ PersephoneClient._get_build_endpoint c p (PStr "..") = Return project
    /\ PersephoneClient._get_build_endpoint c p (PStr ".") = Return builds
    /\ forall sent : list request,
         snd (PersephoneClient.delete_build c p (PStr "..") sent)
         = (sent ++ [mk_request DELETE project
                       (PersephoneClient.username c, PersephoneClient.password c)
                       None [] []])%list.
Proof.
  intros Hroot Hp.
  destruct (endpoints_of_absolute_root c Hroot) as (sch & host & segs & Hreg & Hapi).
  pose proof (project_endpoint_regular c sch host segs Hapi Hreg p Hp) as Hproject.
  pose proof (builds_endpoint_regular c sch host segs Hapi Hreg p Hp) as Hbuilds.
  pose proof (url_safe_id_plain _ Hp) as Hplain.
  assert (Hreg1 : regular_base sch host (segs ++ ["projects"; Py.str p]) = true)
    by (apply regular_base_app; [assumption | simpl; now rewrite Hplain]).
  assert (Hreg2 : regular_base sch host (segs ++ ["projects"; Py.str p; "builds"]) = true)
    by (apply regular_base_app; [assumption | simpl; now rewrite Hplain]).
  assert (Hparent : PersephoneClient._get_build_endpoint c p (PStr "..")
                    = Return (abs_url sch host (segs ++ ["projects"; Py.str p]))).
  { unfold PersephoneClient._get_build_endpoint. rewrite Hbuilds. cbn [rbind].
    change (Py.format_slash (PStr "..")) with "../".
    change (segs ++ ["projects"; Py.str p; "builds"])%list
      with (segs ++ ["projects"; Py.str p] ++ ["builds"])%list.
    rewrite app_assoc. now apply urljoin_parent. }
  exists (abs_url sch host (segs ++ ["projects"; Py.str p])),
    (abs_url sch host (segs ++ ["projects"; Py.str p; "builds"])).
  split; [exact Hproject|]. split; [exact Hbuilds|]. split; [exact Hparent|]. split.
  - unfold PersephoneClient._get_build_endpoint. rewrite Hbuilds. cbn [rbind].
    change (Py.format_slash (PStr ".")) with "./".
    now apply urljoin_self.
  - intros sent.
    transitivity (snd (client_run c (Delete_build p (PStr "..")) sent)).
    + cbn [client_run]. unfold returning_None, bind.
      now destruct (PersephoneClient.delete_build c p (PStr "..") sent) as [[[]|e] s].
    + rewrite client_run_spec. cbn [prepared_request]. now rewrite Hparent.
Qed.

Lemma X13_dot_identifiers_witness :
  let N := always (json_response 200 (PDict [])) in
  snd (PersephoneClient.delete_build (ip := no_bracketed_host) (net := N)
         example_client (PInt 1) (PStr "..") [])
  = [mk_request DELETE "http://example.com/api/v1/projects/1/" ("user", "secret")
       None [] []].
Proof.
  intros N.
  destruct (X13_dot_identifiers (ip := no_bracketed_host) (net := N)
              example_client (PInt 1) eq_refl eq_refl)
    as (project & builds & Hproject & _ & _ & _ & Hsent).
  change (Return "http://example.com/api/v1/projects/1/" = Return project) in Hproject.
  injection Hproject as <-. apply (Hsent []).
Defined.



(** X16: a helper operation that made its call and raised can be
    retried: called again on the helper it left behind, it makes the very
    same call once more. *)
Theorem X16_retry_repeats_call {ip : Ipaddress} {net : Network}
        (o : helper_call) (w : world) (req : request) (e : exn) :
  sent (snd (helper_run o w)) = (sent w ++ [req])%list ->
  fst (helper_run o w) = Raise e ->
  sent (snd (helper_run o (snd (helper_run o w)))) = (sent w ++ [req; req])%list.
Proof.
  intros Hsent Hraise.
  pose proof (helper_raise_keeps_self o w e Hraise) as Hself.
  destruct (helper_recorded_call o w req Hsent) as [Hg Hreq].
  rewrite (helper_run_prepared o (snd (helper_run o w)) req);
    rewrite ?Hself; try assumption.
  rewrite helper_finishes_sent, Hsent, <- app_assoc. reflexivity.
Qed.

Lemma X16_retry_repeats_call_witness :
  let N := always (json_response 503 (PDict [])) in
  let w := mk_world (example_helper "http://example.com/" (Some (PInt 7))) [] in
  let req := mk_request POST "http://example.com/api/v1/projects/1/builds/7/finish"
               ("user", "secret") None [] [] in
  sent (snd (helper_run (ip := no_bracketed_host) (net := N) Helper_finish_build
               (snd (helper_run (ip := no_bracketed_host) (net := N)
                       Helper_finish_build w))))
  = [req; req].
Proof.
  intros N w req.
  apply (X16_retry_repeats_call (ip := no_bracketed_host) (net := N)
           Helper_finish_build w req (HTTPError (json_response 503 (PDict []))));
    reflexivity.
Defined.



(** X18: [create_build] stores whatever ["id"] the service returns.
    When that id is false in Python's truth test (null, 0, the empty
    string), [create_build] returns as if it had succeeded, but the helper
    holds no build: every build-scoped operation that follows raises the
    "no build running" error without making a call, and a further
    [create_build] passes its guard. *)
Theorem X18_false_build_id {ip : Ipaddress} {net : Network}
        (w : world) (req : request) (resp : response) (b id : pyval) :
  sent (snd (helper_run Helper_create_build w)) = (sent w ++ [req])%list ->
  server (sent w) req = Some resp ->
  error_status resp = false ->
  json_body resp = Some b ->
  getitem b "id" = Return id ->
  Py.truthy id = false ->
  let w' := mk_world (with_build_id (self w) id) (sent w ++ [req])%list in
  helper_run Helper_create_build w = (Return PNone, w')
  /\ (forall o : helper_call,
         build_scoped o = true ->
         helper_run o w' = (Raise (PersephoneException no_build_running), w'))
  /\ guard_passes Helper_create_build (self w') = true.
Proof.
  intros [Hg Hreq]%helper_recorded_call Hresp Hstatus Hbody Hid Hfalse w'.
  split; [|split].
  - rewrite (helper_run_prepared _ _ _ Hg Hreq). unfold outcome_of.
    rewrite Hresp, Hstatus. cbn [helper_client_call decodes_body].
    rewrite Hbody. unfold helper_finishes. now rewrite Hid.
  - intros o Ho. now apply build_scoped_rejected.
  - unfold guard_passes. cbn [build_scoped]. unfold w'. cbn [self build_id with_build_id].
    now rewrite Hfalse.
Qed.

Lemma X18_false_build_id_witness :
  let N := always (json_response 201 (PDict [("id", PInt 0)])) in
  let w := mk_world (example_helper "http://example.com/" None) [] in
  let req :=
    mk_request POST "http://example.com/api/v1/projects/1/builds/" ("user", "secret")
      (Some (PDict [("commit_hash", PStr "c0ffee"); ("branch_name", PNone);
                    ("original_build_number", PNone); ("original_build_url", PNone);
                    ("pull_request_id", PNone)]))
      [] [] in
  let w' := mk_world (with_build_id (self w) (PInt 0)) [req] in
  helper_run (ip := no_bracketed_host) (net := N) Helper_finish_build w'
  = (Raise (PersephoneException no_build_running), w').
Proof.
  intros N w req w'.
  destruct (X18_false_build_id (ip := no_bracketed_host) (net := N) w req
              (json_response 201 (PDict [("id", PInt 0)]))
              (PDict [("id", PInt 0)]) (PInt 0)
              eq_refl eq_refl eq_refl eq_refl eq_refl eq_refl)
    as (_ & Hnext & _).
  apply (Hnext Helper_finish_build eq_refl).
Defined.
